(** * kohasayim: barcode classification and reconciliation engine

    A shallow embedding of the inventory-count engine of the kohasayim
    application and the proofs of its specification.

    Sources embedded here:
    - [src/unnamed/part_000]: the React component holding [isIsbn],
      [processBarcode], [handleDeleteItem], [handleClearAllScans],
      [handleExcelUpload], [summaryData] and the report generators
      (module-free definitions below);
    - [src/src/App.jsx]: the variant of the component without the ISBN
      branch ([Legacy]);
    - [src/public/worker.js]: the web-worker variant ([Worker]).

    Modelling conventions.
    - JavaScript strings are [string]; [trim] strips the ASCII white space
      characters (code points 9-13 and 32).
    - JavaScript numbers that the engine computes with as integers
      (library codes, digit sums, millisecond time stamps) are [Z].
      The embedding is exact wherever the double arithmetic of the source
      is exact on integers (magnitudes below 2^53).
    - The throughput of [summaryData] is computed with divisions, which
      round; there the numbers are the binary64 values of [spec_float]
      with the operations of the Standard Library's IEEE 754
      specification.
    - A [Map] with string keys that is only looked up is a [gmap]; a [Map]
      that is iterated in insertion order is an association list; a [Set]
      of strings is a [gset].
    - React state and refs are threaded explicitly: a [Session] holds the
      mutable values, an [Env] the values a callback captured when it was
      created.
    - Sounds, modals and the other presentation effects are left out. *)

From Stdlib Require Import ZArith QArith Qround Qabs Qpower Lqa SpecFloat.
From Stdlib Require Import Ascii String List DecimalString.
From stdpp Require Import base decidable option list strings gmap.

Local Open Scope string_scope.
Local Open Scope Z_scope.

(** ** JavaScript string primitives *)

(** The character class [[0-9]]. *)
Definition isDigit (c : ascii) : bool :=
  ((48 <=? nat_of_ascii c) && (nat_of_ascii c <=? 57))%nat.

(** The white space that [String.prototype.trim] and [parseInt] skip. *)
Definition isSpace (c : ascii) : bool :=
  ((nat_of_ascii c =? 32) || ((9 <=? nat_of_ascii c) && (nat_of_ascii c <=? 13)))%nat.

(** [s.replace(/[^0-9]/g, '')] *)
Fixpoint stripNonDigits (s : string) : string :=
  match s with
  | EmptyString => EmptyString
  | String c r => if isDigit c then String c (stripNonDigits r) else stripNonDigits r
  end.

Fixpoint trimStart (s : string) : string :=
  match s with
  | EmptyString => EmptyString
  | String c r => if isSpace c then trimStart r else s
  end.

Fixpoint trimEnd (s : string) : string :=
  match s with
  | EmptyString => EmptyString
  | String c r =>
      match trimEnd r with
      | EmptyString => if isSpace c then EmptyString else String c EmptyString
      | r' => String c r'
      end
  end.

(** [s.trim()] *)
Definition trim (s : string) : string := trimEnd (trimStart s).

(** [!s] for a string [s]: only the empty string is falsy. *)
Definition isEmpty (s : string) : bool :=
  match s with EmptyString => true | _ => false end.

(** A run of [n] characters ['0']. *)
Fixpoint zeros (n : nat) : string :=
  match n with
  | O => EmptyString
  | S k => String "0"%char (zeros k)
  end.

(** [s.padStart(targetLength, '0')]: nothing is added when the string is
    already [targetLength] long or longer. *)
Definition padStart (targetLength : nat) (s : string) : string :=
  zeros (targetLength - String.length s) ++ s.

(** [s.slice(0, n)] *)
Definition slice0 (n : nat) (s : string) : string := substring 0 n s.

(** [s.startsWith(p)] *)
Definition startsWith (s p : string) : bool := String.prefix p s.

(** The value [parseInt(c)] of a single digit character. *)
Definition digitVal (c : ascii) : Z := Z.of_nat (nat_of_ascii c) - 48.

(** [parseInt(code[i])] for [i] inside the string; the loop of [isIsbn]
    only runs it on positions 0..12 of a 13-character string. *)
Definition digitAt (code : string) (i : nat) : Z :=
  match String.get i code with
  | Some c => digitVal c
  | None => 0
  end.

Fixpoint takeDigits (s : string) : string :=
  match s with
  | EmptyString => EmptyString
  | String c r => if isDigit c then String c (takeDigits r) else EmptyString
  end.

Fixpoint digitsValue (acc : Z) (s : string) : Z :=
  match s with
  | EmptyString => acc
  | String c r => digitsValue (10 * acc + digitVal c) r
  end.

(** [parseInt(s, 10)]: leading white space is skipped, one sign is read,
    then the longest run of decimal digits; [None] is [NaN]. *)
Definition parseInt (s : string) : option Z :=
  let t := trimStart s in
  let '(negative, body) :=
    match t with
    | String "-"%char r => (true, r)
    | String "+"%char r => (false, r)
    | _ => (false, t)
    end in
  let ds := takeDigits body in
  if isEmpty ds then None
  else Some (if negative then - digitsValue 0 ds else digitsValue 0 ds).

(** [String(n)] for an integer [n]. *)
Definition stringOfZ (n : Z) : string := NilZero.string_of_int (Z.to_int n).

(** [String(parseInt(code, 10) + 1000)]; [NaN + 1000] prints as ["NaN"]. *)
Definition expectedPrefixOf (code : string) : string :=
  match parseInt code with
  | Some n => stringOfZ (n + 1000)
  | None => "NaN"
  end.

(** ** The ISBN-13 predicate

    [isIsbn] has the same text in [part_000] (lines 1366-1379) and in
    [worker.js] (lines 26-37). *)

(** The body of the [for (let i = 0; i < 12; i++)] loop. *)
Definition isbnStep (code : string) (sum : Z) (i : nat) : Z :=
  let digit := digitAt code i in
  sum + (if (i mod 2 =? 0)%nat then digit * 1 else digit * 3).

Definition isbnSum (code : string) : Z :=
  fold_left (isbnStep code) (seq 0 12) 0.

Definition isIsbn (barcode : string) : bool :=
  let code := stripNonDigits barcode in
  if negb (String.length code =? 13)%nat then false
  else if negb (startsWith code "978") && negb (startsWith code "979") then false
  else
    let sum := isbnSum code in
    let checkDigit := (10 - (sum mod 10)) mod 10 in
    checkDigit =? digitAt code 12.

(** The predicate as the specification words it: over the decimal digits
    that remain once every other character is removed. *)
Definition digitsOf (s : string) : list Z :=
  map digitVal (list_ascii_of_string (stripNonDigits s)).

Fixpoint weightedSum (pos : nat) (ds : list Z) : Z :=
  match ds with
  | [] => 0
  | d :: r => (if Nat.even pos then d * 1 else d * 3) + weightedSum (S pos) r
  end.

Definition isbn13_spec (s : string) : Prop :=
  let ds := digitsOf s in
  length ds = 13%nat /\
  (take 3 ds = [9; 7; 8] \/ take 3 ds = [9; 7; 9]) /\
  nth 12 ds 0 = (10 - (weightedSum 0 (take 12 ds) mod 10)) mod 10.


(** ** Data model *)

(** The ids of [WARNING_DEFINITIONS]. *)
Inductive WarningId : Type :=
  | invalidStructure | locationMismatch | notLoanable | notInCollection
  | onLoan | wrongLibrary | deleted | autoCompletedNotFound
  | duplicate | isbnDetected.

#[global] Instance WarningId_eq_dec : EqDecision WarningId.
Proof. solve_decision. Defined.

(** A warning object: its [id] and, for the copy of [wrongLibrary] that
    [processBarcode] builds, the [libraryName] of the matched library.
    The display text, colour, sound and message are presentation. *)
Record Warning : Type := mkWarning {
  warn_id : WarningId;
  warn_libraryName : option string
}.

#[global] Instance Warning_eq_dec : EqDecision Warning.
Proof. solve_decision. Defined.

(** [WARNING_DEFINITIONS.<id>] *)
Definition WARNING_DEFINITIONS (i : WarningId) : Warning :=
  {| warn_id := i; warn_libraryName := None |}.

(** A spreadsheet cell as [sheet_to_json] delivers it: a string or a
    number; an absent property is [None] ([undefined]). *)
Inductive Cell : Type :=
  | CStr (s : string)
  | CNum (n : Z).

#[global] Instance Cell_eq_dec : EqDecision Cell.
Proof. solve_decision. Defined.

(** [String(v)] *)
Definition jsString (v : option Cell) : string :=
  match v with
  | None => "undefined"
  | Some (CStr s) => s
  | Some (CNum n) => stringOfZ n
  end.

(** Truthiness of a cell value, as [v || ''] tests it. *)
Definition truthy (v : option Cell) : bool :=
  match v with
  | None => false
  | Some (CStr s) => negb (isEmpty s)
  | Some (CNum n) => negb (n =? 0)
  end.

(** One row of the catalog export, with the columns the engine reads. *)
Record Row : Type := mkRow {
  barkod : option Cell;
  materyal_statusu_kodu : option Cell;
  odunc_verilebilirlik_kodu : option Cell;
  materyalin_yeri_kodu : option Cell;
  odunc_durumu : option Cell;
  eser_adi : option Cell
}.

#[global] Instance Row_eq_dec : EqDecision Row.
Proof. solve_decision. Defined.

(** One entry of [scannedItems]. [data] is [None] for [undefined] and
    [null] alike (the source only tests it for truthiness); [timestamp]
    is the instant of [new Date().toISOString()] in milliseconds, the
    resolution of that string.  The field [hasWarnings], which only the
    last branch of [processBarcode] sets and nothing reads, is left out. *)
Record ScanEvent : Type := mkScanEvent {
  barcode : string;
  isValid : bool;
  warnings : list Warning;
  data : option Row;
  timestamp : Z
}.

#[global] Instance ScanEvent_eq_dec : EqDecision ScanEvent.
Proof. solve_decision. Defined.

(** What [processBarcode] returns. *)
Inductive Outcome : Type :=
  | OutcomeIgnored
  | OutcomeIsbn
  | OutcomeError (ws : list Warning)
  | OutcomeSuccess.

(** The values captured by the [useCallback] closure of [processBarcode]
    (its dependency list): the scope, the catalog index, the library
    directory in insertion order, and the value of [scannedItems] at the
    render that created the callback. *)
Record Env : Type := mkEnv {
  selectedLibrary : string;
  selectedLocation : string;
  kohaDataMap : gmap string Row;
  combinedLibraries : list (string * string);
  renderedItems : list ScanEvent
}.

(** The mutable session: the [scannedItems] state (most recent first),
    [processedBarcodesRef.current] and the [lastScanned] state. *)
Record Session : Type := mkSession {
  scannedItems : list ScanEvent;
  processedBarcodes : gset string;
  lastScanned : option ScanEvent
}.

(** The session of [startNewSession]. *)
Definition emptySession : Session :=
  {| scannedItems := []; processedBarcodes := ∅; lastScanned := None |}.

(** ** Normalization ([processBarcode], lines 1395-1408) *)

Record Normalized : Type := mkNormalized {
  originalBarcode : string;
  normalizedBarcode : string;
  wasAutoCompleted : bool
}.

Definition normalize (expectedPrefix rawBarcode : string) : Normalized :=
  let originalBarcode := stripNonDigits rawBarcode in
  let normalizedBarcode := originalBarcode in
  let normalizedBarcode :=
    if (13 <=? String.length normalizedBarcode)%nat
    then slice0 12 normalizedBarcode else normalizedBarcode in
  if (String.length normalizedBarcode <? 12)%nat
     && (0 <? String.length normalizedBarcode)%nat
  then {| originalBarcode := originalBarcode;
          normalizedBarcode :=
            expectedPrefix
            ++ padStart (12 - String.length expectedPrefix) originalBarcode;
          wasAutoCompleted := true |}
  else {| originalBarcode := originalBarcode;
          normalizedBarcode := normalizedBarcode;
          wasAutoCompleted := false |}.

(** ** Classification ([processBarcode], lines 1410-1478) *)

(** The [for (const [code, name] of combinedLibraries.entries())] loop
    with its [break]: the name of the first library whose prefix matches. *)
Fixpoint findLibrary (normalizedBarcode : string)
    (libraries : list (string * string)) : option string :=
  match libraries with
  | [] => None
  | (code, name) :: rest =>
      if startsWith normalizedBarcode (expectedPrefixOf code) then Some name
      else findLibrary normalizedBarcode rest
  end.

(** [finalWarning] of the structural check. *)
Definition structuralWarning (normalizedBarcode : string)
    (libraries : list (string * string)) : Warning :=
  match findLibrary normalizedBarcode libraries with
  | Some name => {| warn_id := wrongLibrary; warn_libraryName := Some name |}
  | None => WARNING_DEFINITIONS invalidStructure
  end.

(** The four field checks on a catalog record, pushed in this order. *)
Definition fieldWarnings (selectedLocation : string) (itemData : Row)
    : list Warning :=
  (if negb (isEmpty selectedLocation)
      && negb (String.eqb
                 (if truthy (materyalin_yeri_kodu itemData)
                  then jsString (materyalin_yeri_kodu itemData) else "")
                 selectedLocation)
   then [WARNING_DEFINITIONS locationMismatch] else [])
  ++ (let loanEligibilityCode := jsString (odunc_verilebilirlik_kodu itemData) in
      if negb (String.eqb loanEligibilityCode "0"
               || String.eqb loanEligibilityCode "2")
      then [WARNING_DEFINITIONS notLoanable] else [])
  ++ (if negb (String.eqb (jsString (materyal_statusu_kodu itemData)) "0")
      then [WARNING_DEFINITIONS notInCollection] else [])
  ++ (if String.eqb (jsString (odunc_durumu itemData)) "1"
      then [WARNING_DEFINITIONS onLoan] else []).

(** [warnings] of the catalog lookup. *)
Definition lookupWarnings (selectedLocation : string) (wasAutoCompleted : bool)
    (itemData : option Row) : list Warning :=
  match itemData with
  | Some itemData => fieldWarnings selectedLocation itemData
  | None =>
      [if wasAutoCompleted then WARNING_DEFINITIONS autoCompletedNotFound
       else WARNING_DEFINITIONS deleted]
  end.

(** [scannedItems.find(item => item.barcode === b)?.data || kohaDataMap.get(b)] *)
Definition existingItemData (items : list ScanEvent)
    (index : gmap string Row) (b : string) : option Row :=
  match find (fun item => String.eqb (barcode item) b) items with
  | Some item =>
      match data item with
      | Some d => Some d
      | None => index !! b
      end
  | None => index !! b
  end.

(** [setScannedItems(prev => [scanResult, ...prev]); setLastScanned(scanResult)] *)
Definition record (scanResult : ScanEvent) (st : Session) : Session :=
  {| scannedItems := scanResult :: scannedItems st;
     processedBarcodes := processedBarcodes st;
     lastScanned := Some scanResult |}.

(** [processedBarcodesRef.current.add(b)] *)
Definition markProcessed (b : string) (st : Session) : Session :=
  {| scannedItems := scannedItems st;
     processedBarcodes := {[ b ]} ∪ processedBarcodes st;
     lastScanned := lastScanned st |}.

(** Lines 1395-1478: everything after the [ignored] and ISBN exits.
    [now] is the clock reading of [new Date()]. *)
Definition classify (c : Env) (rawBarcode : string) (now : Z) (st : Session)
    : Outcome * Session :=
  let expectedPrefix := expectedPrefixOf (selectedLibrary c) in
  let n := normalize expectedPrefix rawBarcode in
  if bool_decide (normalizedBarcode n ∈ processedBarcodes st) then
    let warning := WARNING_DEFINITIONS duplicate in
    let scanResult :=
      {| barcode := normalizedBarcode n; isValid := false;
         warnings := [warning];
         data := existingItemData (renderedItems c) (kohaDataMap c)
                   (normalizedBarcode n);
         timestamp := now |} in
    (OutcomeError [warning], record scanResult st)
  else
    let st := markProcessed (normalizedBarcode n) st in
    if (String.length (normalizedBarcode n) =? 12)%nat
       && negb (startsWith (normalizedBarcode n) expectedPrefix)
    then
      let finalWarning :=
        structuralWarning (normalizedBarcode n) (combinedLibraries c) in
      let scanResult :=
        {| barcode := originalBarcode n; isValid := false;
           warnings := [finalWarning];
           data := kohaDataMap c !! normalizedBarcode n;
           timestamp := now |} in
      (OutcomeError [finalWarning], record scanResult st)
    else
      let itemData := kohaDataMap c !! normalizedBarcode n in
      let warnings :=
        lookupWarnings (selectedLocation c) (wasAutoCompleted n) itemData in
      let scanResult :=
        {| barcode := normalizedBarcode n;
           isValid := (length warnings =? 0)%nat;
           warnings := warnings; data := itemData; timestamp := now |} in
      (if (0 <? length warnings)%nat then OutcomeError warnings
       else OutcomeSuccess,
       record scanResult st).

(** [processBarcode(barcode, isBulk)] of [part_000]. [isBulk] only
    silences the sound and the modal, which are not modelled. *)
Definition processBarcode (c : Env) (barcode : string) (now : Z) (st : Session)
    : Outcome * Session :=
  let rawBarcode := trim barcode in
  if isEmpty rawBarcode || isEmpty (selectedLibrary c) then (OutcomeIgnored, st)
  else if isIsbn rawBarcode then (OutcomeIsbn, st)
  else classify c rawBarcode now st.

(** ** Deleting scans ([handleDeleteItem], [handleClearAllScans]) *)

(** The [onConfirm] callback of [handleDeleteItem].  [filter] removes
    every event that carries the time stamp; the barcode that may be
    evicted is that of the first such event. *)
Definition handleDeleteItem (timestampToDelete : Z) (st : Session) : Session :=
  let currentItems := scannedItems st in
  match find (fun item => timestamp item =? timestampToDelete) currentItems with
  | None => st
  | Some itemToDelete =>
      let barcodeToDelete := barcode itemToDelete in
      let count :=
        length (List.filter
                  (fun item => String.eqb (barcode item) barcodeToDelete)
                  currentItems) in
      let isLastInstanceOfBarcode := (count =? 1)%nat in
      let newItems :=
        List.filter (fun item => negb (timestamp item =? timestampToDelete))
          currentItems in
      {| scannedItems := newItems;
         processedBarcodes :=
           if isLastInstanceOfBarcode
           then processedBarcodes st ∖ {[ barcodeToDelete ]}
           else processedBarcodes st;
         lastScanned :=
           match lastScanned st with
           | Some l =>
               if timestamp l =? timestampToDelete then head newItems
               else Some l
           | None => None
           end |}
  end.

(** The [onConfirm] callback of [handleClearAllScans]. *)
Definition handleClearAllScans (st : Session) : Session :=
  {| scannedItems := []; processedBarcodes := ∅; lastScanned := None |}.


(** ** The variant of [src/src/App.jsx]

    Its [processBarcode] (lines 2785-2873) is the text of [part_000]
    without the ISBN exit; it returns [true] where [part_000] returns an
    [error] outcome and [false] otherwise. *)
Module Legacy.

Definition processBarcode (c : Env) (barcode : string) (now : Z) (st : Session)
    : bool * Session :=
  let rawBarcode := trim barcode in
  if isEmpty rawBarcode || isEmpty (selectedLibrary c) then (false, st)
  else
    let '(outcome, st') := classify c rawBarcode now st in
    (match outcome with OutcomeError _ => true | _ => false end, st').

End Legacy.

(** ** Loading the catalog ([handleExcelUpload], lines 1340-1364) *)

(** [new Map(json.map(item => [String(item.barkod), item]))]: a later row
    replaces an earlier one that has the same key. *)
Definition buildIndex (json : list Row) : gmap string Row :=
  fold_left (fun m item => <[ jsString (barkod item) := item ]> m) json ∅.

(** [json.length === 0 || !json[0].hasOwnProperty('barkod')] *)
Definition missingColumn (json : list Row) : bool :=
  match json with
  | [] => true
  | first :: _ => negb (bool_decide (is_Some (barkod first)))
  end.

Inductive LoadError : Type := MissingColumn.

Module Catalog.

(** The [kohaData], [kohaDataMap] and [error] states of the component. *)
Record State : Type := mkState {
  kohaData : list Row;
  kohaDataMap : gmap string Row;
  error : option LoadError
}.

(** The [reader.onload] callback, given the rows [json] that
    [sheet_to_json] produced: the [throw] is caught and only sets the
    error. *)
Definition handleExcelUpload (json : list Row) (st : State) : State :=
  if missingColumn json
  then {| kohaData := kohaData st; kohaDataMap := kohaDataMap st;
          error := Some MissingColumn |}
  else {| kohaData := json; kohaDataMap := buildIndex json; error := None |}.

End Catalog.

(** ** The web worker ([src/public/worker.js]) *)
Module Worker.

(** The globals of the worker. *)
Record State : Type := mkState {
  kohaDataMap : gmap string Row;
  combinedLibraries : list (string * string);
  processedBarcodes : gset string
}.

(** The payload of a [PROCESS_BARCODE] message. *)
Record Payload : Type := mkPayload {
  p_barcode : string;
  p_selectedLibrary : string;
  p_selectedLocation : string
}.

(** The messages the worker posts. *)
Inductive Message : Type :=
  | BARCODE_PROCESSED (result : ScanEvent)
  | DATA_READY (count : nat) (kohaData : list Row)
  | ERROR (e : LoadError).

(** [processBarcodeLogic] (lines 128-192); [None] is [null]. *)
Definition processBarcodeLogic (p : Payload) (now : Z) (st : State)
    : option ScanEvent :=
  let rawBarcode := trim (p_barcode p) in
  if isEmpty rawBarcode || isEmpty (p_selectedLibrary p) then None
  else if isIsbn rawBarcode then
    Some {| barcode := rawBarcode; isValid := false;
            warnings := [WARNING_DEFINITIONS isbnDetected];
            data := None; timestamp := now |}
  else
    let expectedPrefix := expectedPrefixOf (p_selectedLibrary p) in
    let n := normalize expectedPrefix rawBarcode in
    if bool_decide (normalizedBarcode n ∈ processedBarcodes st) then
      let existingItemData := kohaDataMap st !! normalizedBarcode n in
      Some {| barcode := normalizedBarcode n; isValid := false;
              warnings := [WARNING_DEFINITIONS duplicate];
              data := existingItemData; timestamp := now |}
    else if (String.length (normalizedBarcode n) =? 12)%nat
            && negb (startsWith (normalizedBarcode n) expectedPrefix)
    then
      let finalWarning :=
        structuralWarning (normalizedBarcode n) (combinedLibraries st) in
      Some {| barcode := originalBarcode n; isValid := false;
              warnings := [finalWarning];
              data := kohaDataMap st !! normalizedBarcode n;
              timestamp := now |}
    else
      let itemData := kohaDataMap st !! normalizedBarcode n in
      let warnings :=
        lookupWarnings (p_selectedLocation p) (wasAutoCompleted n) itemData in
      Some {| barcode := normalizedBarcode n;
              isValid := (length warnings =? 0)%nat;
              warnings := warnings; data := itemData; timestamp := now |}.

(** [processSingleBarcode] (lines 100-106). *)
Definition processSingleBarcode (p : Payload) (now : Z) (st : State)
    : State * list Message :=
  match processBarcodeLogic p now st with
  | Some result =>
      ({| kohaDataMap := kohaDataMap st;
          combinedLibraries := combinedLibraries st;
          processedBarcodes := {[ barcode result ]} ∪ processedBarcodes st |},
       [BARCODE_PROCESSED result])
  | None => (st, [])
  end.

(** The [reader.onload] callback of [handleExcelLoad] (lines 69-97). *)
Definition handleExcelLoad (json : list Row) (st : State)
    : State * list Message :=
  if missingColumn json then (st, [ERROR MissingColumn])
  else
    let index := buildIndex json in
    ({| kohaDataMap := index;
        combinedLibraries := combinedLibraries st;
        processedBarcodes := processedBarcodes st |},
     [DATA_READY (size index) json]).

End Worker.

(** ** Reconciliation ([summaryData], line 1774, and the reports) *)

(** *** Numbers

    [summaryData] computes the throughput in JavaScript Numbers, the
    binary64 format of IEEE 754.  [spec_float] of the Standard Library,
    at precision 53 and exponent bound 1024, is that format, and
    [SFsub], [SFmul] and [SFdiv] are its correctly rounded operations. *)

(** An integer as a Number: the nearest binary64 value. *)
Definition numberOfZ (z : Z) : spec_float := binary_normalize 53 1024 z 0 false.

(** The rational that a finite Number stands for. *)
Definition numberValue (x : spec_float) : Q :=
  match x with
  | S754_finite s m e =>
      let v := (inject_Z (Zpos m) * 2 ^ e)%Q in if s then (- v)%Q else v
  | _ => 0%Q
  end.

(** [scanSpeed] is a Number or the string of the infinity sign.  The
    Number is an integer, unless [Math.round] is handed an infinity or a
    NaN, which it returns. *)
Inductive ScanSpeed : Type :=
  | Speed (n : Z)
  | SpeedInfinity
  | SpeedNotFinite (x : spec_float).

(** [Math.round] on a real: the nearest integer, a tie going up. *)
Definition mathRound (x : Q) : Z := Qfloor (x + (1 # 2)).

(** [Math.round(x)] *)
Definition mathRoundNumber (x : spec_float) : ScanSpeed :=
  match x with
  | S754_zero _ | S754_finite _ _ _ => Speed (mathRound (numberValue x))
  | S754_infinity _ | S754_nan => SpeedNotFinite x
  end.

(** The [scanSpeed] of [summaryData].  [getTime()] and [length] are
    integral Numbers. *)
Definition scanSpeedOf (scannedItems : list ScanEvent) : ScanSpeed :=
  if (1 <? length scannedItems)%nat then
    match last scannedItems, head scannedItems with
    | Some oldest, Some newest =>
        let firstScanTime := numberOfZ (timestamp oldest) in
        let lastScanTime := numberOfZ (timestamp newest) in
        let durationMinutes :=
          SFdiv 53 1024 (SFsub 53 1024 lastScanTime firstScanTime)
            (SFmul 53 1024 (numberOfZ 1000) (numberOfZ 60)) in
        if SFltb (S754_zero false) durationMinutes
        then mathRoundNumber
               (SFdiv 53 1024 (numberOfZ (Z.of_nat (length scannedItems)))
                  durationMinutes)
        else SpeedInfinity
    | _, _ => Speed 0
    end
  else Speed 0.

(** The number [a / b] lies in [[m, m + 1)] for the mantissa [m] of the
    record, at the place that its round and sticky bits tell. *)
Definition located (mrs : shr_record) (a b : Z) : Prop :=
  0 <= shr_m mrs
  /\ shr_m mrs * b <= a < (shr_m mrs + 1) * b
  /\ (shr_r mrs = true <-> (2 * shr_m mrs + 1) * b <= 2 * a)
  /\ (shr_s mrs = true
      <-> a <> shr_m mrs * b /\ 2 * a <> (2 * shr_m mrs + 1) * b).

(** A Number that has a sign has the sign [s]. *)
Definition signed (s : bool) (x : spec_float) : Prop :=
  match x with
  | S754_zero s' | S754_infinity s' | S754_finite s' _ _ => s' = s
  | S754_nan => True
  end.

(** [m.set(k, v)] on a [Map] kept in insertion order. *)
Fixpoint mapSet {V : Type} (k : string) (v : V) (m : list (string * V))
    : list (string * V) :=
  match m with
  | [] => [(k, v)]
  | (k', v') :: rest =>
      if String.eqb k' k then (k, v) :: rest else (k', v') :: mapSet k v rest
  end.

(** [new Map(entries)] *)
Definition newMap {V : Type} (entries : list (string * V)) : list (string * V) :=
  fold_left (fun m e => mapSet (fst e) (snd e) m) entries [].

(** [String(item['materyal_statusu_kodu']) === '0'] *)
Definition inCollection (item : Row) : bool :=
  String.eqb (jsString (materyal_statusu_kodu item)) "0".

Definition activeKohaData (kohaData : list Row) : list Row :=
  List.filter inCollection kohaData.

(** [item.data && String(item.data['materyal_statusu_kodu']) === '0'] *)
Definition activeScannedItems (scannedItems : list ScanEvent) : list ScanEvent :=
  List.filter
    (fun item => match data item with Some d => inCollection d | None => false end)
    scannedItems.

Definition uniqueActiveScannedItems (scannedItems : list ScanEvent)
    : list ScanEvent :=
  map snd (newMap (map (fun item => (barcode item, item))
                       (activeScannedItems scannedItems))).

(** The headline numbers of [summaryData]; the chart series it also
    returns are presentation. *)
Record Summary : Type := mkSummary {
  totalScanned : nat;
  valid : nat;
  invalid : nat;
  notScannedCount : nat;
  scanSpeed : ScanSpeed
}.

Definition summaryData (kohaData : list Row) (scannedItems : list ScanEvent)
    : option Summary :=
  if (length scannedItems =? 0)%nat && (length kohaData =? 0)%nat then None
  else
    let unique := uniqueActiveScannedItems scannedItems in
    let valid := length (List.filter isValid unique) in
    let invalid := (length unique - valid)%nat in
    let activeKohaBarcodes : gset string :=
      list_to_set (map (fun item => jsString (barkod item))
                       (activeKohaData kohaData)) in
    let activeScannedBarcodes : gset string :=
      list_to_set (map barcode unique) in
    let notScannedCount :=
      length (List.filter
                (fun b => negb (bool_decide (b ∈ activeScannedBarcodes)))
                (elements activeKohaBarcodes)) in
    Some {| totalScanned := length scannedItems; valid := valid;
            invalid := invalid; notScannedCount := notScannedCount;
            scanSpeed := scanSpeedOf scannedItems |}.

(** [i.warnings.some(w => w.id === 'duplicate')] *)
Definition duplicateWarned (i : ScanEvent) : bool :=
  existsb (fun w => bool_decide (warn_id w = duplicate)) (warnings i).

(** [missingItems] of the report [POST_SCAN_REPORTS_CONFIG.missing]
    (line 1753). *)
Definition missingItems (kohaData : list Row) (scannedItems : list ScanEvent)
    : list Row :=
  let scannedBarcodes : gset string :=
    list_to_set (map barcode
                     (List.filter (fun i => negb (duplicateWarned i))
                                  scannedItems)) in
  List.filter
    (fun i => inCollection i
              && negb (bool_decide (jsString (barkod i) ∈ scannedBarcodes)))
    kohaData.

(** ** Definitions used by the statements *)

(** The scan is neither ignored nor taken for an ISBN. *)
Definition reachesClassifier (c : Env) (input : string) : bool :=
  negb (isEmpty (trim input)) && negb (isEmpty (selectedLibrary c))
  && negb (isIsbn (trim input)).

(** The [normalizedBarcode] that [processBarcode] computes for an input. *)
Definition normalizedOf (c : Env) (input : string) : string :=
  normalizedBarcode
    (normalize (expectedPrefixOf (selectedLibrary c)) (trim input)).

(** The worker globals and message that correspond to a component
    environment and session. *)
Definition workerOf (c : Env) (st : Session) : Worker.State :=
  {| Worker.kohaDataMap := kohaDataMap c;
     Worker.combinedLibraries := combinedLibraries c;
     Worker.processedBarcodes := processedBarcodes st |}.

Definition payloadOf (c : Env) (input : string) : Worker.Payload :=
  {| Worker.p_barcode := input;
     Worker.p_selectedLibrary := selectedLibrary c;
     Worker.p_selectedLocation := selectedLocation c |}.

(** The record and scope of the end-to-end scenario: library 12, a
    second registered library 8999 whose prefix is 9999. *)
Definition sampleRow : Row :=
  {| barkod := Some (CStr "101200012345");
     materyal_statusu_kodu := Some (CNum 0);
     odunc_verilebilirlik_kodu := Some (CNum 0);
     materyalin_yeri_kodu := Some (CStr "YB");
     odunc_durumu := Some (CNum 0);
     eser_adi := Some (CStr "Kitap") |}.

Definition sampleEnv : Env :=
  {| selectedLibrary := "12"; selectedLocation := "YB";
     kohaDataMap := buildIndex [sampleRow];
     combinedLibraries := [("12", "ADANA"); ("8999", "IKINCI")];
     renderedItems := [] |}.

(** The environment after a re-render: the callback sees the ledger. *)
Definition rerender (c : Env) (st : Session) : Env :=
  {| selectedLibrary := selectedLibrary c;
     selectedLocation := selectedLocation c;
     kohaDataMap := kohaDataMap c;
     combinedLibraries := combinedLibraries c;
     renderedItems := scannedItems st |}.

(** The session after the first scan of the sample record. *)
Definition scannedOnce : Session :=
  (processBarcode sampleEnv "101200012345" 1 emptySession).2.

(** A run of scans, each with its own environment and clock reading. *)
Definition scanAll (scans : list (Env * string * Z)) (st : Session) : Session :=
  fold_left (fun s scan => (processBarcode scan.1.1 scan.1.2 scan.2 s).2) scans st.

Definition isbnPayload : Worker.Payload :=
  {| Worker.p_barcode := "9780134190440";
     Worker.p_selectedLibrary := "8780";
     Worker.p_selectedLocation := "" |}.

Definition itemPayload : Worker.Payload :=
  {| Worker.p_barcode := "134190440";
     Worker.p_selectedLibrary := "8780";
     Worker.p_selectedLocation := "" |}.

Definition workerStart : Worker.State :=
  {| Worker.kohaDataMap := ∅;
     Worker.combinedLibraries := [("8780", "KUTUPHANE")];
     Worker.processedBarcodes := ∅ |}.

(** The key [String(item.barkod)] of a row. *)
Definition rowKey (item : Row) : string := jsString (barkod item).

(** Three scans over a minute and a half. *)
Definition threeScans : list ScanEvent :=
  [ {| barcode := "101200000003"; isValid := true; warnings := [];
       data := None; timestamp := 90001 |};
    {| barcode := "101200000002"; isValid := true; warnings := [];
       data := None; timestamp := 1000 |};
    {| barcode := "101200000001"; isValid := true; warnings := [];
       data := None; timestamp := 1 |} ].

(** Three scans over 1600 milliseconds. *)
Definition threeQuickScans : list ScanEvent :=
  [ {| barcode := "101200000003"; isValid := true; warnings := [];
       data := None; timestamp := 1700000001600 |};
    {| barcode := "101200000002"; isValid := true; warnings := [];
       data := None; timestamp := 1700000000800 |};
    {| barcode := "101200000001"; isValid := true; warnings := [];
       data := None; timestamp := 1700000000000 |} ].

(** The count as the specification words it: the catalog records that
    are in the collection and whose identifier is the identifier of no
    scan event without the duplicate warning. *)
Definition missingCount_spec (kohaData : list Row) (scannedItems : list ScanEvent)
    : nat :=
  length
    (List.filter
       (fun r =>
          inCollection r
          && negb (existsb (fun e => negb (duplicateWarned e)
                                     && String.eqb (barcode e) (rowKey r))
                           scannedItems))
       kohaData).

(** The ledger after a scan, a repeat of it and the removal of the first
    of the two events. *)
Definition repeatOnly : Session :=
  handleDeleteItem 1
    (processBarcode sampleEnv "101200012345" 2 scannedOnce).2.

(** The operations on a session. *)
Inductive Op : Type :=
  | OpScan (c : Env) (input : string) (now : Z)
  | OpDelete (timestampToDelete : Z)
  | OpClear.

Definition step (st : Session) (op : Op) : Session :=
  match op with
  | OpScan c input now => (processBarcode c input now st).2
  | OpDelete timestampToDelete => handleDeleteItem timestampToDelete st
  | OpClear => handleClearAllScans st
  end.

Definition run (ops : list Op) (st : Session) : Session :=
  fold_left step ops st.

(** The invariant as the specification states it. *)
Definition seenMatchesNonDuplicates (st : Session) : Prop :=
  processedBarcodes st
  = list_to_set
      (map barcode
         (List.filter (fun e => negb (duplicateWarned e)) (scannedItems st))).

(** The invariant over every event of the ledger. *)
Definition seenMatchesLedger (st : Session) : Prop :=
  processedBarcodes st = list_to_set (map barcode (scannedItems st)).

(** An input of 13 digits or more that the structural check rejects: its
    event stores the untruncated digits. *)
Definition truncatedRejection (c : Env) (input : string) : bool :=
  (13 <=? String.length (stripNonDigits input))%nat
  && negb (startsWith (normalizedOf c input)
             (expectedPrefixOf (selectedLibrary c))).

(** A scan is admissible when its clock reading is that of no event of
    the ledger and it is not a truncated rejection. *)
Definition admissible (st : Session) (op : Op) : bool :=
  match op with
  | OpScan c input now =>
      forallb (fun e => negb (timestamp e =? now)) (scannedItems st)
      && negb (truncatedRejection c input)
  | OpDelete _ | OpClear => true
  end.

Fixpoint admissibleRun (ops : list Op) (st : Session) : bool :=
  match ops with
  | [] => true
  | op :: rest => admissible st op && admissibleRun rest (step st op)
  end.

(** The invariant the proof carries: distinct time stamps, and the seen
    set is the set of the identifiers of the ledger. *)
Definition ledgerInvariant (st : Session) : Prop :=
  NoDup (map timestamp (scannedItems st)) /\ seenMatchesLedger st.

(** The sample record scanned at time 1 and again at time 2, then the
    first event deleted. *)
Definition scanRepeatDelete : list Op :=
  [OpScan sampleEnv "101200012345" 1; OpScan sampleEnv "101200012345" 2;
   OpDelete 1].

(** ** Further code of the component and the worker *)


(** [String(itemData['materyalin_yeri_kodu'] || '')] *)
Definition locationOf (itemData : Row) : string :=
  if truthy (materyalin_yeri_kodu itemData)
  then jsString (materyalin_yeri_kodu itemData) else "".

(** The four field warnings in the order in which they are pushed. *)
Definition fieldWarningOrder : list Warning :=
  [WARNING_DEFINITIONS locationMismatch; WARNING_DEFINITIONS notLoanable;
   WARNING_DEFINITIONS notInCollection; WARNING_DEFINITIONS onLoan].

(** The outcome that [processBarcode] returns for the event it logs. *)
Definition outcomeOf (ev : ScanEvent) : Outcome :=
  if isValid ev then OutcomeSuccess else OutcomeError (warnings ev).

(** The shapes a list of warnings of a logged event can have. *)
Definition warningShape (c : Env) (n : string) (ws : list Warning) : Prop :=
  ws = [WARNING_DEFINITIONS duplicate]
  \/ ws = [structuralWarning n (combinedLibraries c)]
  \/ ws = [WARNING_DEFINITIONS autoCompletedNotFound]
  \/ ws = [WARNING_DEFINITIONS deleted]
  \/ ws `sublist_of` fieldWarningOrder.

(** The event carries neither [wrongLibrary] nor [invalidStructure]. *)
Definition notRejected (e : ScanEvent) : Prop :=
  Forall (fun w => warn_id w <> wrongLibrary /\ warn_id w <> invalidStructure)
    (warnings e).

(** The boolean that the [processBarcode] of [App.jsx] returns for an
    outcome of the [processBarcode] of [part_000]. *)
Definition isError (o : Outcome) : bool :=
  match o with OutcomeError _ => true | _ => false end.

(** The [normalizedBarcode] that the worker computes for a payload. *)
Definition workerNormalized (p : Worker.Payload) : string :=
  normalizedBarcode
    (normalize (expectedPrefixOf (Worker.p_selectedLibrary p))
       (trim (Worker.p_barcode p))).

(** The payload is neither ignored nor taken for an ISBN. *)
Definition workerReaches (p : Worker.Payload) : bool :=
  negb (isEmpty (trim (Worker.p_barcode p)))
  && negb (isEmpty (Worker.p_selectedLibrary p))
  && negb (isIsbn (trim (Worker.p_barcode p))).

(** The payload has 13 digits or more and its first 12 digits do not
    start with the prefix of the selected library. *)
Definition workerTruncatedRejection (p : Worker.Payload) : bool :=
  (13 <=? String.length (stripNonDigits (Worker.p_barcode p)))%nat
  && negb (startsWith (workerNormalized p)
             (expectedPrefixOf (Worker.p_selectedLibrary p))).

(** What holds of every session however it was reached. *)
Definition sessionInvariant (st : Session) : Prop :=
  Forall (fun e => isValid e = true <-> warnings e = []) (scannedItems st)
  /\ (forall l, lastScanned st = Some l -> l ∈ scannedItems st)
  /\ (forall e, e ∈ scannedItems st -> notRejected e ->
                barcode e ∈ processedBarcodes st).

(** ** Restoring a session ([loadSession], lines 1164-1182)

    [items] is [session.items || []] of the stored snapshot, which the
    auto-save effect (lines 1231-1260) writes from [scannedItems].  The
    seen set is rebuilt from every stored event.  The function also
    restores the scope and empties the catalog states, which are not part
    of [Session]. *)
Definition loadSession (items : list ScanEvent) : Session :=
  {| scannedItems := items;
     processedBarcodes := list_to_set (map barcode items);
     lastScanned := head items |}.

(** ** The list of current loans ([handleOnLoanUpload], lines 1630-1702) *)

(** [s.has(x)] and [s.add(x)] on a [Set] kept in insertion order. *)
Definition setHas (x : string) (s : list string) : bool :=
  existsb (String.eqb x) s.

Definition setAdd (x : string) (s : list string) : list string :=
  if setHas x s then s else (s ++ [x])%list.

(** [new Set(l)] *)
Definition newSet (l : list string) : list string :=
  fold_left (fun s x => setAdd x s) l [].

(** [uploadedBarcodes]: the digit strings of the uploaded cells, without
    the empty ones and without repetitions. *)
Definition uploadedBarcodesOf (barcodes : list string) : list string :=
  newSet (List.filter (fun b => negb (isEmpty b))
            (map (fun b => stripNonDigits (trim b)) barcodes)).

(** The body of [reader.onload] after the file is read into [barcodes].
    [clock i] is the reading of [new Date()] for the [i]-th new event. *)
Definition handleOnLoanUpload (index : gmap string Row) (barcodes : list string)
    (clock : nat -> Z) (st : Session) : Session :=
  let uploadedBarcodes := uploadedBarcodesOf barcodes in
  let newScanResults :=
    imap (fun i b =>
            {| barcode := b; isValid := false;
               warnings := [WARNING_DEFINITIONS onLoan];
               data := index !! b; timestamp := clock i |})
         uploadedBarcodes in
  {| scannedItems :=
       (newScanResults
        ++ List.filter
             (fun item => negb (setHas (barcode item) uploadedBarcodes))
             (scannedItems st))%list;
     processedBarcodes := list_to_set uploadedBarcodes ∪ processedBarcodes st;
     lastScanned := lastScanned st |}.

(** ** Bulk processing ([processBarcodesInChunks], lines 1481-1508) *)

Definition chunkSize : nat := 200.

(** One run of [processChunk] from [index]: the barcodes up to [end] are
    processed in order, [clock i] being the clock reading for the [i]-th
    barcode; the new index is [end]. *)
Definition processChunk (c : Env) (barcodes : list string) (clock : nat -> Z)
    (index : nat) (st : Session) : nat * Session :=
  let end_ := Nat.min (index + chunkSize) (length barcodes) in
  (end_,
   fold_left
     (fun s i => (processBarcode c (nth i barcodes "") (clock i) s).2)
     (seq index (end_ - index)) st).

(** The chain of runs that [setTimeout(processChunk, 0)] schedules while
    [index < barcodes.length], with the progress value set after each
    run.  Every run uses the callback [processBarcode] that was captured
    when the upload started. *)
Fixpoint processChunks (fuel : nat) (c : Env) (barcodes : list string)
    (clock : nat -> Z) (index : nat) (st : Session) : list nat * Session :=
  match fuel with
  | O => ([], st)
  | S fuel' =>
      let '(end_, st') := processChunk c barcodes clock index st in
      if (end_ <? length barcodes)%nat then
        let '(progress, st'') :=
          processChunks fuel' c barcodes clock end_ st' in
        (end_ :: progress, st'')
      else ([end_], st')
  end.

Definition processBarcodesInChunks (c : Env) (barcodes : list string)
    (clock : nat -> Z) (st : Session) : list nat * Session :=
  processChunks (S (length barcodes)) c barcodes clock 0 st.

(** [text.split(/\r?\n/)] *)
Fixpoint splitLines (text : string) : list string :=
  match text with
  | EmptyString => [EmptyString]
  | String c rest =>
      if Ascii.eqb c "010" then EmptyString :: splitLines rest
      else
        match rest with
        | String c' rest' =>
            if Ascii.eqb c "013" && Ascii.eqb c' "010"
            then EmptyString :: splitLines rest'
            else
              match splitLines rest with
              | line :: lines => String c line :: lines
              | [] => [String c EmptyString]
              end
        | EmptyString => [String c EmptyString]
        end
  end.

(** [barcodes] of [handleBulkUpload] (lines 1510-1556) for a text file:
    the lines that are not blank. *)
Definition bulkLinesOfText (text : string) : list string :=
  List.filter (fun line => negb (isEmpty (trim line))) (splitLines text).

(** [handleBulkUpload] for the content of a text file. *)
Definition handleBulkUploadText (c : Env) (text : string) (clock : nat -> Z)
    (st : Session) : list nat * Session :=
  processBarcodesInChunks c (bulkLinesOfText text) clock st.

(** A text file with Windows and Unix line ends, a blank line and an
    ISBN. *)
Definition sampleText : string :=
  "101200012345" ++ String "013" (String "010" "")
  ++ "  " ++ String "010" ""
  ++ "9780134190440" ++ String "010" ""
  ++ "55".

(** ** Reports (lines 1753-1758) *)

(** [data] of the report [cleanList]. *)
Definition cleanList (scannedItems : list ScanEvent) : list (option Row) :=
  map data (List.filter isValid scannedItems).

(** A record that raises none of the warnings that do not depend on the
    selected location. *)
Definition cleanRecord (itemData : Row) : Prop :=
  (jsString (odunc_verilebilirlik_kodu itemData) = "0"
   \/ jsString (odunc_verilebilirlik_kodu itemData) = "2")
  /\ jsString (materyal_statusu_kodu itemData) = "0"
  /\ jsString (odunc_durumu itemData) <> "1".

(** ** The context messages of the worker ([self.onmessage], lines 41-66) *)

(** [SET_CONTEXT]: [new Map(payload.libraryOptions)] and
    [new Set(payload.processedBarcodes)]. *)
Definition workerSetContext (libraryOptions : list (string * string))
    (processed : list string) (st : Worker.State) : Worker.State :=
  {| Worker.kohaDataMap := Worker.kohaDataMap st;
     Worker.combinedLibraries := newMap libraryOptions;
     Worker.processedBarcodes := list_to_set processed |}.

(** [RESET_STATE] *)
Definition workerResetState (st : Worker.State) : Worker.State :=
  {| Worker.kohaDataMap := ∅;
     Worker.combinedLibraries := Worker.combinedLibraries st;
     Worker.processedBarcodes := ∅ |}.

(** ** The camera scanner ([RobustBarcodeScanner], lines 40-85)

    The refs of one mounted scanner: whether the cooldown timer is
    pending, and the texts scanned while the camera is open. *)
Record Scanner : Type := mkScanner {
  throttled : bool;
  scannedCodesThisSession : gset string
}.

Definition scannerMounted : Scanner :=
  {| throttled := false; scannedCodesThisSession := ∅ |}.

(** [handleScanResult], with [onScan] the [handleCameraScan] of the
    component, which calls [processBarcode] of the current render. *)
Definition handleScanResult (c : Env) (isPaused : bool) (decodedText : string)
    (now : Z) (cam : Scanner * Session) : Scanner * Session :=
  if isPaused || throttled cam.1 then cam
  else if bool_decide (decodedText ∈ scannedCodesThisSession cam.1) then cam
  else
    let scanResult := processBarcode c decodedText now cam.2 in
    match scanResult.1 with
    | OutcomeIsbn => (cam.1, scanResult.2)
    | _ =>
        ({| throttled := true;
            scannedCodesThisSession :=
              {[ decodedText ]} ∪ scannedCodesThisSession cam.1 |},
         scanResult.2)
    end.

(** What happens to a mounted scanner: a decoded text, or the end of the
    2-second cooldown. *)
Inductive CameraEvent : Type :=
  | Decoded (c : Env) (isPaused : bool) (decodedText : string) (now : Z)
  | CooldownOver.

Definition cameraStep (cam : Scanner * Session) (ev : CameraEvent)
    : Scanner * Session :=
  match ev with
  | Decoded c isPaused decodedText now =>
      handleScanResult c isPaused decodedText now cam
  | CooldownOver =>
      ({| throttled := false;
          scannedCodesThisSession := scannedCodesThisSession cam.1 |}, cam.2)
  end.

(** * Proofs *)

(** ** Strings *)

Lemma digitVal_inj (a b : ascii) : digitVal a = digitVal b -> a = b.
Proof.
  unfold digitVal. intros H.
  rewrite <- (ascii_nat_embedding a), <- (ascii_nat_embedding b).
  f_equal. lia.
Qed.

Lemma startsWith_cons (c : ascii) (s : string) (a : ascii) (p : string) :
  startsWith (String c s) (String a p) = true <-> a = c /\ startsWith s p = true.
Proof.
  unfold startsWith. simpl. destruct (ascii_dec a c) as [->|Hne].
  - tauto.
  - split; [discriminate | intros [? _]; contradiction].
Qed.

Lemma startsWith_nil (s : string) : startsWith s "" = true.
Proof. unfold startsWith. destruct s; reflexivity. Qed.

Lemma length_list_ascii_of_string (s : string) :
  length (list_ascii_of_string s) = String.length s.
Proof. induction s as [|c s IH]; simpl; congruence. Qed.

Lemma length_digitsOf (s : string) :
  length (digitsOf s) = String.length (stripNonDigits s).
Proof. unfold digitsOf. rewrite length_map. apply length_list_ascii_of_string. Qed.

Lemma stripNonDigits_trimStart (s : string) :
  stripNonDigits (trimStart s) = stripNonDigits s.
Proof.
  induction s as [|c s IH]; [reflexivity|]. simpl.
  destruct (isSpace c) eqn:Hs; [|reflexivity].
  assert (isDigit c = false) as ->; [|exact IH].
  unfold isSpace, isDigit in *.
  destruct (48 <=? nat_of_ascii c)%nat eqn:E1; [|reflexivity].
  destruct (nat_of_ascii c <=? 57)%nat eqn:E2; [|reflexivity].
  apply Nat.leb_le in E1.
  apply orb_true_iff in Hs as [Hs|Hs].
  - apply Nat.eqb_eq in Hs. lia.
  - apply andb_true_iff in Hs as [_ Hs]. apply Nat.leb_le in Hs. lia.
Qed.

Lemma isSpace_not_digit (c : ascii) : isSpace c = true -> isDigit c = false.
Proof.
  unfold isSpace, isDigit. intros Hs.
  destruct (48 <=? nat_of_ascii c)%nat eqn:E1; [|reflexivity].
  destruct (nat_of_ascii c <=? 57)%nat eqn:E2; [|reflexivity].
  apply Nat.leb_le in E1.
  apply orb_true_iff in Hs as [Hs|Hs].
  - apply Nat.eqb_eq in Hs. lia.
  - apply andb_true_iff in Hs as [_ Hs]. apply Nat.leb_le in Hs. lia.
Qed.

Lemma stripNonDigits_trimEnd (s : string) :
  stripNonDigits (trimEnd s) = stripNonDigits s.
Proof.
  induction s as [|c s IH]; [reflexivity|]. simpl.
  destruct (trimEnd s) as [|c' r'] eqn:Ht.
  - simpl in IH. destruct (isSpace c) eqn:Hs.
    + rewrite (isSpace_not_digit _ Hs). exact IH.
    + simpl. rewrite <- IH. reflexivity.
  - change (stripNonDigits (String c (String c' r'))) with
      (if isDigit c then String c (stripNonDigits (String c' r'))
       else stripNonDigits (String c' r')).
    rewrite IH. reflexivity.
Qed.

(** Trimming removes no digit. *)
Lemma stripNonDigits_trim (s : string) :
  stripNonDigits (trim s) = stripNonDigits s.
Proof. unfold trim. rewrite stripNonDigits_trimEnd. apply stripNonDigits_trimStart. Qed.

Lemma isEmpty_true (s : string) : isEmpty s = true <-> s = "".
Proof. destruct s; simpl; split; congruence. Qed.

Lemma isEmpty_false (s : string) : isEmpty s = false <-> s <> "".
Proof. destruct s; simpl; split; congruence. Qed.

(** ** C6: the ISBN predicate *)

Lemma isIsbn_length (s : string) :
  isIsbn s = true -> String.length (stripNonDigits s) = 13%nat.
Proof.
  unfold isIsbn.
  destruct (String.length (stripNonDigits s) =? 13)%nat eqn:E; [|discriminate].
  intros _. by apply Nat.eqb_eq.
Qed.

(** C6. [isIsbn] accepts a string exactly when its digit-stripped form has
    exactly 13 digits, starts with 978 or 979, and its 13th digit equals
    (10 - (S mod 10)) mod 10, S being the sum over the first 12 digits
    weighted 1 at even and 3 at odd positions (counted from 0); every
    other string is rejected. *)
Theorem isIsbn_iff_spec (s : string) :
  (isIsbn s = true <-> isbn13_spec s) /\
  (isIsbn s = false <-> ~ isbn13_spec s).
Proof.
  assert (Hiff : isIsbn s = true <-> isbn13_spec s).
  { unfold isIsbn, isbn13_spec. rewrite length_digitsOf. unfold digitsOf.
    destruct (String.length (stripNonDigits s) =? 13)%nat eqn:E; simpl negb; cbv iota.
    - apply Nat.eqb_eq in E.
      destruct (stripNonDigits s) as [|c0 [|c1 [|c2 [|c3 [|c4 [|c5 [|c6
        [|c7 [|c8 [|c9 [|c10 [|c11 [|c12 [|c13 r]]]]]]]]]]]]]];
        try discriminate E.
      clear E.
      assert (H978 : forall x y z : ascii,
                 startsWith
                   (String c0 (String c1 (String c2 (String c3 (String c4
                     (String c5 (String c6 (String c7 (String c8 (String c9
                       (String c10 (String c11 (String c12 "")))))))))))))
                   (String x (String y (String z ""))) = true
                 <-> [digitVal c0; digitVal c1; digitVal c2]
                     = [digitVal x; digitVal y; digitVal z]).
      { intros x y z. rewrite !startsWith_cons, startsWith_nil. split.
        - intros (-> & -> & -> & _). reflexivity.
        - intros H. injection H as H0 H1 H2.
          apply digitVal_inj in H0, H1, H2. subst. tauto. }
      pose proof (H978 "9"%char "7"%char "8"%char) as H8.
      pose proof (H978 "9"%char "7"%char "9"%char) as H9.
      change (digitVal "9") with 9 in *. change (digitVal "7") with 7 in *.
      change (digitVal "8") with 8 in *.
      unfold isbnSum, isbnStep, digitAt. simpl fold_left. simpl String.get.
      simpl list_ascii_of_string. simpl map. simpl take. simpl nth.
      simpl weightedSum.
      set (lhs := (10 - _ mod 10) mod 10). set (rhs := (10 - _ mod 10) mod 10).
      assert (lhs = rhs) as -> by (subst lhs rhs; do 2 f_equal; f_equal; lia).
      clearbody rhs.
      match goal with
      | |- (if negb ?a && negb ?b then _ else _) = true <-> _ =>
          destruct a eqn:Ha; destruct b eqn:Hb; simpl
      end.
      all: rewrite ?Z.eqb_eq.
      4: { split; [discriminate|]. intros (_ & [H|H] & _).
           - apply H8 in H. congruence.
           - apply H9 in H. congruence. }
      all: split;
        [ intros H; split; [reflexivity|]; split; [tauto | congruence]
        | intros (_ & _ & H'); congruence ].
    - split; [discriminate|]. intros [H _]. apply Nat.eqb_neq in E. contradiction. }
  split; [exact Hiff|].
  destruct (isIsbn s) eqn:E.
  - split; [discriminate|]. intros Hn. exfalso. by apply Hn, Hiff.
  - split; [|reflexivity]. intros _ Hs. apply Hiff in Hs. discriminate.
Qed.

(** ** The path into the classifier *)

Lemma reachesClassifier_spec (c : Env) (input : string) :
  reachesClassifier c input = true <->
  isEmpty (trim input) = false /\ isEmpty (selectedLibrary c) = false
  /\ isIsbn (trim input) = false.
Proof.
  unfold reachesClassifier.
  rewrite !andb_true_iff, !negb_true_iff. tauto.
Qed.

Lemma processBarcode_classify (c : Env) (input : string) (now : Z) (st : Session) :
  reachesClassifier c input = true ->
  processBarcode c input now st = classify c (trim input) now st.
Proof.
  intros (H1 & H2 & H3)%reachesClassifier_spec.
  unfold processBarcode. by rewrite H1, H2, H3.
Qed.

Lemma processBarcode_isbn (c : Env) (input : string) (now : Z) (st : Session) :
  isEmpty (selectedLibrary c) = false ->
  isIsbn (trim input) = true ->
  processBarcode c input now st = (OutcomeIsbn, st).
Proof.
  intros H2 H3. unfold processBarcode. rewrite H2, H3.
  destruct (isEmpty (trim input)) eqn:H1; [|reflexivity].
  apply isEmpty_true in H1. rewrite H1 in H3. discriminate.
Qed.

(** ** C5: auto-completion *)

Lemma length_zeros (n : nat) : String.length (zeros n) = n.
Proof. induction n as [|n IH]; simpl; congruence. Qed.

Lemma length_append (a b : string) :
  String.length (a ++ b) = (String.length a + String.length b)%nat.
Proof. induction a as [|c a IH]; simpl; [reflexivity | by rewrite IH]. Qed.

Lemma length_padStart (targetLength : nat) (s : string) :
  String.length (padStart targetLength s)
  = Nat.max targetLength (String.length s).
Proof.
  unfold padStart. rewrite length_append, length_zeros. lia.
Qed.

(** C5. When the digit-stripped input has between 1 and 11 digits, the
    input is not an ISBN, normalization sets [wasAutoCompleted] and
    returns [expectedPrefix + digits.padStart(12 - expectedPrefix.length,
    '0')]; with library code 12 the prefix is 1012 and the digits 55
    become 101200000055. *)
Theorem normalize_autocompletes (expectedPrefix rawBarcode : string) :
  (0 < String.length (stripNonDigits rawBarcode) < 12)%nat ->
  isIsbn rawBarcode = false /\
  normalize expectedPrefix rawBarcode
  = {| originalBarcode := stripNonDigits rawBarcode;
       normalizedBarcode :=
         expectedPrefix
         ++ padStart (12 - String.length expectedPrefix)
              (stripNonDigits rawBarcode);
       wasAutoCompleted := true |} /\
  expectedPrefixOf "12" = "1012" /\
  normalizedBarcode (normalize (expectedPrefixOf "12") "55") = "101200000055".
Proof.
  intros [Hlo Hhi]. split; [|split; [|split; reflexivity]].
  - unfold isIsbn.
    destruct (String.length (stripNonDigits rawBarcode) =? 13)%nat eqn:E;
      [|reflexivity].
    apply Nat.eqb_eq in E. lia.
  - unfold normalize.
    destruct (13 <=? String.length (stripNonDigits rawBarcode))%nat eqn:E.
    { apply Nat.leb_le in E. lia. }
    assert ((String.length (stripNonDigits rawBarcode) <? 12)%nat = true) as ->
      by (apply Nat.ltb_lt; lia).
    assert ((0 <? String.length (stripNonDigits rawBarcode))%nat = true) as ->
      by (apply Nat.ltb_lt; lia).
    reflexivity.
Qed.

Lemma normalize_autocompletes_witness :
  (0 < String.length (stripNonDigits " 55 ") < 12)%nat
  /\ normalize "1012" " 55 "
     = {| originalBarcode := "55"; normalizedBarcode := "101200000055";
          wasAutoCompleted := true |}.
Proof.
  assert (H : (0 < String.length (stripNonDigits " 55 ") < 12)%nat)
    by (simpl; lia).
  split; [exact H|].
  exact (proj1 (proj2 (normalize_autocompletes "1012" " 55 " H))).
Defined.

(** ** C1: the duplicate short-circuit *)

Lemma existingItemData_first (items newer older : list ScanEvent)
    (e : ScanEvent) (index : gmap string Row) (b : string) :
  items = (newer ++ e :: older)%list ->
  Forall (fun x => barcode x <> b) newer ->
  barcode e = b ->
  existingItemData items index b
  = match data e with Some d => Some d | None => index !! b end.
Proof.
  intros -> Hnewer He. unfold existingItemData.
  induction Hnewer as [|x newer Hx _ IH]; simpl.
  - rewrite He, String.eqb_refl. reflexivity.
  - apply String.eqb_neq in Hx. rewrite Hx. exact IH.
Qed.

Lemma existingItemData_absent (items : list ScanEvent)
    (index : gmap string Row) (b : string) :
  Forall (fun x => barcode x <> b) items ->
  existingItemData items index b = index !! b.
Proof.
  intros H. unfold existingItemData.
  induction H as [|x items Hx _ IH]; simpl; [reflexivity|].
  apply String.eqb_neq in Hx. rewrite Hx. exact IH.
Qed.

Lemma classify_duplicate (c : Env) (rawBarcode : string) (now : Z) (st : Session) :
  let n := normalizedBarcode (normalize (expectedPrefixOf (selectedLibrary c)) rawBarcode) in
  n ∈ processedBarcodes st ->
  classify c rawBarcode now st
  = (OutcomeError [WARNING_DEFINITIONS duplicate],
     record {| barcode := n; isValid := false;
               warnings := [WARNING_DEFINITIONS duplicate];
               data := existingItemData (renderedItems c) (kohaDataMap c) n;
               timestamp := now |} st).
Proof.
  intros n Hin. unfold classify. fold n.
  rewrite (bool_decide_eq_true_2 _ Hin). reflexivity.
Qed.

(** Every scan that reaches the classifier leaves its normalized
    identifier in the seen set. *)
Lemma classify_marks_processed (c : Env) (rawBarcode : string) (now : Z) (st : Session) :
  normalizedBarcode (normalize (expectedPrefixOf (selectedLibrary c)) rawBarcode)
  ∈ processedBarcodes (classify c rawBarcode now st).2.
Proof.
  unfold classify.
  set (n := normalizedBarcode _).
  destruct (bool_decide (n ∈ processedBarcodes st)) eqn:E.
  - apply bool_decide_eq_true_1 in E. exact E.
  - destruct (_ && _); simpl; set_solver.
Qed.

(** The duplicate branch at the level of [processBarcode]. *)
Lemma duplicate_event (c : Env) (input : string) (now : Z) (st : Session) :
  reachesClassifier c input = true ->
  normalizedOf c input ∈ processedBarcodes st ->
  processBarcode c input now st
  = (OutcomeError [WARNING_DEFINITIONS duplicate],
     record {| barcode := normalizedOf c input; isValid := false;
               warnings := [WARNING_DEFINITIONS duplicate];
               data := existingItemData (renderedItems c) (kohaDataMap c)
                         (normalizedOf c input);
               timestamp := now |} st).
Proof.
  intros Hreach Hin.
  rewrite (processBarcode_classify _ _ _ _ Hreach).
  apply (classify_duplicate c (trim input) now st Hin).
Qed.

(** C1. When the normalized identifier of a scan is already in the seen
    set, [processBarcode] prepends exactly one event whose warnings are
    [[duplicate]] and whose [isValid] is false, leaves the seen set as it
    is, and runs no other check, whatever the catalog holds.  The
    reference of the event is that of the first entry of the rendered
    ledger with that identifier, or the catalog record when that entry
    has none or no entry exists.  A second scan of an identifier is
    always such a duplicate.  The worker returns the same event with the
    catalog record as reference and leaves its seen set unchanged. *)
Theorem duplicate_short_circuit (c : Env) (input : string) (now : Z) (st : Session) :
  reachesClassifier c input = true ->
  normalizedOf c input ∈ processedBarcodes st ->
  let n := normalizedOf c input in
  let dup := WARNING_DEFINITIONS duplicate in
  let ev := {| barcode := n; isValid := false; warnings := [dup];
               data := existingItemData (renderedItems c) (kohaDataMap c) n;
               timestamp := now |} in
  processBarcode c input now st
  = (OutcomeError [dup],
     {| scannedItems := ev :: scannedItems st;
        processedBarcodes := processedBarcodes st;
        lastScanned := Some ev |})
  /\ (forall newer e older,
        renderedItems c = scannedItems st ->
        scannedItems st = (newer ++ e :: older)%list ->
        Forall (fun x => barcode x <> n) newer ->
        barcode e = n ->
        data ev = match data e with
                  | Some d => Some d
                  | None => kohaDataMap c !! n
                  end)
  /\ (renderedItems c = scannedItems st ->
      Forall (fun x => barcode x <> n) (scannedItems st) ->
      data ev = kohaDataMap c !! n)
  /\ (forall c0 input0 now0 st0,
        reachesClassifier c0 input0 = true ->
        normalizedOf c0 input0 = n ->
        let st1 := (processBarcode c0 input0 now0 st0).2 in
        exists ev',
          processBarcode c input now st1
          = (OutcomeError [dup],
             {| scannedItems := ev' :: scannedItems st1;
                processedBarcodes := processedBarcodes st1;
                lastScanned := Some ev' |})
          /\ warnings ev' = [dup] /\ isValid ev' = false /\ barcode ev' = n)
  /\ Worker.processBarcodeLogic (payloadOf c input) now (workerOf c st)
     = Some {| barcode := n; isValid := false; warnings := [dup];
               data := kohaDataMap c !! n; timestamp := now |}
  /\ Worker.processedBarcodes
       (Worker.processSingleBarcode (payloadOf c input) now (workerOf c st)).1
     = processedBarcodes st.
Proof.
  intros Hreach Hin n dup ev.
  assert (Hworker :
    Worker.processBarcodeLogic (payloadOf c input) now (workerOf c st)
    = Some {| barcode := n; isValid := false; warnings := [dup];
              data := kohaDataMap c !! n; timestamp := now |}).
  { apply reachesClassifier_spec in Hreach as (H1 & H2 & H3).
    unfold Worker.processBarcodeLogic. simpl. rewrite H1, H2, H3. simpl.
    fold (normalizedOf c input). fold n.
    rewrite (bool_decide_eq_true_2 _ Hin). reflexivity. }
  repeat split.
  - rewrite (processBarcode_classify _ _ _ _ Hreach).
    apply (classify_duplicate c (trim input) now st Hin).
  - intros newer e older Hr Hl Hnewer He. simpl. rewrite Hr.
    by apply (existingItemData_first _ newer older e).
  - intros Hr Hnone. simpl. rewrite Hr. by apply existingItemData_absent.
  - intros c0 input0 now0 st0 Hreach0 Hn0 st1.
    assert (Hin1 : normalizedOf c input ∈ processedBarcodes st1).
    { subst st1. rewrite (processBarcode_classify _ _ _ _ Hreach0).
      fold n. rewrite <- Hn0. apply classify_marks_processed. }
    eexists. split.
    + rewrite (processBarcode_classify _ _ _ _ Hreach).
      apply (classify_duplicate c (trim input) now st1 Hin1).
    + repeat split.
  - exact Hworker.
  - unfold Worker.processSingleBarcode. rewrite Hworker. simpl.
    apply subseteq_union_1_L, singleton_subseteq_l. exact Hin.
Qed.

Lemma duplicate_short_circuit_witness :
  reachesClassifier (rerender sampleEnv scannedOnce) "101200012345" = true
  /\ (normalizedOf (rerender sampleEnv scannedOnce) "101200012345"
      ∈ processedBarcodes scannedOnce)
  /\ (processBarcode (rerender sampleEnv scannedOnce) "101200012345" 2
        scannedOnce).1
     = OutcomeError [WARNING_DEFINITIONS duplicate].
Proof.
  assert (H1 : reachesClassifier (rerender sampleEnv scannedOnce) "101200012345"
               = true) by reflexivity.
  assert (H2 : normalizedOf (rerender sampleEnv scannedOnce) "101200012345"
               ∈ processedBarcodes scannedOnce)
    by (apply (bool_decide_unpack _); vm_compute; exact I).
  split; [exact H1|]. split; [exact H2|].
  destruct (duplicate_short_circuit _ _ 2 _ H1 H2) as [H _].
  rewrite H. reflexivity.
Defined.

(** ** C2: structural rejection *)

Lemma findLibrary_first (n : string) (libraries l1 l2 : list (string * string))
    (code name : string) :
  libraries = (l1 ++ (code, name) :: l2)%list ->
  Forall (fun e => startsWith n (expectedPrefixOf e.1) = false) l1 ->
  startsWith n (expectedPrefixOf code) = true ->
  findLibrary n libraries = Some name.
Proof.
  intros -> Hl1 Hcode. induction Hl1 as [|[code' name'] l1 Hx _ IH]; simpl.
  - by rewrite Hcode.
  - simpl in Hx. by rewrite Hx.
Qed.

Lemma findLibrary_none (n : string) (libraries : list (string * string)) :
  Forall (fun e => startsWith n (expectedPrefixOf e.1) = false) libraries ->
  findLibrary n libraries = None.
Proof.
  intros H. induction H as [|[code name] l Hx _ IH]; simpl; [reflexivity|].
  simpl in Hx. by rewrite Hx.
Qed.

Lemma structuralWarning_id (n : string) (libraries : list (string * string)) :
  warn_id (structuralWarning n libraries) = wrongLibrary
  \/ warn_id (structuralWarning n libraries) = invalidStructure.
Proof. unfold structuralWarning. destruct (findLibrary n libraries); auto. Qed.

(** C2. When the normalized identifier of a scan is exactly 12
    characters long and does not start with the prefix of the selected
    library, [processBarcode] prepends one event with [isValid] false and
    exactly one warning, and none of the catalog field checks is
    evaluated, whatever record the catalog holds under the identifier.
    Unless the preceding duplicate check has taken the scan, the warning
    is [wrongLibrary] naming the first library of the directory whose
    prefix [String(parseInt(code) + 1000)] starts the identifier, and
    [invalidStructure] when no library matches; the worker returns the
    same event. *)
Theorem structural_rejection (c : Env) (input : string) (now : Z) (st : Session) :
  reachesClassifier c input = true ->
  String.length (normalizedOf c input) = 12%nat ->
  startsWith (normalizedOf c input) (expectedPrefixOf (selectedLibrary c)) = false ->
  let n := normalizedOf c input in
  let w := structuralWarning n (combinedLibraries c) in
  let ev := {| barcode := stripNonDigits input; isValid := false;
               warnings := [w]; data := kohaDataMap c !! n;
               timestamp := now |} in
  (exists ev' w',
     scannedItems (processBarcode c input now st).2 = ev' :: scannedItems st
     /\ (processBarcode c input now st).1 = OutcomeError [w']
     /\ warnings ev' = [w'] /\ isValid ev' = false
     /\ (warn_id w' = duplicate \/ warn_id w' = wrongLibrary
         \/ warn_id w' = invalidStructure))
  /\ (n ∉ processedBarcodes st ->
      processBarcode c input now st
      = (OutcomeError [w],
         {| scannedItems := ev :: scannedItems st;
            processedBarcodes := {[ n ]} ∪ processedBarcodes st;
            lastScanned := Some ev |})
      /\ Worker.processBarcodeLogic (payloadOf c input) now (workerOf c st)
         = Some ev)
  /\ (forall l1 code name l2,
        combinedLibraries c = (l1 ++ (code, name) :: l2)%list ->
        Forall (fun e => startsWith n (expectedPrefixOf e.1) = false) l1 ->
        startsWith n (expectedPrefixOf code) = true ->
        w = {| warn_id := wrongLibrary; warn_libraryName := Some name |})
  /\ (Forall (fun e => startsWith n (expectedPrefixOf e.1) = false)
        (combinedLibraries c) ->
      w = WARNING_DEFINITIONS invalidStructure).
Proof.
  intros Hreach Hlen Hpre n w ev.
  pose proof Hreach as (H1 & H2 & H3)%reachesClassifier_spec.
  assert (Horig : originalBarcode
                    (normalize (expectedPrefixOf (selectedLibrary c)) (trim input))
                  = stripNonDigits input).
  { unfold normalize. rewrite stripNonDigits_trim. by destruct (_ && _). }
  assert (Hfresh : n ∉ processedBarcodes st ->
            processBarcode c input now st
            = (OutcomeError [w],
               {| scannedItems := ev :: scannedItems st;
                  processedBarcodes := {[ n ]} ∪ processedBarcodes st;
                  lastScanned := Some ev |})).
  { intros Hnotin. rewrite (processBarcode_classify _ _ _ _ Hreach).
    unfold classify. fold (normalizedOf c input). fold n.
    rewrite (bool_decide_eq_false_2 _ Hnotin).
    subst n. rewrite Hlen, Hpre, Horig. reflexivity. }
  split; [|split; [|split]].
  - destruct (decide (n ∈ processedBarcodes st)) as [Hin|Hnotin].
    + rewrite (duplicate_event c input now st Hreach Hin). do 2 eexists. simpl. repeat split. by left.
    + rewrite (Hfresh Hnotin). exists ev, w. simpl. repeat split.
      right. apply structuralWarning_id.
  - intros Hnotin. split; [by apply Hfresh|].
    unfold Worker.processBarcodeLogic. simpl. rewrite H1, H2, H3. simpl.
    fold (normalizedOf c input). fold n.
    rewrite (bool_decide_eq_false_2 _ Hnotin).
    subst n. rewrite Hlen, Hpre, Horig. reflexivity.
  - intros l1 code name l2 Hl Hl1 Hcode. subst w. unfold structuralWarning.
    by rewrite (findLibrary_first _ _ _ _ _ _ Hl Hl1 Hcode).
  - intros Hall. subst w. unfold structuralWarning.
    by rewrite (findLibrary_none _ _ Hall).
Qed.

Lemma structural_rejection_witness :
  reachesClassifier sampleEnv "999988887777" = true
  /\ String.length (normalizedOf sampleEnv "999988887777") = 12%nat
  /\ startsWith (normalizedOf sampleEnv "999988887777")
       (expectedPrefixOf (selectedLibrary sampleEnv)) = false
  /\ (processBarcode sampleEnv "999988887777" 3 scannedOnce).1
     = OutcomeError
         [{| warn_id := wrongLibrary; warn_libraryName := Some "IKINCI" |}].
Proof.
  assert (H1 : reachesClassifier sampleEnv "999988887777" = true) by reflexivity.
  assert (H2 : String.length (normalizedOf sampleEnv "999988887777") = 12%nat)
    by reflexivity.
  assert (H3 : startsWith (normalizedOf sampleEnv "999988887777")
                 (expectedPrefixOf (selectedLibrary sampleEnv)) = false)
    by reflexivity.
  assert (H4 : normalizedOf sampleEnv "999988887777" ∉ processedBarcodes scannedOnce)
    by (apply (bool_decide_unpack _); vm_compute; exact I).
  repeat (split; [assumption|]).
  destruct (structural_rejection _ _ 3 scannedOnce H1 H2 H3) as (_ & H & _).
  destruct (H H4) as [Heq _]. rewrite Heq. reflexivity.
Defined.

(** ** C10: inputs without any digit *)

Lemma processBarcode_seen_mono (c : Env) (input : string) (now : Z) (st : Session) :
  processedBarcodes st ⊆ processedBarcodes (processBarcode c input now st).2.
Proof.
  unfold processBarcode.
  destruct (isEmpty (trim input) || isEmpty (selectedLibrary c)); [done|].
  destruct (isIsbn (trim input)); [done|].
  unfold classify.
  destruct (bool_decide _); [done|].
  destruct (_ && _); simpl; apply union_subseteq_r.
Qed.

Lemma scanAll_seen_mono (scans : list (Env * string * Z)) (st : Session) :
  processedBarcodes st ⊆ processedBarcodes (scanAll scans st).
Proof.
  revert st. induction scans as [|scan scans IH]; intros st; [done|].
  simpl. etrans; [|apply IH]. apply processBarcode_seen_mono.
Qed.

Lemma normalize_no_digits (expectedPrefix rawBarcode : string) :
  stripNonDigits rawBarcode = "" ->
  normalize expectedPrefix rawBarcode
  = {| originalBarcode := ""; normalizedBarcode := ""; wasAutoCompleted := false |}.
Proof. intros H. unfold normalize. rewrite H. reflexivity. Qed.

Lemma no_digits_reaches (c : Env) (input : string) :
  isEmpty (trim input) = false ->
  isEmpty (selectedLibrary c) = false ->
  stripNonDigits input = "" ->
  reachesClassifier c input = true /\ normalizedOf c input = "".
Proof.
  intros H1 H2 H3. split.
  - apply reachesClassifier_spec. repeat split; try assumption.
    unfold isIsbn. rewrite stripNonDigits_trim, H3. reflexivity.
  - unfold normalizedOf. rewrite normalize_no_digits; [reflexivity|].
    by rewrite stripNonDigits_trim.
Qed.

(** C10. Under a selected library, a non-empty trimmed input without any
    digit is classified with the empty string as normalized identifier.
    When the empty string is not yet in the seen set and the catalog has
    no record under it, the scan prepends an event with identifier [""]
    and exactly the [deleted] warning and adds [""] to the seen set; from
    then on, after any further scans, every input without digits is
    classified as [duplicate].  The component of [App.jsx] behaves the
    same. *)
Theorem nondigit_input_is_empty_identifier
    (c : Env) (input : string) (now : Z) (st : Session) :
  isEmpty (trim input) = false ->
  isEmpty (selectedLibrary c) = false ->
  stripNonDigits input = "" ->
  kohaDataMap c !! "" = None ->
  "" ∉ processedBarcodes st ->
  let ev := {| barcode := ""; isValid := false;
               warnings := [WARNING_DEFINITIONS deleted];
               data := None; timestamp := now |} in
  let st' := {| scannedItems := ev :: scannedItems st;
                processedBarcodes := {[ "" ]} ∪ processedBarcodes st;
                lastScanned := Some ev |} in
  normalizedOf c input = ""
  /\ processBarcode c input now st
     = (OutcomeError [WARNING_DEFINITIONS deleted], st')
  /\ Legacy.processBarcode c input now st = (true, st')
  /\ (forall later c' input' now',
        isEmpty (trim input') = false ->
        isEmpty (selectedLibrary c') = false ->
        stripNonDigits input' = "" ->
        let st2 := scanAll later st' in
        let ev' := {| barcode := ""; isValid := false;
                      warnings := [WARNING_DEFINITIONS duplicate];
                      data := existingItemData (renderedItems c')
                                (kohaDataMap c') "";
                      timestamp := now' |} in
        processBarcode c' input' now' st2
        = (OutcomeError [WARNING_DEFINITIONS duplicate],
           {| scannedItems := ev' :: scannedItems st2;
              processedBarcodes := processedBarcodes st2;
              lastScanned := Some ev' |})
        /\ Legacy.processBarcode c' input' now' st2
           = (true,
              {| scannedItems := ev' :: scannedItems st2;
                 processedBarcodes := processedBarcodes st2;
                 lastScanned := Some ev' |})).
Proof.
  intros H1 H2 H3 Hcat Hnotin ev st'.
  destruct (no_digits_reaches c input H1 H2 H3) as [Hreach Hn].
  assert (Hcl : classify c (trim input) now st
                = (OutcomeError [WARNING_DEFINITIONS deleted], st')).
  { unfold classify. fold (normalizedOf c input). rewrite Hn.
    rewrite (bool_decide_eq_false_2 _ Hnotin). simpl.
    rewrite Hcat. unfold normalize. rewrite stripNonDigits_trim, H3.
    reflexivity. }
  split; [exact Hn|]. split; [|split].
  - by rewrite (processBarcode_classify _ _ _ _ Hreach).
  - unfold Legacy.processBarcode. by rewrite H1, H2, Hcl.
  - intros later c' input' now' H1' H2' H3' st2 ev'.
    destruct (no_digits_reaches c' input' H1' H2' H3') as [Hreach' Hn'].
    assert (Hin : normalizedOf c' input' ∈ processedBarcodes st2).
    { rewrite Hn'. apply (scanAll_seen_mono later st'). simpl.
      apply elem_of_union_l, elem_of_singleton. reflexivity. }
    assert (Hcl' : classify c' (trim input') now' st2
                   = (OutcomeError [WARNING_DEFINITIONS duplicate],
                      {| scannedItems := ev' :: scannedItems st2;
                         processedBarcodes := processedBarcodes st2;
                         lastScanned := Some ev' |})).
    { rewrite (classify_duplicate c' (trim input') now' st2 Hin).
      fold (normalizedOf c' input'). rewrite Hn'. reflexivity. }
    split.
    + by rewrite (processBarcode_classify _ _ _ _ Hreach').
    + unfold Legacy.processBarcode. by rewrite H1', H2', Hcl'.
Qed.

Lemma nondigit_input_is_empty_identifier_witness :
  isEmpty (trim " abc ") = false
  /\ isEmpty (selectedLibrary sampleEnv) = false
  /\ stripNonDigits " abc " = ""
  /\ kohaDataMap sampleEnv !! "" = None
  /\ ("" ∉ processedBarcodes scannedOnce)
  /\ (processBarcode sampleEnv " abc " 5 scannedOnce).1
     = OutcomeError [WARNING_DEFINITIONS deleted].
Proof.
  assert (H1 : isEmpty (trim " abc ") = false) by reflexivity.
  assert (H2 : isEmpty (selectedLibrary sampleEnv) = false) by reflexivity.
  assert (H3 : stripNonDigits " abc " = "") by reflexivity.
  assert (H4 : kohaDataMap sampleEnv !! "" = None) by (vm_compute; reflexivity).
  assert (H5 : "" ∉ processedBarcodes scannedOnce)
    by (apply (bool_decide_unpack _); vm_compute; exact I).
  repeat (split; [assumption|]).
  destruct (nondigit_input_is_empty_identifier sampleEnv " abc " 5 scannedOnce
              H1 H2 H3 H4 H5) as (_ & H & _).
  rewrite H. reflexivity.
Defined.

(** ** C7: ISBN scans and the session *)

(** In the component an ISBN scan leaves the whole session as it was, so
    repeating it any number of times never yields a duplicate. *)
Lemma processBarcode_isbn_repeat (c : Env) (input : string) (times : list Z)
    (st : Session) :
  isEmpty (selectedLibrary c) = false ->
  isIsbn (trim input) = true ->
  scanAll (map (fun now => (c, input, now)) times) st = st
  /\ forall now, processBarcode c input now st = (OutcomeIsbn, st).
Proof.
  intros H2 H3. split.
  - induction times as [|now times IH]; [reflexivity|].
    simpl. rewrite (processBarcode_isbn c input now st H2 H3). exact IH.
  - intros now. by apply processBarcode_isbn.
Qed.

(** In the worker the result of an ISBN scan is not [null], and
    [processSingleBarcode] adds the barcode of every result to the set. *)
Lemma worker_isbn_adds_raw (p : Worker.Payload) (now : Z) (st : Worker.State) :
  isEmpty (Worker.p_selectedLibrary p) = false ->
  isIsbn (trim (Worker.p_barcode p)) = true ->
  Worker.processedBarcodes (Worker.processSingleBarcode p now st).1
  = {[ trim (Worker.p_barcode p) ]} ∪ Worker.processedBarcodes st.
Proof.
  intros H2 H3. unfold Worker.processSingleBarcode, Worker.processBarcodeLogic.
  rewrite H2, H3.
  destruct (isEmpty (trim (Worker.p_barcode p))) eqn:H1; [|reflexivity].
  apply isEmpty_true in H1. rewrite H1 in H3. discriminate.
Qed.

(** C7, at the worker. The scan of the valid ISBN 9780134190440 puts that
    string into the seen set of the worker; the item scan 134190440 of
    library 8780, which completes to the same 13 characters, is then
    reported as a duplicate although no item was scanned before, while on
    the fresh worker it is reported as not found.  The component leaves
    the session unchanged on the same ISBN scan. *)
Theorem worker_isbn_enters_seen_set :
  isIsbn "9780134190440" = true
  /\ Worker.processedBarcodes
       (Worker.processSingleBarcode isbnPayload 1 workerStart).1
     = {[ "9780134190440" ]}
  /\ Worker.processBarcodeLogic itemPayload 2
       (Worker.processSingleBarcode isbnPayload 1 workerStart).1
     = Some {| barcode := "9780134190440"; isValid := false;
               warnings := [WARNING_DEFINITIONS duplicate];
               data := None; timestamp := 2 |}
  /\ Worker.processBarcodeLogic itemPayload 2 workerStart
     = Some {| barcode := "9780134190440"; isValid := false;
               warnings := [WARNING_DEFINITIONS autoCompletedNotFound];
               data := None; timestamp := 2 |}
  /\ processBarcode sampleEnv "9780134190440" 1 emptySession
     = (OutcomeIsbn, emptySession).
Proof.
  split; [reflexivity|]. split.
  - rewrite worker_isbn_adds_raw by reflexivity. simpl.
    apply union_empty_r_L.
  - split; [|split]; vm_compute; reflexivity.
Qed.

(** ** C9: loading the catalog *)

Lemma buildIndex_snoc (json : list Row) (item : Row) :
  buildIndex (json ++ [item])%list = <[ rowKey item := item ]> (buildIndex json).
Proof. unfold buildIndex. by rewrite fold_left_app. Qed.

(** The index holds, under each key, the last row that carries it. *)
Lemma buildIndex_lookup (json : list Row) (k : string) :
  buildIndex json !! k
  = last (List.filter (fun item => String.eqb (rowKey item) k) json).
Proof.
  induction json as [|item json IH] using rev_ind; [reflexivity|].
  rewrite buildIndex_snoc, List.filter_app. simpl.
  destruct (String.eqb (rowKey item) k) eqn:E.
  - apply String.eqb_eq in E. subst k. rewrite lookup_insert_eq.
    by rewrite last_snoc.
  - apply String.eqb_neq in E. rewrite lookup_insert_ne by done.
    by rewrite app_nil_r.
Qed.

Lemma filter_key_unique (json : list Row) (item : Row) :
  NoDup (map rowKey json) ->
  item ∈ json ->
  List.filter (fun i => String.eqb (rowKey i) (rowKey item)) json = [item].
Proof.
  induction json as [|x json IH]; intros Hnd Hin.
  - by apply elem_of_nil in Hin.
  - simpl in Hnd. apply NoDup_cons in Hnd as [Hx Hnd]. simpl.
    apply elem_of_cons in Hin as [->|Hin].
    + rewrite String.eqb_refl. f_equal.
      clear IH Hnd. induction json as [|y json IH]; [reflexivity|].
      simpl. destruct (String.eqb (rowKey y) (rowKey x)) eqn:E.
      * apply String.eqb_eq in E. exfalso. apply Hx. rewrite <- E.
        simpl. apply elem_of_cons. by left.
      * apply IH. intros Hin. apply Hx. simpl. apply elem_of_cons. by right.
    + destruct (String.eqb (rowKey x) (rowKey item)) eqn:E.
      * apply String.eqb_eq in E. exfalso. apply Hx. rewrite E.
        apply list_elem_of_fmap. by exists item.
      * by apply IH.
Qed.

Lemma buildIndex_elem (json : list Row) (k : string) (item : Row) :
  buildIndex json !! k = Some item -> item ∈ json /\ rowKey item = k.
Proof.
  rewrite buildIndex_lookup. intros H.
  apply last_Some_elem_of in H. apply list_elem_of_In, filter_In in H as [H1 H2].
  apply String.eqb_eq in H2. by rewrite list_elem_of_In.
Qed.

(** C9. The load fails with [MissingColumn] when there is no row or when
    no row has the [barkod] column; the failed load leaves the rows and
    the index of the previous catalog as they were.  A successful load
    replaces both: the new index is built from the new rows alone, holds
    under every key the last row carrying it, hence maps
    [String(barkod)] of every row to that row when the identifiers are
    distinct.  The worker does the same. *)
Theorem catalog_load_atomic (json : list Row) (st : Catalog.State)
    (wst : Worker.State) :
  (json = [] -> missingColumn json = true)
  /\ (Forall (fun item => barkod item = None) json -> missingColumn json = true)
  /\ (missingColumn json = true ->
      Catalog.handleExcelUpload json st
      = {| Catalog.kohaData := Catalog.kohaData st;
           Catalog.kohaDataMap := Catalog.kohaDataMap st;
           Catalog.error := Some MissingColumn |}
      /\ Worker.handleExcelLoad json wst = (wst, [Worker.ERROR MissingColumn]))
  /\ (missingColumn json = false ->
      Catalog.handleExcelUpload json st
      = {| Catalog.kohaData := json;
           Catalog.kohaDataMap := buildIndex json;
           Catalog.error := None |}
      /\ Worker.kohaDataMap (Worker.handleExcelLoad json wst).1 = buildIndex json
      /\ (forall k,
            buildIndex json !! k
            = last (List.filter (fun item => String.eqb (rowKey item) k) json))
      /\ (forall k item,
            buildIndex json !! k = Some item -> item ∈ json /\ rowKey item = k)
      /\ (NoDup (map rowKey json) ->
          forall item, item ∈ json -> buildIndex json !! rowKey item = Some item)).
Proof.
  split; [by intros ->|]. split.
  { intros H. destruct H as [|item json Hitem _]; [reflexivity|].
    simpl. by rewrite Hitem. }
  split.
  - intros H. unfold Catalog.handleExcelUpload, Worker.handleExcelLoad.
    by rewrite H.
  - intros H. unfold Catalog.handleExcelUpload, Worker.handleExcelLoad.
    rewrite H. split; [reflexivity|]. split; [reflexivity|].
    split; [apply buildIndex_lookup|]. split.
    + intros k item Hk. by apply buildIndex_elem.
    + intros Hnd item Hin. rewrite buildIndex_lookup.
      by rewrite (filter_key_unique _ _ Hnd Hin).
Qed.

Lemma catalog_load_atomic_witness :
  missingColumn [] = true
  /\ Catalog.handleExcelUpload []
       {| Catalog.kohaData := [sampleRow];
          Catalog.kohaDataMap := buildIndex [sampleRow];
          Catalog.error := None |}
     = {| Catalog.kohaData := [sampleRow];
          Catalog.kohaDataMap := buildIndex [sampleRow];
          Catalog.error := Some MissingColumn |}.
Proof.
  assert (H : missingColumn [] = true) by reflexivity.
  split; [exact H|].
  exact (proj1 (proj1 (proj2 (proj2 (catalog_load_atomic [] _ workerStart))) H)).
Defined.

(** ** C4: scan throughput *)

(** *** Binary64 division *)

Lemma digits2_pos_size (p : positive) : digits2_pos p = Pos.size p.
Proof. induction p; simpl; congruence. Qed.

Lemma digits2_pos_bounds (p : positive) :
  2 ^ (Zpos (digits2_pos p) - 1) <= Zpos p < 2 ^ Zpos (digits2_pos p).
Proof.
  rewrite digits2_pos_size. split.
  - assert (H := Pos.size_le p).
    assert (H' : 2 ^ Zpos (Pos.size p) <= 2 * Zpos p).
    { change 2 with (Zpos 2) at 1. rewrite <- Pos2Z.inj_pow.
      change (2 * Zpos p) with (Zpos p~0). exact H. }
    replace (Zpos (Pos.size p)) with (Z.succ (Zpos (Pos.size p) - 1)) in H' by lia.
    rewrite Z.pow_succ_r in H' by lia. lia.
  - assert (H := Pos.size_gt p).
    change 2 with (Zpos 2). rewrite <- Pos2Z.inj_pow. exact H.
Qed.

Lemma Zdigits2_unique (m d : Z) :
  0 < d -> 2 ^ (d - 1) <= m < 2 ^ d -> Zdigits2 m = d.
Proof.
  intros Hd [Hlo Hhi].
  assert (Hm : 0 < m) by (assert (0 < 2 ^ (d - 1)) by (apply Z.pow_pos_nonneg; lia); lia).
  destruct m as [|p|p]; try lia. simpl.
  destruct (digits2_pos_bounds p) as [Hlo' Hhi'].
  set (d' := Zpos (digits2_pos p)) in *.
  assert (0 < d') by (unfold d'; lia).
  destruct (Z.lt_trichotomy d' d) as [Hlt|[Heq|Hgt]]; [|exact Heq|].
  - assert (2 ^ d' <= 2 ^ (d - 1)) by (apply Z.pow_le_mono_r; lia). lia.
  - assert (2 ^ d <= 2 ^ (d' - 1)) by (apply Z.pow_le_mono_r; lia). lia.
Qed.

Lemma iter_pos_invariant {A : Type} (f : A -> A) (P : Z -> A -> Prop) :
  (forall k x, 0 <= k -> P k x -> P (k + 1) (f x)) ->
  forall p k x, 0 <= k -> P k x -> P (k + Zpos p) (SpecFloat.iter_pos f p x).
Proof.
  intros Hf. induction p as [p IH|p IH|]; intros k x Hk Hx; simpl.
  - replace (k + Zpos p~1) with (k + 1 + Zpos p + Zpos p) by lia.
    apply IH; [lia|]. apply IH; [lia|]. by apply Hf.
  - replace (k + Zpos p~0) with (k + Zpos p + Zpos p) by lia.
    apply IH; [lia|]. by apply IH.
  - by apply Hf.
Qed.

Lemma shr_1_located (mrs : shr_record) (a b : Z) :
  0 < b -> located mrs a b ->
  located (shr_1 mrs) a (2 * b) /\ shr_m (shr_1 mrs) = shr_m mrs / 2.
Proof.
  intros Hb (H0 & Hf & Hr & Hs). destruct mrs as [m r s]. simpl in *.
  destruct m as [|[p|p|]|p]; try lia; simpl.
  - (* 0 *)
    split; [|reflexivity]. unfold located; simpl.
    split; [lia|]. split; [lia|]. split.
    + split; [discriminate|lia].
    + destruct r, s; simpl; split; intros; try lia; try discriminate; try reflexivity;
        try (destruct Hr as [Hr1 Hr2]; destruct Hs as [Hs1 Hs2]; lia).
  - split; [|apply Z.div_unique with (r := 1); lia].
    unfold located; simpl. split; [lia|]. split; [lia|]. split.
    + split; [lia|reflexivity].
    + destruct r, s; simpl; split; intros; try lia; try discriminate; try reflexivity;
        try (destruct Hr as [Hr1 Hr2]; destruct Hs as [Hs1 Hs2]; lia).
  - split; [|apply Z.div_unique with (r := 0); lia].
    unfold located; simpl. split; [lia|]. split; [lia|]. split.
    + split; [discriminate|lia].
    + destruct r, s; simpl; split; intros; try lia; try discriminate; try reflexivity;
        try (destruct Hr as [Hr1 Hr2]; destruct Hs as [Hs1 Hs2]; lia).
  - split; [|reflexivity].
    unfold located; simpl. split; [lia|]. split; [lia|]. split.
    + split; [lia|reflexivity].
    + destruct r, s; simpl; split; intros; try lia; try discriminate; try reflexivity;
        try (destruct Hr as [Hr1 Hr2]; destruct Hs as [Hs1 Hs2]; lia).
Qed.

Lemma shr_located (mrs : shr_record) (e n a b : Z) :
  0 < b -> 0 <= n -> located mrs a b ->
  (shr mrs e n).2 = e + n
  /\ located (shr mrs e n).1 a (2 ^ n * b)
  /\ shr_m (shr mrs e n).1 = shr_m mrs / 2 ^ n.
Proof.
  intros Hb Hn Hloc. destruct n as [|p|p]; try lia; simpl.
  - split; [lia|]. split; [by rewrite Z.mul_1_l|]. by rewrite Z.div_1_r.
  - split; [reflexivity|].
    assert (Hstep : forall k x, 0 <= k ->
              located x a (2 ^ k * b) /\ shr_m x = shr_m mrs / 2 ^ k ->
              located (shr_1 x) a (2 ^ (k + 1) * b)
              /\ shr_m (shr_1 x) = shr_m mrs / 2 ^ (k + 1)).
    { intros k x Hk [Hx Hm].
      assert (Hpow : 0 < 2 ^ k) by (apply Z.pow_pos_nonneg; lia).
      destruct (shr_1_located x a (2 ^ k * b) ltac:(lia) Hx) as [Hx' Hm'].
      rewrite Z.pow_add_r, Z.pow_1_r by lia. split.
      - replace (2 ^ k * 2 * b) with (2 * (2 ^ k * b)) by lia. exact Hx'.
      - rewrite Hm', Hm, Z.div_div by lia. reflexivity. }
    apply (iter_pos_invariant shr_1
             (fun k x => located x a (2 ^ k * b)
                         /\ shr_m x = shr_m mrs / 2 ^ k)
             Hstep p 0 mrs); [lia|].
    split; [by rewrite Z.mul_1_l|]. by rewrite Z.div_1_r.
Qed.

Lemma round_nearest_even_located (mrs : shr_record) (a b : Z) :
  0 < b -> located mrs a b ->
  let mr := round_nearest_even (shr_m mrs) (loc_of_shr_record mrs) in
  shr_m mrs <= mr <= shr_m mrs + 1
  /\ 2 * Z.abs (mr * b - a) <= b.
Proof.
  intros Hb (H0 & Hf & Hr & Hs). destruct mrs as [m r s]. simpl in *.
  destruct r, s; simpl.
  - destruct Hr as [Hr _]. specialize (Hr eq_refl). lia.
  - destruct Hr as [Hr _]. specialize (Hr eq_refl).
    assert (Heq : 2 * a = (2 * m + 1) * b).
    { destruct (Z.eq_dec (2 * a) ((2 * m + 1) * b)) as [E|E]; [exact E|].
      destruct Hs as [_ Hs]. assert (false = true); [|discriminate].
      apply Hs. lia. }
    destruct (Z.even m); lia.
  - assert (~ (2 * m + 1) * b <= 2 * a).
    { intros H. destruct Hr as [_ Hr]. specialize (Hr H). discriminate. }
    lia.
  - assert (~ (2 * m + 1) * b <= 2 * a).
    { intros H. destruct Hr as [_ Hr]. specialize (Hr H). discriminate. }
    lia.
Qed.

Lemma located_exact (m : Z) :
  0 <= m -> located (shr_record_of_loc m loc_Exact) m 1.
Proof.
  intros Hm. unfold located; simpl. split; [lia|]. split; [lia|].
  split; (split; [discriminate|lia]).
Qed.

(** Rounding a mantissa of 53 bits or more, in the normal range. *)
Lemma binary_round_aux_normal (sx : bool) (mx ex : Z) (lx : location)
    (a b : Z) :
  let n := Zdigits2 mx - 53 in
  0 < b -> 0 < mx -> 0 <= n -> -1074 <= ex + n -> ex + n + 1 <= 971 ->
  located (shr_record_of_loc mx lx) a b ->
  exists mr,
    2 ^ 52 <= mr <= 2 ^ 53
    /\ 2 * Z.abs (mr * (2 ^ n * b) - a) <= 2 ^ n * b
    /\ binary_round_aux 53 1024 sx mx ex lx
       = if mr <? 2 ^ 53 then S754_finite sx (Z.to_pos mr) (ex + n)
         else S754_finite sx (Z.to_pos (2 ^ 52)) (ex + n + 1).
Proof.
  intros n Hb Hmx Hn Hlo Hhi Hloc.
  assert (Hshr0 : shr_m (shr_record_of_loc mx lx) = mx)
    by (destruct lx as [|[]]; reflexivity).
  assert (Hpow : 0 < 2 ^ n) by (apply Z.pow_pos_nonneg; lia).
  assert (Hdig : 2 ^ (Zdigits2 mx - 1) <= mx < 2 ^ Zdigits2 mx).
  { destruct mx as [|p|p]; try lia. exact (digits2_pos_bounds p). }
  unfold binary_round_aux.
  assert (Hfexp : fexp 53 1024 (Zdigits2 mx + ex) - ex = n)
    by (unfold fexp, emin; lia).
  unfold shr_fexp at 1. rewrite Hfexp.
  destruct (shr_located (shr_record_of_loc mx lx) ex n a b Hb Hn Hloc)
    as (He & Hloc' & Hm').
  destruct (shr (shr_record_of_loc mx lx) ex n) as [mrs' e'] eqn:Eshr.
  simpl in He, Hloc', Hm'. subst e'. rewrite Hshr0 in Hm'.
  assert (Hm'b : 2 ^ 52 <= shr_m mrs' < 2 ^ 53).
  { rewrite Hm'. split.
    - apply Z.div_le_lower_bound; [lia|].
      rewrite <- Z.pow_add_r by lia.
      replace (n + 52) with (Zdigits2 mx - 1) by lia. lia.
    - apply Z.div_lt_upper_bound; [lia|].
      rewrite <- Z.pow_add_r by lia.
      replace (n + 53) with (Zdigits2 mx) by lia. lia. }
  destruct (round_nearest_even_located mrs' a (2 ^ n * b) ltac:(lia) Hloc')
    as [Hmr Herr].
  set (mr := round_nearest_even (shr_m mrs') (loc_of_shr_record mrs')) in *.
  exists mr. split; [lia|]. split; [exact Herr|].
  destruct (mr <? 2 ^ 53) eqn:E.
  - apply Z.ltb_lt in E.
    assert (Hd : Zdigits2 mr = 53) by (apply Zdigits2_unique; lia).
    unfold shr_fexp. rewrite Hd.
    assert (Hf2 : fexp 53 1024 (53 + (ex + n)) - (ex + n) = 0)
      by (unfold fexp, emin; lia).
    rewrite Hf2. simpl.
    destruct mr as [|p|p]; try lia.
    assert (Hle : (ex + n <=? 1024 - 53) = true) by (apply Z.leb_le; lia).
    rewrite Hle. reflexivity.
  - apply Z.ltb_ge in E. assert (Hmr53 : mr = 2 ^ 53) by lia.
    rewrite Hmr53.
    unfold shr_fexp.
    assert (Hf2 : fexp 53 1024 (Zdigits2 (2 ^ 53) + (ex + n)) - (ex + n) = 1)
      by (change (Zdigits2 (2 ^ 53)) with 54; unfold fexp, emin; lia).
    rewrite Hf2.
    change (shr (shr_record_of_loc (2 ^ 53) loc_Exact) (ex + n) 1)
      with ({| shr_m := 2 ^ 52; shr_r := false; shr_s := false |}, ex + n + 1).
    change (shr_m {| shr_m := 2 ^ 52; shr_r := false; shr_s := false |})
      with (Zpos (Z.to_pos (2 ^ 52))).
    cbv iota beta.
    assert (Hle : (ex + n + 1 <=? 1024 - 53) = true) by (apply Z.leb_le; lia).
    rewrite Hle. reflexivity.
Qed.

Lemma shr_m_of_loc (m : Z) (l : location) : shr_m (shr_record_of_loc m l) = m.
Proof. destruct l as [|[]]; reflexivity. Qed.

Lemma new_location_located (q k b : Z) :
  0 <= q -> 0 <= k < b ->
  located (shr_record_of_loc q (new_location b k)) (q * b + k) b.
Proof.
  intros Hq Hk. unfold located. rewrite shr_m_of_loc.
  split; [exact Hq|]. split; [lia|].
  unfold new_location. destruct (Z.even b) eqn:Ev.
  - unfold new_location_even. destruct (k =? 0) eqn:E0.
    + apply Z.eqb_eq in E0. simpl. split; (split; [discriminate|lia]).
    + apply Z.eqb_neq in E0.
      destruct (Z.compare_spec (2 * k) b) as [Hc|Hc|Hc]; simpl;
        split; split; intros; try discriminate; try reflexivity; try lia.
  - unfold new_location_odd. destruct (k =? 0) eqn:E0.
    + apply Z.eqb_eq in E0. simpl. split; (split; [discriminate|lia]).
    + apply Z.eqb_neq in E0.
      rewrite <- Z.negb_odd in Ev. apply negb_false_iff in Ev.
      apply Z.odd_spec in Ev. destruct Ev as [c Hc'].
      destruct (Z.compare_spec (2 * k + 1) b) as [Hc|Hc|Hc]; simpl;
        split; split; intros; try discriminate; try reflexivity; try lia.
Qed.

(** The quotient of two normal numbers, in the normal range. *)
Lemma SFdiv_normal (mx my : positive) (ex ey : Z) :
  2 ^ 52 <= Zpos mx < 2 ^ 53 -> 2 ^ 52 <= Zpos my < 2 ^ 53 ->
  -1074 <= ex - ey - 53 -> ex - ey - 53 + 2 <= 971 ->
  exists m k,
    SFdiv 53 1024 (S754_finite false mx ex) (S754_finite false my ey)
    = S754_finite false m (ex - ey - 53 + k)
    /\ 0 <= k <= 2 /\ 2 ^ 52 <= Zpos m < 2 ^ 53
    /\ Z.abs (Zpos m * 2 ^ k * Zpos my - Zpos mx * 2 ^ 53) <= Zpos mx.
Proof.
  intros Hmx Hmy Hlo Hhi.
  unfold SFdiv, SFdiv_core_binary.
  rewrite (Zdigits2_unique (Zpos mx) 53) by lia.
  rewrite (Zdigits2_unique (Zpos my) 53) by lia.
  assert (He' : Z.min (fexp 53 1024 (53 + ex - (53 + ey))) (ex - ey)
                = ex - ey - 53) by (unfold fexp, emin; lia).
  rewrite He'.
  replace (ex - ey - (ex - ey - 53)) with 53 by lia.
  cbv iota beta.
  rewrite Z.shiftl_mul_pow2 by lia.
  assert (Hdm := Z_div_mod (Zpos mx * 2 ^ 53) (Zpos my) ltac:(lia)).
  destruct (Z.div_eucl (Zpos mx * 2 ^ 53) (Zpos my)) as [q r].
  destruct Hdm as [Hq Hr]. cbv iota beta. simpl xorb.
  assert (Hq52 : 2 ^ 52 <= q < 2 ^ 54).
  { split.
    - destruct (Z_lt_le_dec q (2 ^ 52)) as [Hlt|]; [exfalso|assumption].
      assert (Zpos my * q <= Zpos my * (2 ^ 52 - 1))
        by (apply Z.mul_le_mono_nonneg_l; lia).
      assert (2 ^ 52 * 2 ^ 53 <= Zpos mx * 2 ^ 53)
        by (apply Z.mul_le_mono_nonneg_r; lia).
      assert (Zpos my * 2 ^ 52 < 2 ^ 53 * 2 ^ 52)
        by (apply Z.mul_lt_mono_pos_r; lia).
      lia.
    - destruct (Z_lt_le_dec q (2 ^ 54)) as [|Hge]; [assumption|exfalso].
      assert (Zpos my * 2 ^ 54 <= Zpos my * q)
        by (apply Z.mul_le_mono_nonneg_l; lia).
      assert (2 ^ 52 * 2 ^ 54 <= Zpos my * 2 ^ 54)
        by (apply Z.mul_le_mono_nonneg_r; lia).
      assert (Zpos mx * 2 ^ 53 < 2 ^ 53 * 2 ^ 53)
        by (apply Z.mul_lt_mono_pos_r; lia).
      lia. }
  assert (Hloc : located (shr_record_of_loc q (new_location (Zpos my) r))
                   (Zpos mx * 2 ^ 53) (Zpos my)).
  { replace (Zpos mx * 2 ^ 53) with (q * Zpos my + r) by lia.
    apply new_location_located; lia. }
  assert (Hn : Zdigits2 q = 53 /\ q < 2 ^ 53 \/ Zdigits2 q = 54 /\ 2 ^ 53 <= q).
  { destruct (Z_lt_le_dec q (2 ^ 53)).
    - left. split; [apply Zdigits2_unique; lia|lia].
    - right. split; [apply Zdigits2_unique; lia|lia]. }
  pose proof (binary_round_aux_normal false q (ex - ey - 53)
                (new_location (Zpos my) r) (Zpos mx * 2 ^ 53) (Zpos my))
    as Hbra.
  cbv zeta in Hbra.
  destruct Hbra as (mr & Hmr & Herr & Hres); [lia|lia|lia|lia|lia|exact Hloc|].
  rewrite Hres. clear Hres Hloc.
  set (n := Zdigits2 q - 53) in *.
  assert (Hbound : 2 ^ n * Zpos my <= 2 * Zpos mx).
  { destruct Hn as [[Hd _]|[Hd Hq53]].
    - replace n with 0 by lia. rewrite Z.pow_0_r. lia.
    - replace n with 1 by lia. rewrite Z.pow_1_r.
      assert (2 ^ 53 * Zpos my <= q * Zpos my)
        by (apply Z.mul_le_mono_nonneg_r; lia).
      lia. }
  assert (Hn01 : 0 <= n <= 1) by lia.
  destruct (mr <? 2 ^ 53) eqn:E.
  - apply Z.ltb_lt in E. exists (Z.to_pos mr), n.
    rewrite Z2Pos.id by lia.
    split; [reflexivity|]. split; [lia|]. split; [lia|].
    replace (mr * 2 ^ n * Zpos my) with (mr * (2 ^ n * Zpos my)) by lia. lia.
  - apply Z.ltb_ge in E. exists (Z.to_pos (2 ^ 52)), (n + 1).
    rewrite Z2Pos.id by lia.
    split; [f_equal; lia|]. split; [lia|]. split; [lia|].
    assert (mr = 2 ^ 53) by lia. subst mr.
    rewrite Z.pow_add_r, Z.pow_1_r by lia.
    replace (2 ^ 52 * (2 ^ n * 2) * Zpos my) with (2 ^ 53 * (2 ^ n * Zpos my))
      by (change (2 ^ 53) with (2 ^ 52 * 2); lia).
    lia.
Qed.

Lemma Pos_iter_xO (m d : positive) :
  Zpos (Pos.iter xO m d) = Zpos m * 2 ^ Zpos d.
Proof.
  induction d as [|d IH] using Pos.peano_ind.
  - simpl. lia.
  - rewrite Pos.iter_succ, Pos2Z.inj_succ, Z.pow_succ_r by lia.
    rewrite Pos2Z.inj_xO, IH. lia.
Qed.

Lemma shl_align_spec (mx : positive) (ex ex' : Z) :
  ex' <= ex ->
  (shl_align mx ex ex').2 = ex'
  /\ Zpos (shl_align mx ex ex').1 = Zpos mx * 2 ^ (ex - ex').
Proof.
  intros Hle. unfold shl_align. destruct (ex' - ex) as [|d|d] eqn:E; try lia.
  - simpl. replace (ex - ex') with 0 by lia. split; lia.
  - simpl. split; [reflexivity|]. rewrite Pos_iter_xO. f_equal. f_equal. lia.
Qed.

(** An integer below 2^53 is a number. *)
Lemma numberOfZ_normal (z : Z) :
  0 < z < 2 ^ 53 ->
  exists m e,
    numberOfZ z = S754_finite false m e
    /\ 2 ^ 52 <= Zpos m < 2 ^ 53 /\ -52 <= e <= 0
    /\ Zpos m = z * 2 ^ (- e).
Proof.
  intros Hz. destruct z as [|p|p]; try lia.
  unfold numberOfZ, binary_normalize, binary_round.
  destruct (digits2_pos_bounds p) as [Hlo Hhi].
  set (d := Zpos (digits2_pos p)) in *.
  assert (Hd : 1 <= d <= 53).
  { split; [unfold d; lia|].
    destruct (Z_lt_le_dec 53 d) as [Hgt|]; [exfalso|assumption].
    assert (2 ^ 53 <= 2 ^ (d - 1)) by (apply Z.pow_le_mono_r; lia). lia. }
  assert (Hf : fexp 53 1024 (d + 0) = d - 53) by (unfold fexp, emin; lia).
  rewrite Hf.
  destruct (shl_align_spec p 0 (d - 53) ltac:(lia)) as [He Hm].
  destruct (shl_align p 0 (d - 53)) as [mz ez]. simpl in He, Hm. subst ez.
  replace (0 - (d - 53)) with (53 - d) in Hm by lia.
  assert (Hmz : 2 ^ 52 <= Zpos mz < 2 ^ 53).
  { rewrite Hm. split.
    - replace 52 with ((d - 1) + (53 - d)) at 1 by lia.
      rewrite Z.pow_add_r by lia.
      apply Z.mul_le_mono_nonneg_r; [apply Z.pow_nonneg|]; lia.
    - replace 53 with (d + (53 - d)) at 2 by lia.
      rewrite Z.pow_add_r by lia.
      apply Z.mul_lt_mono_pos_r; [apply Z.pow_pos_nonneg|]; lia. }
  pose proof (binary_round_aux_normal false (Zpos mz) (d - 53) loc_Exact
                (Zpos mz) 1)
    as Hbra.
  cbv zeta in Hbra. rewrite (Zdigits2_unique (Zpos mz) 53) in Hbra by lia.
  destruct Hbra as (mr & Hmr & Herr & Hres);
    [lia|lia|lia|lia|lia|apply located_exact; lia|].
  change (2 ^ (53 - 53)) with 1 in Herr.
  assert (mr = Zpos mz) by lia. subst mr.
  assert (E : (Zpos mz <? 2 ^ 53) = true) by (apply Z.ltb_lt; lia).
  rewrite E in Hres. rewrite Hres.
  exists mz, (d - 53). split; [simpl; f_equal; lia|].
  split; [lia|]. split; [lia|].
  rewrite Hm. f_equal. f_equal. lia.
Qed.

Lemma pow2_pos (e : Z) : (0 < 2 ^ e)%Q.
Proof. apply Qpower_0_lt. reflexivity. Qed.

Lemma pow2_add (a b : Z) : (2 ^ (a + b) == 2 ^ a * 2 ^ b)%Q.
Proof. apply Qpower_plus. discriminate. Qed.

Lemma pow2_inject (k : Z) : 0 <= k -> (2 ^ k == inject_Z (2 ^ k))%Q.
Proof. intros Hk. symmetry. exact (Zpower_Qpower 2 k Hk). Qed.

Lemma pow2_cancel (e : Z) : (2 ^ (- e) * 2 ^ e == 1)%Q.
Proof. rewrite <- pow2_add. replace (- e + e) with 0 by lia. reflexivity. Qed.

Lemma numberOfZ_value (z : Z) :
  0 < z < 2 ^ 53 ->
  exists m e,
    numberOfZ z = S754_finite false m e
    /\ 2 ^ 52 <= Zpos m < 2 ^ 53 /\ -52 <= e <= 0
    /\ (numberValue (numberOfZ z) == inject_Z z)%Q.
Proof.
  intros Hz. destruct (numberOfZ_normal z Hz) as (m & e & Hx & Hm & He & Hv).
  exists m, e. rewrite Hx.
  split; [reflexivity|]. split; [exact Hm|]. split; [exact He|].
  simpl. rewrite Hv, inject_Z_mult, <- pow2_inject by lia.
  rewrite <- Qmult_assoc, pow2_cancel. ring.
Qed.

(** The quotient of two normal numbers is a normal number within the
    relative error 2^-53 of the exact quotient. *)
Lemma SFdiv_value (mx my : positive) (ex ey : Z) :
  2 ^ 52 <= Zpos mx < 2 ^ 53 -> 2 ^ 52 <= Zpos my < 2 ^ 53 ->
  -1074 <= ex - ey - 53 -> ex - ey - 53 + 2 <= 971 ->
  let x := S754_finite false mx ex in
  let y := S754_finite false my ey in
  exists m e,
    SFdiv 53 1024 x y = S754_finite false m e
    /\ 2 ^ 52 <= Zpos m < 2 ^ 53 /\ ex - ey - 53 <= e <= ex - ey - 51
    /\ (numberValue x - numberValue x * (1 # 2 ^ 53)
        <= numberValue (SFdiv 53 1024 x y) * numberValue y
        <= numberValue x + numberValue x * (1 # 2 ^ 53))%Q.
Proof.
  intros Hmx Hmy Hlo Hhi x y.
  destruct (SFdiv_normal mx my ex ey Hmx Hmy Hlo Hhi)
    as (m & k & Hdiv & Hk & Hm & Herr).
  exists m, (ex - ey - 53 + k). subst x y. rewrite Hdiv.
  split; [reflexivity|]. split; [exact Hm|]. split; [lia|].
  simpl numberValue.
  set (P := (2 ^ (ex - 53))%Q).
  assert (HP : (0 < P)%Q) by apply pow2_pos.
  assert (HSY : (inject_Z (Zpos m) * 2 ^ (ex - ey - 53 + k)
                 * (inject_Z (Zpos my) * 2 ^ ey)
                 == inject_Z (Zpos m * 2 ^ k * Zpos my) * P)%Q).
  { replace (ex - ey - 53 + k) with ((ex - 53) + k + - ey) by lia.
    rewrite !pow2_add, !inject_Z_mult, (pow2_inject k) by lia.
    fold P.
    transitivity (inject_Z (Zpos m) * inject_Z (2 ^ k) * inject_Z (Zpos my)
                  * P * (2 ^ (- ey) * 2 ^ ey))%Q; [ring|].
    rewrite pow2_cancel. ring. }
  assert (HX : (inject_Z (Zpos mx) * 2 ^ ex
                == inject_Z (Zpos mx * 2 ^ 53) * P)%Q).
  { replace ex with ((ex - 53) + 53) at 1 by lia.
    rewrite pow2_add, inject_Z_mult, (pow2_inject 53) by lia. fold P. ring. }
  assert (HXu : (inject_Z (Zpos mx) * 2 ^ ex * (1 # 2 ^ 53)
                 == inject_Z (Zpos mx) * P)%Q).
  { replace ex with ((ex - 53) + 53) at 1 by lia.
    rewrite pow2_add. fold P.
    transitivity (inject_Z (Zpos mx) * P * (2 ^ 53 * (1 # 2 ^ 53)))%Q; [ring|].
    assert (E : (2 ^ 53 * (1 # 2 ^ 53) == 1)%Q) by reflexivity.
    rewrite E. ring. }
  rewrite HXu, HSY, HX.
  assert (H1 : (inject_Z (Zpos mx * 2 ^ 53 - Zpos mx)
                <= inject_Z (Zpos m * 2 ^ k * Zpos my))%Q)
    by (rewrite <- Zle_Qle; lia).
  assert (H2 : (inject_Z (Zpos m * 2 ^ k * Zpos my)
                <= inject_Z (Zpos mx * 2 ^ 53 + Zpos mx))%Q)
    by (rewrite <- Zle_Qle; lia).
  apply (Qmult_le_compat_r _ _ P) in H1; [|lra].
  apply (Qmult_le_compat_r _ _ P) in H2; [|lra].
  unfold Z.sub in H1. rewrite inject_Z_plus, inject_Z_opp in H1.
  rewrite inject_Z_plus in H2.
  split; lra.
Qed.

Lemma shl_align_keep (mx : positive) (ex ex' : Z) :
  ex <= ex' -> shl_align mx ex ex' = (mx, ex).
Proof.
  intros Hle. unfold shl_align. destruct (ex' - ex) eqn:E; try reflexivity. lia.
Qed.

(** [binary_round] does not depend on the trailing zeros of the mantissa. *)
Lemma binary_round_shift (s : bool) (E : positive) (k : Z) :
  Zpos E < 2 ^ 53 -> 0 <= k ->
  binary_round 53 1024 s (Z.to_pos (Zpos E * 2 ^ k)) (- k)
  = binary_round 53 1024 s E 0.
Proof.
  intros HE Hk. unfold binary_round.
  destruct (digits2_pos_bounds E) as [Hlo Hhi].
  set (d := Zpos (digits2_pos E)) in *.
  assert (Hd : 1 <= d <= 53).
  { split; [unfold d; lia|].
    destruct (Z_lt_le_dec 53 d) as [Hgt|]; [exfalso|assumption].
    assert (2 ^ 53 <= 2 ^ (d - 1)) by (apply Z.pow_le_mono_r; lia). lia. }
  assert (Hpk : 0 < 2 ^ k) by (apply Z.pow_pos_nonneg; lia).
  set (D := Z.to_pos (Zpos E * 2 ^ k)).
  assert (HD : Zpos D = Zpos E * 2 ^ k) by (unfold D; rewrite Z2Pos.id; lia).
  assert (HdD : Zpos (digits2_pos D) = d + k).
  { change (Zpos (digits2_pos D)) with (Zdigits2 (Zpos D)).
    apply Zdigits2_unique; [lia|]. rewrite HD. split.
    - replace (d + k - 1) with ((d - 1) + k) by lia. rewrite Z.pow_add_r by lia.
      apply Z.mul_le_mono_nonneg_r; lia.
    - rewrite Z.pow_add_r by lia. apply Z.mul_lt_mono_pos_r; lia. }
  rewrite HdD.
  assert (Hf : fexp 53 1024 (d + k + - k) = d - 53) by (unfold fexp, emin; lia).
  assert (Hf0 : fexp 53 1024 (d + 0) = d - 53) by (unfold fexp, emin; lia).
  rewrite Hf, Hf0.
  destruct (shl_align_spec E 0 (d - 53) ltac:(lia)) as [He Hm].
  destruct (shl_align E 0 (d - 53)) as [mz ez]. simpl in He, Hm. subst ez.
  replace (0 - (d - 53)) with (53 - d) in Hm by lia.
  assert (Hmz : 2 ^ 52 <= Zpos mz < 2 ^ 53).
  { rewrite Hm. split.
    - replace 52 with ((d - 1) + (53 - d)) at 1 by lia.
      rewrite Z.pow_add_r by lia.
      apply Z.mul_le_mono_nonneg_r; [apply Z.pow_nonneg|]; lia.
    - replace 53 with (d + (53 - d)) at 2 by lia.
      rewrite Z.pow_add_r by lia.
      apply Z.mul_lt_mono_pos_r; [apply Z.pow_pos_nonneg|]; lia. }
  destruct (Z_le_gt_dec (d - 53) (- k)) as [Hle|Hgt].
  - destruct (shl_align_spec D (- k) (d - 53) Hle) as [He' Hm'].
    destruct (shl_align D (- k) (d - 53)) as [mz' ez']. simpl in He', Hm'.
    subst ez'.
    assert (mz' = mz); [|subst mz'; reflexivity].
    apply Pos2Z.inj. rewrite Hm', Hm, HD, <- Z.mul_assoc, <- Z.pow_add_r by lia.
    f_equal. f_equal. lia.
  - rewrite (shl_align_keep D (- k) (d - 53)) by lia.
    pose proof (binary_round_aux_normal s (Zpos D) (- k) loc_Exact (Zpos D) 1)
      as HL.
    pose proof (binary_round_aux_normal s (Zpos mz) (d - 53) loc_Exact
                  (Zpos mz) 1) as HR.
    cbv zeta in HL, HR.
    rewrite (Zdigits2_unique (Zpos mz) 53) in HR by lia.
    change (Zdigits2 (Zpos D)) with (Zpos (digits2_pos D)) in HL.
    rewrite HdD in HL.
    destruct HL as (ml & Hml & Herrl & Hresl);
      [lia|lia|lia|lia|lia|apply located_exact; lia|].
    destruct HR as (mr & Hmr & Herrr & Hresr);
      [lia|lia|lia|lia|lia|apply located_exact; lia|].
    rewrite Hresl, Hresr.
    change (2 ^ (53 - 53)) with 1 in Herrr.
    assert (mr = Zpos mz) by lia. subst mr.
    assert (HDn : Zpos D = Zpos mz * 2 ^ (d + k - 53)).
    { rewrite HD, Hm, <- Z.mul_assoc, <- Z.pow_add_r by lia.
      f_equal. f_equal. lia. }
    assert (Hpn : 0 < 2 ^ (d + k - 53)) by (apply Z.pow_pos_nonneg; lia).
    assert (ml = Zpos mz).
    { rewrite HDn, Z.mul_1_r in Herrl.
      replace (ml * 2 ^ (d + k - 53) - Zpos mz * 2 ^ (d + k - 53))
        with ((ml - Zpos mz) * 2 ^ (d + k - 53)) in Herrl by lia.
      rewrite Z.abs_mul, (Z.abs_eq (2 ^ (d + k - 53))) in Herrl by lia.
      destruct (Z.eq_dec ml (Zpos mz)) as [|Hne]; [assumption|exfalso].
      assert (1 * 2 ^ (d + k - 53) <= Z.abs (ml - Zpos mz) * 2 ^ (d + k - 53))
        by (apply Z.mul_le_mono_nonneg_r; lia).
      lia. }
    subst ml.
    assert (E1 : (Zpos mz <? 2 ^ 53) = true) by (apply Z.ltb_lt; lia).
    rewrite E1. f_equal. lia.
Qed.

(** The difference of two positive integral numbers below 2^53 is the
    number of their difference. *)
Lemma SFsub_numberOfZ (a b : Z) :
  0 < a < 2 ^ 53 -> 0 < b < 2 ^ 53 ->
  SFsub 53 1024 (numberOfZ a) (numberOfZ b) = numberOfZ (a - b).
Proof.
  intros Ha Hb.
  destruct (numberOfZ_normal a Ha) as (ma & ea & Hxa & Hma & Hea & Hva).
  destruct (numberOfZ_normal b Hb) as (mb & eb & Hxb & Hmb & Heb & Hvb).
  rewrite Hxa, Hxb. unfold SFsub, cond_Zopp.
  set (ez := Z.min ea eb).
  destruct (shl_align_spec ma ea ez ltac:(lia)) as [_ HA].
  destruct (shl_align_spec mb eb ez ltac:(lia)) as [_ HB].
  rewrite HA, HB, Hva, Hvb, <- !Z.mul_assoc, <- !Z.pow_add_r by lia.
  replace (- ea + (ea - ez)) with (- ez) by lia.
  replace (- eb + (eb - ez)) with (- ez) by lia.
  rewrite <- Z.mul_sub_distr_r.
  assert (Hk : 0 <= - ez) by lia.
  assert (Hpk : 0 < 2 ^ (- ez)) by (apply Z.pow_pos_nonneg; lia).
  replace ez with (- - ez) at 2 by lia.
  destruct (a - b) as [|E|E] eqn:Hab.
  - reflexivity.
  - replace (Zpos E * 2 ^ (- ez)) with (Zpos (Z.to_pos (Zpos E * 2 ^ (- ez))))
      by (rewrite Z2Pos.id; lia).
    unfold numberOfZ, binary_normalize.
    apply binary_round_shift; lia.
  - replace (Zneg E * 2 ^ (- ez)) with (Zneg (Z.to_pos (Zpos E * 2 ^ (- ez))))
      by (rewrite <- Pos2Z.opp_pos, Z2Pos.id; lia).
    unfold numberOfZ, binary_normalize.
    apply binary_round_shift; lia.
Qed.

Lemma binary_round_aux_signed (s : bool) (mx ex : Z) (lx : location) :
  signed s (binary_round_aux 53 1024 s mx ex lx).
Proof.
  unfold binary_round_aux.
  destruct (shr_fexp 53 1024 mx ex lx) as [mrs' e'].
  destruct (shr_fexp 53 1024 _ e' loc_Exact) as [mrs'' e''].
  destruct (shr_m mrs''); simpl; try reflexivity.
  destruct (e'' <=? 1024 - 53); reflexivity.
Qed.

(** A duration that is not positive fails the test [durationMinutes > 0]. *)
Lemma nonpositive_duration (z : Z) (my : positive) (ey : Z) :
  z <= 0 ->
  SFltb (S754_zero false)
        (SFdiv 53 1024 (numberOfZ z) (S754_finite false my ey)) = false.
Proof.
  intros Hz. destruct z as [|p|p]; try lia; [reflexivity|].
  unfold numberOfZ, binary_normalize, binary_round.
  destruct (shl_align p 0 _) as [mz ez].
  pose proof (binary_round_aux_signed true (Zpos mz) ez loc_Exact) as Hs.
  destruct (binary_round_aux 53 1024 true (Zpos mz) ez loc_Exact)
    as [s'|s'| |s' m' e']; simpl in Hs; subst; try reflexivity.
  unfold SFdiv. destruct (SFdiv_core_binary _ _ _ _ _ _) as [[mq eq] lq].
  pose proof (binary_round_aux_signed (xorb true false) mq eq lq) as Hs.
  destruct (binary_round_aux 53 1024 (xorb true false) mq eq lq)
    as [s'|s'| |s' m'' e'']; simpl in Hs; subst; reflexivity.
Qed.

(** Two divisions, each within the relative error 2^-53, stay within the
    relative error 2^-51 of the exact quotient. *)
Lemma rate_error (S M E N : Q) :
  (0 < E -> 0 < N -> 0 < S ->
   E - E * (1 # 2 ^ 53) <= M * 60000 <= E + E * (1 # 2 ^ 53) ->
   N - N * (1 # 2 ^ 53) <= S * M <= N + N * (1 # 2 ^ 53) ->
   let exact := N / (E / 60000) in
   - (exact * (1 # 2 ^ 51)) <= S - exact <= exact * (1 # 2 ^ 51))%Q.
Proof.
  intros HE HN HS [HM1 HM2] [HS1 HS2] exact.
  assert (Hq : (exact * E == N * 60000)%Q).
  { unfold exact. field. intros H0. rewrite H0 in HE. discriminate HE. }
  assert (H1 : (S * (E - E * (1 # 2 ^ 53)) <= S * (M * 60000))%Q)
    by (apply Qmult_le_l; assumption).
  assert (H2 : (S * (M * 60000) <= S * (E + E * (1 # 2 ^ 53)))%Q)
    by (apply Qmult_le_l; assumption).
  assert (H3 : (S * M * 60000 <= (N + N * (1 # 2 ^ 53)) * 60000)%Q)
    by (apply Qmult_le_compat_r; [assumption|discriminate]).
  assert (H4 : ((N - N * (1 # 2 ^ 53)) * 60000 <= S * M * 60000)%Q)
    by (apply Qmult_le_compat_r; [assumption|discriminate]).
  assert (E1 : (S * (E - E * (1 # 2 ^ 53)) == S * E - S * E * (1 # 2 ^ 53))%Q)
    by ring.
  assert (E2 : (S * (E + E * (1 # 2 ^ 53)) == S * E + S * E * (1 # 2 ^ 53))%Q)
    by ring.
  assert (E3 : (S * (M * 60000) == S * M * 60000)%Q) by ring.
  rewrite E1, E3 in H1. rewrite E2, E3 in H2. clear E1 E2 E3.
  assert (Ht : ((S - exact) * E == S * E - N * 60000)%Q)
    by (rewrite <- Hq; ring).
  assert (Hw : (exact * (1 # 2 ^ 51) * E == N * 60000 * (1 # 2 ^ 51))%Q)
    by (rewrite <- Hq; ring).
  assert (Hw' : (- (exact * (1 # 2 ^ 51)) * E
                 == - (N * 60000 * (1 # 2 ^ 51)))%Q)
    by (rewrite <- Hq; ring).
  assert (Hdiff : (- (exact * (1 # 2 ^ 51)) * E <= (S - exact) * E
                   <= exact * (1 # 2 ^ 51) * E)%Q).
  { rewrite Ht, Hw, Hw'.
    set (t := (S * E)%Q) in *. set (p := (S * M)%Q) in *. clearbody t p.
    change (1 # 2 ^ 53)%Q with (1 # 9007199254740992)%Q in *.
    change (1 # 2 ^ 51)%Q with (1 # 2251799813685248)%Q in *.
    split; lra. }
  destruct Hdiff as [Hd1 Hd2].
  split.
  - apply (Qmult_le_r _ _ E HE). exact Hd1.
  - apply (Qmult_le_r _ _ E HE). exact Hd2.
Qed.

Lemma mathRound_bounds (x : Q) :
  (inject_Z (mathRound x) <= x + (1 # 2) < inject_Z (mathRound x) + 1)%Q.
Proof.
  unfold mathRound. split; [apply Qfloor_le|].
  rewrite <- (inject_Z_plus _ 1). apply Qlt_floor.
Qed.

Lemma numberValue_pos (m : positive) (e : Z) :
  (0 < numberValue (S754_finite false m e))%Q.
Proof.
  simpl. apply Qmult_lt_0_compat; [reflexivity|apply pow2_pos].
Qed.

(** The throughput of more than one event over a positive time, in
    numbers. *)
Lemma scan_rate_numbers (n a b : Z) :
  0 < b < 2 ^ 53 -> 0 < a < 2 ^ 53 -> b < a -> 0 < n < 2 ^ 32 ->
  let durationMinutes :=
    SFdiv 53 1024 (SFsub 53 1024 (numberOfZ a) (numberOfZ b))
      (SFmul 53 1024 (numberOfZ 1000) (numberOfZ 60)) in
  let exact := (inject_Z n / (inject_Z (a - b) / 60000))%Q in
  SFltb (S754_zero false) durationMinutes = true
  /\ exists r,
       mathRoundNumber (SFdiv 53 1024 (numberOfZ n) durationMinutes) = Speed r
       /\ (Qabs (inject_Z r - exact) <= (1 # 2) + exact * (1 # 2 ^ 51))%Q
       /\ Z.abs (r - mathRound exact) <= 1.
Proof.
  intros Hb Ha Hab Hn durationMinutes exact. subst durationMinutes.
  rewrite SFsub_numberOfZ by lia.
  assert (Hc : SFmul 53 1024 (numberOfZ 1000) (numberOfZ 60)
               = S754_finite false 8246337208320000 (-37))
    by (vm_compute; reflexivity).
  rewrite Hc. clear Hc.
  assert (Hvc : (numberValue (S754_finite false 8246337208320000 (-37))
                 == 60000)%Q) by reflexivity.
  destruct (numberOfZ_value (a - b) ltac:(lia))
    as (mE & eE & HxE & HmE & HeE & HvE).
  rewrite HxE in *.
  destruct (SFdiv_value mE 8246337208320000 eE (-37) HmE ltac:(lia)
              ltac:(lia) ltac:(lia)) as (mM & eM & HxM & HmM & HeM & HvM).
  cbv zeta in HxM, HvM. rewrite HxM in *.
  split; [reflexivity|].
  destruct (numberOfZ_value n ltac:(lia)) as (mN & eN & HxN & HmN & HeN & HvN).
  rewrite HxN in *.
  destruct (SFdiv_value mN mM eN eM HmN HmM ltac:(lia) ltac:(lia))
    as (mS & eS & HxS & HmS & HeS & HvS).
  cbv zeta in HxS, HvS. rewrite HxS in *.
  exists (mathRound (numberValue (S754_finite false mS eS))).
  split; [reflexivity|].
  pose proof (numberValue_pos mS eS) as HS.
  set (S := numberValue (S754_finite false mS eS)) in *.
  set (M := numberValue (S754_finite false mM eM)) in *.
  rewrite Hvc, HvE in HvM. rewrite HvN in HvS.
  assert (HE : (0 < inject_Z (a - b))%Q)
    by (change 0%Q with (inject_Z 0); rewrite <- Zlt_Qlt; lia).
  assert (HN : (0 < inject_Z n)%Q)
    by (change 0%Q with (inject_Z 0); rewrite <- Zlt_Qlt; lia).
  pose proof (rate_error S M (inject_Z (a - b)) (inject_Z n) HE HN HS HvM HvS)
    as Herr.
  cbv zeta in Herr. fold exact in Herr.
  pose proof (mathRound_bounds S) as [Hr1 Hr2].
  pose proof (mathRound_bounds exact) as [HR1 HR2].
  set (r := mathRound S) in *. set (R := mathRound exact) in *.
  assert (Hq : (exact * inject_Z (a - b) == inject_Z n * 60000)%Q).
  { unfold exact. field. intros H0. rewrite H0 in HE. discriminate HE. }
  assert (Hex0 : (0 <= exact)%Q).
  { apply (Qmult_le_r _ _ (inject_Z (a - b)) HE). rewrite Hq. lra. }
  assert (HE1 : (1 <= inject_Z (a - b))%Q)
    by (change 1%Q with (inject_Z 1); rewrite <- Zle_Qle; lia).
  assert (Hexle : (exact <= inject_Z n * 60000)%Q).
  { rewrite <- Hq.
    assert (H0 : (0 <= exact * (inject_Z (a - b) - 1))%Q)
      by (apply Qmult_le_0_compat; lra).
    lra. }
  assert (HN32 : (inject_Z n <= 4294967296)%Q)
    by (change 4294967296%Q with (inject_Z (2 ^ 32)); rewrite <- Zle_Qle; lia).
  clearbody exact r R S.
  change (1 # 2 ^ 51)%Q with (1 # 2251799813685248)%Q in *.
  split.
  - apply Qabs_Qle_condition. split; lra.
  - assert (H1 : (inject_Z r < inject_Z (R + 2))%Q)
      by (rewrite inject_Z_plus; change (inject_Z 2) with 2%Q; lra).
    assert (H2 : (inject_Z R < inject_Z (r + 2))%Q)
      by (rewrite inject_Z_plus; change (inject_Z 2) with 2%Q; lra).
    rewrite <- Zlt_Qlt in H1, H2. lia.
Qed.

(** *** The throughput *)

(** The single-event ledger and its summary. *)
Lemma single_event_speed_is_zero :
  length (scannedItems scannedOnce) = 1%nat
  /\ scanSpeed <$> summaryData [sampleRow] (scannedItems scannedOnce)
     = Some (Speed 0)
  /\ ~ (forall kohaData items s,
          length items = 1%nat ->
          summaryData kohaData items = Some s ->
          scanSpeed s = SpeedInfinity).
Proof.
  split; [reflexivity|]. split; [vm_compute; reflexivity|].
  intros H.
  specialize (H [sampleRow] (scannedItems scannedOnce)
                {| totalScanned := 1; valid := 1; invalid := 0;
                   notScannedCount := 0; scanSpeed := Speed 0 |}
                eq_refl).
  assert (Hs : summaryData [sampleRow] (scannedItems scannedOnce)
               = Some {| totalScanned := 1; valid := 1; invalid := 0;
                         notScannedCount := 0; scanSpeed := Speed 0 |})
    by (vm_compute; reflexivity).
  specialize (H Hs). discriminate H.
Qed.

(** Three events over 1600 milliseconds: the two divisions give the
    Number 112.49999999999999, which [Math.round] takes to 112, where the
    exact quotient 112.5 rounds to 113. *)
Lemma double_quotient_rounds_down :
  scanSpeed <$> summaryData [] threeQuickScans = Some (Speed 112)
  /\ mathRound (3 / (1600 / 60000)) = 113.
Proof. split; vm_compute; reflexivity. Qed.

(** C4, as the code has it. The reported throughput is that of
    [scanSpeedOf].  With one event or none it is 0.  With more than one
    event it depends on the time between the last entry of the ledger
    (the oldest scan) and its first entry (the newest), the time stamps
    being clock readings (positive and below 2^53): when that time is
    not positive the throughput is the infinity sign; when it is
    positive, the throughput is [Math.round], a tie going up, of the
    quotient of the number of events by the elapsed minutes, both
    divisions being rounded to binary64.  For fewer than 2^32 events
    that integer is within 1/2 + q * 2^-51 of the exact quotient [q],
    and within 1 of the exact quotient rounded. *)
Theorem scanSpeed_spec (kohaData : list Row) (items : list ScanEvent) (s : Summary) :
  summaryData kohaData items = Some s ->
  totalScanned s = length items
  /\ ((length items <= 1)%nat -> scanSpeed s = Speed 0)
  /\ (forall newest oldest,
        (1 < length items)%nat ->
        head items = Some newest ->
        last items = Some oldest ->
        0 < timestamp oldest < 2 ^ 53 ->
        0 < timestamp newest < 2 ^ 53 ->
        let elapsed := timestamp newest - timestamp oldest in
        (elapsed <= 0 -> scanSpeed s = SpeedInfinity)
        /\ (0 < elapsed ->
            Z.of_nat (length items) < 2 ^ 32 ->
            let exact := (inject_Z (Z.of_nat (length items))
                          / (inject_Z elapsed / 60000))%Q in
            exists r,
              scanSpeed s = Speed r
              /\ scanSpeed s
                 = mathRoundNumber
                     (SFdiv 53 1024 (numberOfZ (Z.of_nat (length items)))
                        (SFdiv 53 1024 (numberOfZ elapsed) (numberOfZ 60000)))
              /\ (Qabs (inject_Z r - exact)
                  <= (1 # 2) + exact * (1 # 2 ^ 51))%Q
              /\ Z.abs (r - mathRound exact) <= 1)).
Proof.
  unfold summaryData. destruct (_ && _); [discriminate|].
  intros [= <-]. cbn [totalScanned scanSpeed]. split; [reflexivity|]. split.
  - intros Hlen. unfold scanSpeedOf.
    destruct (1 <? length items)%nat eqn:E; [|reflexivity].
    apply Nat.ltb_lt in E. lia.
  - intros newest oldest Hlen Hhead Hlast Hold Hnew.
    assert (Hc : SFmul 53 1024 (numberOfZ 1000) (numberOfZ 60)
                 = numberOfZ 60000) by (vm_compute; reflexivity).
    unfold scanSpeedOf.
    apply Nat.ltb_lt in Hlen. rewrite Hlen, Hhead, Hlast. cbv zeta.
    apply Nat.ltb_lt in Hlen. split.
    + intros Hle. rewrite SFsub_numberOfZ by lia.
      assert (Hc' : SFmul 53 1024 (numberOfZ 1000) (numberOfZ 60)
                    = S754_finite false 8246337208320000 (-37))
        by (vm_compute; reflexivity).
      rewrite Hc', nonpositive_duration by lia. reflexivity.
    + intros Hpos Hn32.
      destruct (scan_rate_numbers (Z.of_nat (length items))
                  (timestamp newest) (timestamp oldest)
                  Hold Hnew ltac:(lia) ltac:(lia))
        as [Hgt (r & Hr & Hb1 & Hb2)].
      rewrite Hgt. exists r.
      split; [exact Hr|].
      split; [rewrite <- Hc, <- SFsub_numberOfZ by lia; reflexivity|].
      split; assumption.
Qed.

Lemma scanSpeed_spec_witness :
  summaryData [] threeScans
  = Some {| totalScanned := 3; valid := 0; invalid := 0;
            notScannedCount := 0; scanSpeed := Speed 2 |}
  /\ totalScanned {| totalScanned := 3; valid := 0; invalid := 0;
                     notScannedCount := 0; scanSpeed := Speed 2 |}
     = length threeScans.
Proof.
  assert (H : summaryData [] threeScans
              = Some {| totalScanned := 3; valid := 0; invalid := 0;
                        notScannedCount := 0; scanSpeed := Speed 2 |})
    by (vm_compute; reflexivity).
  split; [exact H|].
  exact (proj1 (scanSpeed_spec [] threeScans _ H)).
Defined.

(** ** C8: the missing count *)

Lemma elem_of_barcodes (k : string) (items : list ScanEvent) :
  bool_decide (k ∈ (list_to_set (map barcode items) : gset string))
  = existsb (fun e => String.eqb (barcode e) k) items.
Proof.
  induction items as [|e items IH]; simpl.
  - apply bool_decide_eq_false_2. apply not_elem_of_empty.
  - rewrite <- IH. destruct (String.eqb (barcode e) k) eqn:E; simpl.
    + apply String.eqb_eq in E. apply bool_decide_eq_true_2.
      apply elem_of_union_l, elem_of_singleton. by symmetry.
    + apply String.eqb_neq in E. apply bool_decide_ext.
      rewrite elem_of_union, elem_of_singleton.
      split; [intros [Hk|Hk]; [congruence | exact Hk] | by right].
Qed.

(** The report of missing items lists exactly the records of
    [missingCount_spec]. *)
Lemma missingItems_length (kohaData : list Row) (items : list ScanEvent) :
  length (missingItems kohaData items) = missingCount_spec kohaData items.
Proof.
  unfold missingItems, missingCount_spec. f_equal.
  apply List.filter_ext. intros r. f_equal. f_equal.
  rewrite elem_of_barcodes. unfold rowKey.
  induction items as [|e items IH]; [reflexivity|]. simpl.
  destruct (duplicateWarned e); simpl; by rewrite IH.
Qed.

(** C8, at the summary. After the sample record is scanned at time 1 and
    again at time 2 and the first event is deleted, the ledger holds only
    the duplicate-warned event.  No event without the duplicate warning
    identifies the record, so the count of the specification is 1 and the
    report of missing items lists the record, but [summaryData] reports 0
    missing. *)
Theorem summary_counts_duplicate_as_scanned :
  scannedItems repeatOnly
  = [ {| barcode := "101200012345"; isValid := false;
         warnings := [WARNING_DEFINITIONS duplicate];
         data := Some sampleRow; timestamp := 2 |} ]
  /\ missingCount_spec [sampleRow] (scannedItems repeatOnly) = 1%nat
  /\ missingItems [sampleRow] (scannedItems repeatOnly) = [sampleRow]
  /\ notScannedCount <$> summaryData [sampleRow] (scannedItems repeatOnly)
     = Some 0%nat.
Proof. repeat split; vm_compute; reflexivity. Qed.

(** ** C3: the seen set and the ledger *)

Lemma startsWith_app (p x : string) : startsWith (p ++ x) p = true.
Proof.
  induction p as [|a p IH]; [apply startsWith_nil|].
  simpl. apply startsWith_cons. by split.
Qed.

(** What a classified scan does to the session. *)
Lemma classify_shape (c : Env) (rawBarcode : string) (now : Z) (st : Session) :
  let expectedPrefix := expectedPrefixOf (selectedLibrary c) in
  let n := normalize expectedPrefix rawBarcode in
  exists ev,
    scannedItems (classify c rawBarcode now st).2 = ev :: scannedItems st
    /\ timestamp ev = now
    /\ processedBarcodes (classify c rawBarcode now st).2
       = {[ normalizedBarcode n ]} ∪ processedBarcodes st
    /\ (barcode ev = normalizedBarcode n
        \/ (barcode ev = originalBarcode n
            /\ String.length (normalizedBarcode n) = 12%nat
            /\ startsWith (normalizedBarcode n) expectedPrefix = false)).
Proof.
  intros expectedPrefix n. unfold classify. fold expectedPrefix. fold n.
  destruct (bool_decide (normalizedBarcode n ∈ processedBarcodes st)) eqn:E.
  - apply bool_decide_eq_true_1 in E. eexists. simpl.
    split; [reflexivity|]. split; [reflexivity|]. split; [|by left].
    symmetry. by apply subseteq_union_1_L, singleton_subseteq_l.
  - destruct ((String.length (normalizedBarcode n) =? 12)%nat
              && negb (startsWith (normalizedBarcode n) expectedPrefix)) eqn:E2.
    + apply andb_true_iff in E2 as [E2 E3].
      apply Nat.eqb_eq in E2. apply negb_true_iff in E3.
      eexists. simpl. split; [reflexivity|]. split; [reflexivity|].
      split; [reflexivity|]. right. by repeat split.
    + eexists. simpl. split; [reflexivity|]. split; [reflexivity|].
      split; [reflexivity|]. by left.
Qed.

Lemma rejection_keeps_identifier (expectedPrefix rawBarcode : string) :
  let n := normalize expectedPrefix rawBarcode in
  ((13 <=? String.length (stripNonDigits rawBarcode))%nat
   && negb (startsWith (normalizedBarcode n) expectedPrefix)) = false ->
  startsWith (normalizedBarcode n) expectedPrefix = false ->
  originalBarcode n = normalizedBarcode n.
Proof.
  intros n Ht Hs. rewrite Hs in Ht. simpl negb in Ht.
  rewrite andb_true_r in Ht. subst n. unfold normalize in *.
  rewrite Ht in *.
  destruct (_ && _) eqn:E; simpl in *; [|reflexivity].
  rewrite startsWith_app in Hs. discriminate.
Qed.

Lemma NoDup_fmap_filter {A B : Type} (f : A -> B) (P : A -> bool) (l : list A) :
  NoDup (map f l) -> NoDup (map f (List.filter P l)).
Proof.
  induction l as [|x l IH]; simpl; [done|].
  intros [Hx Hl]%NoDup_cons. destruct (P x); simpl; [|by apply IH].
  apply NoDup_cons. split; [|by apply IH].
  intros Hin. apply Hx. apply list_elem_of_fmap in Hin as (y & -> & Hy).
  apply list_elem_of_fmap. exists y. split; [done|].
  apply list_elem_of_In. apply list_elem_of_In, filter_In in Hy. tauto.
Qed.

Lemma NoDup_fmap_eq {A B : Type} (f : A -> B) (l : list A) (x y : A) :
  NoDup (map f l) -> x ∈ l -> y ∈ l -> f x = f y -> x = y.
Proof.
  induction l as [|z l IH]; simpl; intros Hnd Hx Hy Hf.
  - by apply elem_of_nil in Hx.
  - apply NoDup_cons in Hnd as [Hz Hnd].
    apply elem_of_cons in Hx as [->|Hx]; apply elem_of_cons in Hy as [->|Hy].
    + reflexivity.
    + exfalso. apply Hz. rewrite Hf. apply list_elem_of_fmap. by exists y.
    + exfalso. apply Hz. rewrite <- Hf. apply list_elem_of_fmap. by exists x.
    + by apply IH.
Qed.

Lemma elem_of_filter_bool {A : Type} (P : A -> bool) (l : list A) (x : A) :
  x ∈ List.filter P l <-> x ∈ l /\ P x = true.
Proof. rewrite !list_elem_of_In. apply filter_In. Qed.

Lemma filter_single {A : Type} (P : A -> bool) (l : list A) (x y : A) :
  length (List.filter P l) = 1%nat ->
  x ∈ l -> P x = true -> y ∈ l -> P y = true -> x = y.
Proof.
  intros Hlen Hx HPx Hy HPy.
  assert (Hx' : x ∈ List.filter P l) by (by apply elem_of_filter_bool).
  assert (Hy' : y ∈ List.filter P l) by (by apply elem_of_filter_bool).
  destruct (List.filter P l) as [|z [|? ?]]; try discriminate Hlen.
  apply list_elem_of_singleton in Hx', Hy'. congruence.
Qed.

Lemma filter_other {A : Type} `{EqDecision A} (P : A -> bool) (l : list A) (x : A) :
  NoDup l ->
  length (List.filter P l) <> 1%nat ->
  x ∈ l -> P x = true ->
  exists y, y ∈ l /\ P y = true /\ y <> x.
Proof.
  intros Hnd Hlen Hx HPx.
  assert (Hx' : x ∈ List.filter P l) by (by apply elem_of_filter_bool).
  assert (Hnd' : NoDup (List.filter P l)).
  { rewrite <- (map_id (List.filter P l)). apply NoDup_fmap_filter.
    by rewrite map_id. }
  destruct (List.filter P l) as [|a [|b rest]] eqn:E.
  - by apply elem_of_nil in Hx'.
  - by destruct Hlen.
  - apply NoDup_cons in Hnd' as [Hab _].
    assert (Ha : a ∈ l /\ P a = true).
    { apply elem_of_filter_bool. rewrite E. apply elem_of_cons. by left. }
    assert (Hb : b ∈ l /\ P b = true).
    { apply elem_of_filter_bool. rewrite E. apply elem_of_cons. right.
      apply elem_of_cons. by left. }
    destruct (decide (a = x)) as [->|Hne].
    + exists b. split; [tauto|]. split; [tauto|].
      intros ->. apply Hab. apply elem_of_cons. by left.
    + exists a. tauto.
Qed.

Lemma scan_preserves (c : Env) (input : string) (now : Z) (st : Session) :
  admissible st (OpScan c input now) = true ->
  ledgerInvariant st ->
  ledgerInvariant (step st (OpScan c input now)).
Proof.
  simpl. intros [Hfresh Htrunc]%andb_true_iff [Hnd Hseen].
  apply negb_true_iff in Htrunc.
  unfold processBarcode.
  destruct (isEmpty (trim input) || isEmpty (selectedLibrary c)); [by split|].
  destruct (isIsbn (trim input)); [by split|].
  destruct (classify_shape c (trim input) now st) as (ev & Hitems & Hts & Hset & Hbar).
  assert (Hev : barcode ev
                = normalizedBarcode
                    (normalize (expectedPrefixOf (selectedLibrary c)) (trim input))).
  { destruct Hbar as [Hbar|(Hbar & _ & Hpre)]; [exact Hbar|].
    rewrite Hbar. apply rejection_keeps_identifier; [|exact Hpre].
    rewrite stripNonDigits_trim. exact Htrunc. }
  split.
  - rewrite Hitems. simpl. apply NoDup_cons. split; [|exact Hnd].
    intros Hin. apply list_elem_of_fmap in Hin as (e & He & Hin).
    rewrite forallb_forall in Hfresh.
    apply list_elem_of_In, Hfresh, negb_true_iff, Z.eqb_neq in Hin. congruence.
  - unfold seenMatchesLedger in *. rewrite Hset, Hitems, Hseen. simpl.
    by rewrite Hev.
Qed.

Lemma find_timestamp (ts : Z) (items : list ScanEvent) (e : ScanEvent) :
  find (fun item => timestamp item =? ts) items = Some e ->
  e ∈ items /\ timestamp e = ts.
Proof.
  intros [H1 H2]%find_some. apply Z.eqb_eq in H2.
  by rewrite list_elem_of_In.
Qed.

(** Deleting the only event of an identifier evicts the identifier and
    leaves no event of it behind. *)
Lemma delete_evicts (ts : Z) (st : Session) (e : ScanEvent) :
  find (fun item => timestamp item =? ts) (scannedItems st) = Some e ->
  length (List.filter (fun item => String.eqb (barcode item) (barcode e))
            (scannedItems st)) = 1%nat ->
  (barcode e ∉ processedBarcodes (handleDeleteItem ts st))
  /\ Forall (fun x => barcode x <> barcode e)
       (scannedItems (handleDeleteItem ts st)).
Proof.
  intros Hfind Hcount. unfold handleDeleteItem. rewrite Hfind, Hcount. simpl.
  apply find_timestamp in Hfind as [Hin Hts]. split.
  - apply not_elem_of_difference. right. by apply elem_of_singleton.
  - apply Forall_forall. intros x Hx Hb.
    apply elem_of_filter_bool in Hx as [Hx Hxt].
    apply negb_true_iff, Z.eqb_neq in Hxt.
    assert (x = e); [|congruence].
    apply (filter_single _ _ _ _ Hcount); try assumption.
    + by apply String.eqb_eq.
    + apply String.eqb_refl.
Qed.

Lemma delete_preserves (ts : Z) (st : Session) :
  ledgerInvariant st -> ledgerInvariant (handleDeleteItem ts st).
Proof.
  intros [Hnd Hseen]. unfold handleDeleteItem.
  destruct (find _ (scannedItems st)) as [e|] eqn:Hfind; [|by split].
  pose proof (find_timestamp _ _ _ Hfind) as [Hin Hts].
  split; simpl; [by apply NoDup_fmap_filter|].
  unfold seenMatchesLedger in *. simpl.
  assert (Hother : forall x, x ∈ scannedItems st -> timestamp x = ts -> x = e).
  { intros x Hx Hxt. apply (NoDup_fmap_eq timestamp (scannedItems st));
      [assumption..|congruence]. }
  destruct (length _ =? 1)%nat eqn:Hcount.
  - apply Nat.eqb_eq in Hcount. rewrite Hseen. apply set_eq. intros k.
    rewrite elem_of_difference, !elem_of_list_to_set, !list_elem_of_fmap,
      elem_of_singleton.
    split.
    + intros [(x & -> & Hx) Hne]. exists x. split; [done|].
      apply elem_of_filter_bool. split; [done|].
      apply negb_true_iff, Z.eqb_neq. intros Hxt.
      apply Hne. by rewrite (Hother x Hx Hxt).
    + intros (x & -> & [Hx Hxt]%elem_of_filter_bool).
      apply negb_true_iff, Z.eqb_neq in Hxt.
      split; [by exists x|]. intros Hb.
      assert (x = e); [|congruence].
      apply (filter_single _ _ _ _ Hcount); try assumption.
      * by apply String.eqb_eq.
      * apply String.eqb_refl.
  - apply Nat.eqb_neq in Hcount. rewrite Hseen. apply set_eq. intros k.
    rewrite !elem_of_list_to_set, !list_elem_of_fmap.
    split.
    + intros (x & -> & Hx).
      destruct (decide (timestamp x = ts)) as [Hxt|Hxt].
      * rewrite (Hother x Hx Hxt).
        destruct (filter_other
                    (fun item => String.eqb (barcode item) (barcode e))
                    (scannedItems st) e)
          as (y & Hy & Hyb & Hne);
          [by apply (NoDup_fmap_1 timestamp) | exact Hcount | exact Hin
          | apply String.eqb_refl |].
        apply String.eqb_eq in Hyb. exists y. split; [done|].
        apply elem_of_filter_bool. split; [done|].
        apply negb_true_iff, Z.eqb_neq. intros Hyt.
        apply Hne. by apply Hother.
      * exists x. split; [done|]. apply elem_of_filter_bool. split; [done|].
        by apply negb_true_iff, Z.eqb_neq.
    + intros (x & -> & [Hx _]%elem_of_filter_bool). by exists x.
Qed.

Lemma clear_preserves (st : Session) : ledgerInvariant (handleClearAllScans st).
Proof. split; [apply NoDup_nil_2 | reflexivity]. Qed.

Lemma run_preserves (ops : list Op) (st : Session) :
  admissibleRun ops st = true ->
  ledgerInvariant st ->
  ledgerInvariant (run ops st).
Proof.
  revert st. induction ops as [|op ops IH]; intros st Hadm Hinv; [exact Hinv|].
  simpl in Hadm. apply andb_true_iff in Hadm as [Hop Hrest].
  simpl. apply IH; [exact Hrest|].
  destruct op as [c input now|ts|].
  - by apply scan_preserves.
  - by apply delete_preserves.
  - apply clear_preserves.
Qed.

(** The state after [scanRepeatDelete] breaks the invariant of the
    specification: the only event left carries the duplicate warning, yet
    its identifier is still in the seen set. *)
Lemma seen_keeps_repeated_identifier :
  scannedItems (run scanRepeatDelete emptySession)
  = [ {| barcode := "101200012345"; isValid := false;
         warnings := [WARNING_DEFINITIONS duplicate];
         data := Some sampleRow; timestamp := 2 |} ]
  /\ processedBarcodes (run scanRepeatDelete emptySession)
     = {[ "101200012345" ]}
  /\ ~ seenMatchesNonDuplicates (run scanRepeatDelete emptySession).
Proof.
  split; [vm_compute; reflexivity|].
  assert (Hseen : processedBarcodes (run scanRepeatDelete emptySession)
                  = {[ "101200012345" ]}).
  { apply (bool_decide_unpack _). vm_compute. exact I. }
  split; [exact Hseen|].
  unfold seenMatchesNonDuplicates. rewrite Hseen.
  replace (scannedItems (run scanRepeatDelete emptySession))
    with [ {| barcode := "101200012345"; isValid := false;
              warnings := [WARNING_DEFINITIONS duplicate];
              data := Some sampleRow; timestamp := 2 |} ]
    by (vm_compute; reflexivity).
  simpl. intros H.
  assert (Hin : "101200012345" ∈ (∅ : gset string)).
  { rewrite <- H. by apply elem_of_singleton. }
  by apply not_elem_of_empty in Hin.
Qed.

(** Without the two conditions on the scans the seen set and the ledger
    drift apart.  A rejected input of 14 digits stores all 14 digits in
    its event but the first 12 in the seen set. *)
Lemma truncated_rejection_splits_identifier :
  map barcode
    (scannedItems (run [OpScan sampleEnv "99990001234567" 1] emptySession))
  = ["99990001234567"]
  /\ processedBarcodes (run [OpScan sampleEnv "99990001234567" 1] emptySession)
     = {[ "999900012345" ]}.
Proof.
  split; [vm_compute; reflexivity|].
  apply (bool_decide_unpack _). vm_compute. exact I.
Qed.

(** Two events with one time stamp are deleted together, but only the
    identifier of the newer one is evicted. *)
Lemma shared_timestamp_leaves_identifier :
  scannedItems
    (run [OpScan sampleEnv "101200012345" 1; OpScan sampleEnv "101200000777" 1;
          OpDelete 1] emptySession) = []
  /\ processedBarcodes
       (run [OpScan sampleEnv "101200012345" 1;
             OpScan sampleEnv "101200000777" 1; OpDelete 1] emptySession)
     = {[ "101200012345" ]}.
Proof.
  split; [vm_compute; reflexivity|].
  apply (bool_decide_unpack _). vm_compute. exact I.
Qed.

(** C3, as the code has it. After any sequence of scans, deletions of
    single events and clearings from the empty session, in which every
    scan got a clock reading of its own and no input of 13 digits or more
    was structurally rejected, the seen set is the set of the identifiers
    of all events of the ledger, the duplicate-warned ones included.
    When the event that is deleted is the only event of the ledger with
    its identifier, the identifier leaves the seen set and no event of it
    remains. *)
Theorem seen_matches_ledger (ops : list Op) :
  admissibleRun ops emptySession = true ->
  let st := run ops emptySession in
  processedBarcodes st = list_to_set (map barcode (scannedItems st))
  /\ (forall ts e,
        find (fun item => timestamp item =? ts) (scannedItems st) = Some e ->
        length (List.filter
                  (fun item => String.eqb (barcode item) (barcode e))
                  (scannedItems st)) = 1%nat ->
        (barcode e ∉ processedBarcodes (handleDeleteItem ts st))
        /\ Forall (fun x => barcode x <> barcode e)
             (scannedItems (handleDeleteItem ts st))).
Proof.
  intros Hadm st. split.
  - apply (run_preserves ops emptySession Hadm).
    split; [apply NoDup_nil_2 | reflexivity].
  - intros ts e. apply delete_evicts.
Qed.

Lemma seen_matches_ledger_witness :
  admissibleRun scanRepeatDelete emptySession = true
  /\ processedBarcodes (run scanRepeatDelete emptySession)
     = list_to_set (map barcode (scannedItems (run scanRepeatDelete emptySession))).
Proof.
  assert (H : admissibleRun scanRepeatDelete emptySession = true)
    by (vm_compute; reflexivity).
  split; [exact H|].
  exact (proj1 (seen_matches_ledger scanRepeatDelete H)).
Defined.

(** * Further properties of the code *)

(** ** The check digit of [isIsbn] *)

Lemma isDigit_bounds (c : ascii) : isDigit c = true -> 0 <= digitVal c <= 9.
Proof.
  unfold isDigit, digitVal. intros [H1 H2]%andb_true_iff.
  apply Nat.leb_le in H1, H2. lia.
Qed.

Lemma stripNonDigits_all_digits (s : string) :
  Forall (fun c => 0 <= digitVal c <= 9)
    (list_ascii_of_string (stripNonDigits s)).
Proof.
  induction s as [|c s IH]; simpl; [constructor|].
  destruct (isDigit c) eqn:E; [|exact IH].
  simpl. constructor; [by apply isDigit_bounds | exact IH].
Qed.

(** [isIsbn] on a string whose digits are spelled out. *)
Lemma isIsbn_chars (s : string) (c0 c1 c2 c3 c4 c5 c6 c7 c8 c9 c10 c11 c12 : ascii) :
  stripNonDigits s
  = String c0 (String c1 (String c2 (String c3 (String c4 (String c5
      (String c6 (String c7 (String c8 (String c9 (String c10 (String c11
        (String c12 "")))))))))))) ->
  isIsbn s = true <->
  digitVal c0 = 9 /\ digitVal c1 = 7 /\ (digitVal c2 = 8 \/ digitVal c2 = 9)
  /\ (10 - (digitVal c0 + 3 * digitVal c1 + digitVal c2 + 3 * digitVal c3
            + digitVal c4 + 3 * digitVal c5 + digitVal c6 + 3 * digitVal c7
            + digitVal c8 + 3 * digitVal c9 + digitVal c10 + 3 * digitVal c11)
            mod 10) mod 10
     = digitVal c12.
Proof.
  intros Hcode. unfold isIsbn. rewrite Hcode.
  change (String.length _ =? 13)%nat with true. cbv iota. simpl negb at 1.
  cbv iota.
  assert (H9 : forall c, digitVal c = 9 <-> c = "9"%char).
  { intros c. split; [intros H; by apply digitVal_inj | by intros ->]. }
  assert (H7 : forall c, digitVal c = 7 <-> c = "7"%char).
  { intros c. split; [intros H; by apply digitVal_inj | by intros ->]. }
  assert (H8 : forall c, digitVal c = 8 <-> c = "8"%char).
  { intros c. split; [intros H; by apply digitVal_inj | by intros ->]. }
  rewrite H9, H7, H8, H9.
  unfold isbnSum, isbnStep, digitAt. simpl fold_left. simpl String.get.
  set (lhs := (10 - _ mod 10) mod 10). set (rhs := (10 - _ mod 10) mod 10).
  assert (lhs = rhs) as -> by (subst lhs rhs; do 2 f_equal; f_equal; lia).
  clearbody rhs.
  destruct (startsWith _ "978") eqn:Ha; destruct (startsWith _ "979") eqn:Hb;
    simpl; rewrite ?Z.eqb_eq.
  all: try (apply startsWith_cons in Ha as (<- & Ha);
            apply startsWith_cons in Ha as (<- & Ha);
            apply startsWith_cons in Ha as (<- & _)).
  all: try (apply startsWith_cons in Hb as (<- & Hb);
            apply startsWith_cons in Hb as (<- & Hb);
            apply startsWith_cons in Hb as (<- & _)).
  1-3: split; [intros <-; repeat split; auto | intros (_ & _ & _ & H); exact H].
  split; [discriminate|]. intros (-> & -> & [->| ->] & _).
  - rewrite !(proj2 (startsWith_cons _ _ _ _)) in Ha; [discriminate|..];
      repeat split; apply startsWith_nil.
  - rewrite !(proj2 (startsWith_cons _ _ _ _)) in Hb; [discriminate|..];
      repeat split; apply startsWith_nil.
Qed.

Lemma list_ascii_of_string_app (a b : string) :
  list_ascii_of_string (a ++ b)
  = (list_ascii_of_string a ++ list_ascii_of_string b)%list.
Proof. induction a as [|c a IH]; simpl; [reflexivity | by rewrite IH]. Qed.

Lemma check_digit_congruent (a b x k : Z) :
  (10 - a mod 10) mod 10 = x ->
  (10 - b mod 10) mod 10 = x ->
  a - b = k ->
  k mod 10 = 0.
Proof. intros H1 H2 <-. Z.div_mod_to_equations. lia. Qed.

Lemma digit_shift_detected (d d' : Z) :
  0 <= d <= 9 -> 0 <= d' <= 9 -> d <> d' ->
  (d - d') mod 10 <> 0 /\ (3 * (d - d')) mod 10 <> 0.
Proof. intros H1 H2 H3. Z.div_mod_to_equations. lia. Qed.

(** X1. [isIsbn] rejects every string that differs from an accepted one in
    exactly one digit: the weights 1 and 3 are coprime to 10. *)
Theorem isIsbn_single_digit_error (s s' a b : string) (c c' : ascii) :
  isIsbn s = true ->
  stripNonDigits s = a ++ String c b ->
  stripNonDigits s' = a ++ String c' b ->
  c <> c' ->
  isIsbn s' = false.
Proof.
  intros Hisbn Hs Hs' Hne.
  pose proof (isIsbn_length s Hisbn) as Hlen.
  rewrite Hs, length_append in Hlen. simpl in Hlen.
  pose proof (stripNonDigits_all_digits s) as Hb. rewrite Hs in Hb.
  pose proof (stripNonDigits_all_digits s') as Hb'. rewrite Hs' in Hb'.
  assert (Hd : digitVal c <> digitVal c')
    by (intros Heq; apply Hne; by apply digitVal_inj).
  assert (Hc : 0 <= digitVal c <= 9).
  { rewrite list_ascii_of_string_app in Hb.
    apply Forall_app in Hb as [_ Hb]. simpl in Hb.
    by apply Forall_cons in Hb as [Hb _]. }
  assert (Hc' : 0 <= digitVal c' <= 9).
  { rewrite list_ascii_of_string_app in Hb'.
    apply Forall_app in Hb' as [_ Hb']. simpl in Hb'.
    by apply Forall_cons in Hb' as [Hb' _]. }
  destruct (digit_shift_detected _ _ Hc Hc' Hd) as [K1 K3].
  destruct (isIsbn s') eqn:E; [exfalso|reflexivity].
  destruct a as [|a0 [|a1 [|a2 [|a3 [|a4 [|a5 [|a6 [|a7 [|a8 [|a9 [|a10
    [|a11 [|a12 a]]]]]]]]]]]]];
    simpl in Hlen; try lia;
    repeat (destruct b as [|? b]; simpl in Hlen; try lia);
    simpl in Hs, Hs';
    (eapply isIsbn_chars in Hisbn; [|exact Hs]);
    (eapply isIsbn_chars in E; [|exact Hs']);
    destruct Hisbn as (_ & _ & _ & H1); destruct E as (_ & _ & _ & H2);
    first
      [ congruence
      | apply K1; eapply check_digit_congruent; [exact H1 | exact H2 | ring]
      | apply K3; eapply check_digit_congruent; [exact H1 | exact H2 | ring] ].
Qed.

Lemma isIsbn_single_digit_error_witness :
  isIsbn "9780134190440" = true
  /\ "9" <> "8"
  /\ isIsbn "978-0134180440" = false.
Proof.
  assert (H1 : isIsbn "9780134190440" = true) by reflexivity.
  assert (H2 : ("9" : ascii) <> "8"%char) by discriminate.
  split; [exact H1|]. split; [discriminate|].
  exact (isIsbn_single_digit_error "9780134190440" "978-0134180440"
           "97801341" "0440" "9" "8" H1 eq_refl eq_refl H2).
Defined.

(** ** Normalization *)

Lemma slice0_length (n : nat) (s : string) :
  String.length (slice0 n s) = Nat.min n (String.length s).
Proof.
  unfold slice0. revert n. induction s as [|c s IH]; intros [|n]; simpl; auto.
Qed.

Lemma slice0_all (n : nat) (s : string) :
  (String.length s <= n)%nat -> slice0 n s = s.
Proof.
  unfold slice0. revert n. induction s as [|c s IH]; intros [|n]; simpl;
    try reflexivity; try lia.
  intros H. f_equal. apply IH. lia.
Qed.

Lemma startsWith_slice0 (n : nat) (s : string) : startsWith s (slice0 n s) = true.
Proof.
  unfold slice0. revert n. induction s as [|c s IH]; intros [|n];
    try reflexivity.
  change (substring 0 (S n) (String c s)) with (String c (substring 0 n s)).
  apply startsWith_cons. split; [reflexivity | apply IH].
Qed.

Lemma length_stripNonDigits (s : string) :
  (String.length (stripNonDigits s) <= String.length s)%nat.
Proof.
  induction s as [|c s IH]; simpl; [lia|]. destruct (isDigit c); simpl; lia.
Qed.

Lemma stripNonDigits_fixed_slice (n : nat) (t : string) :
  stripNonDigits t = t -> stripNonDigits (slice0 n t) = slice0 n t.
Proof.
  unfold slice0. revert n. induction t as [|c t IH]; intros [|n] Ht; simpl;
    try reflexivity.
  simpl in Ht. destruct (isDigit c) eqn:E.
  - injection Ht as Ht. by rewrite IH.
  - exfalso. pose proof (length_stripNonDigits t) as Hl.
    rewrite Ht in Hl. simpl in Hl. lia.
Qed.

Lemma stripNonDigits_idem (s : string) :
  stripNonDigits (stripNonDigits s) = stripNonDigits s.
Proof.
  induction s as [|c s IH]; simpl; [reflexivity|].
  destruct (isDigit c) eqn:E; simpl; [|exact IH]. by rewrite E, IH.
Qed.

Lemma normalize_long (expectedPrefix rawBarcode : string) :
  (12 <= String.length (stripNonDigits rawBarcode))%nat ->
  normalize expectedPrefix rawBarcode
  = {| originalBarcode := stripNonDigits rawBarcode;
       normalizedBarcode := slice0 12 (stripNonDigits rawBarcode);
       wasAutoCompleted := false |}.
Proof.
  intros Hlen. unfold normalize.
  destruct (13 <=? String.length (stripNonDigits rawBarcode))%nat eqn:E.
  - rewrite slice0_length.
    replace (Nat.min 12 (String.length (stripNonDigits rawBarcode)))
      with 12%nat by lia.
    reflexivity.
  - apply Nat.leb_gt in E.
    assert (String.length (stripNonDigits rawBarcode) = 12%nat) as Heq by lia.
    rewrite Heq. simpl. rewrite slice0_all by lia. reflexivity.
Qed.

(** X2. An input with 12 digits or more is cut to its first 12 digits and
    never auto-completed; 12 digits are kept as they are, and the result
    normalizes to itself. *)
Theorem normalize_keeps_first_twelve (expectedPrefix rawBarcode : string) :
  (12 <= String.length (stripNonDigits rawBarcode))%nat ->
  let n := normalize expectedPrefix rawBarcode in
  normalizedBarcode n = slice0 12 (stripNonDigits rawBarcode)
  /\ String.length (normalizedBarcode n) = 12%nat
  /\ startsWith (stripNonDigits rawBarcode) (normalizedBarcode n) = true
  /\ wasAutoCompleted n = false
  /\ (String.length (stripNonDigits rawBarcode) = 12%nat ->
      normalizedBarcode n = stripNonDigits rawBarcode)
  /\ normalize expectedPrefix (normalizedBarcode n)
     = {| originalBarcode := normalizedBarcode n;
          normalizedBarcode := normalizedBarcode n;
          wasAutoCompleted := false |}.
Proof.
  intros Hlen n.
  assert (Hn : n = {| originalBarcode := stripNonDigits rawBarcode;
                      normalizedBarcode := slice0 12 (stripNonDigits rawBarcode);
                      wasAutoCompleted := false |}).
  { subst n. by apply normalize_long. }
  rewrite Hn. simpl.
  assert (Hl : String.length (slice0 12 (stripNonDigits rawBarcode)) = 12%nat)
    by (rewrite slice0_length; lia).
  split; [reflexivity|]. split; [exact Hl|].
  split; [apply startsWith_slice0|]. split; [reflexivity|].
  split; [intros Heq; apply slice0_all; lia|].
  unfold normalize.
  rewrite (stripNonDigits_fixed_slice 12 _ (stripNonDigits_idem rawBarcode)).
  rewrite Hl. change (13 <=? 12)%nat with false. cbv iota. rewrite Hl.
  reflexivity.
Qed.

Lemma normalize_keeps_first_twelve_witness :
  (12 <= String.length (stripNonDigits "1012-0001-2345-67"))%nat
  /\ normalizedBarcode (normalize "1012" "1012-0001-2345-67") = "101200012345".
Proof.
  assert (H : (12 <= String.length (stripNonDigits "1012-0001-2345-67"))%nat)
    by (simpl; lia).
  split; [exact H|].
  exact (proj1 (normalize_keeps_first_twelve "1012" "1012-0001-2345-67" H)).
Defined.

(** ** The branches of the classifier *)

(** The three ways through lines 1410-1478. *)
Lemma classify_cases (c : Env) (rawBarcode : string) (now : Z) (st : Session) :
  let expectedPrefix := expectedPrefixOf (selectedLibrary c) in
  let n := normalize expectedPrefix rawBarcode in
  let nb := normalizedBarcode n in
  (nb ∈ processedBarcodes st
   /\ classify c rawBarcode now st
      = (OutcomeError [WARNING_DEFINITIONS duplicate],
         record {| barcode := nb; isValid := false;
                   warnings := [WARNING_DEFINITIONS duplicate];
                   data := existingItemData (renderedItems c) (kohaDataMap c) nb;
                   timestamp := now |} st))
  \/ ((nb ∉ processedBarcodes st)
      /\ String.length nb = 12%nat /\ startsWith nb expectedPrefix = false
      /\ classify c rawBarcode now st
         = (OutcomeError [structuralWarning nb (combinedLibraries c)],
            record {| barcode := originalBarcode n; isValid := false;
                      warnings := [structuralWarning nb (combinedLibraries c)];
                      data := kohaDataMap c !! nb; timestamp := now |}
              (markProcessed nb st)))
  \/ ((nb ∉ processedBarcodes st)
      /\ (String.length nb <> 12%nat \/ startsWith nb expectedPrefix = true)
      /\ let ws := lookupWarnings (selectedLocation c) (wasAutoCompleted n)
                     (kohaDataMap c !! nb) in
         classify c rawBarcode now st
         = (if (0 <? length ws)%nat then OutcomeError ws else OutcomeSuccess,
            record {| barcode := nb; isValid := (length ws =? 0)%nat;
                      warnings := ws; data := kohaDataMap c !! nb;
                      timestamp := now |}
              (markProcessed nb st))).
Proof.
  intros expectedPrefix n nb. unfold classify. fold expectedPrefix. fold n. fold nb.
  destruct (bool_decide (nb ∈ processedBarcodes st)) eqn:E.
  - apply bool_decide_eq_true_1 in E. left. by split.
  - apply bool_decide_eq_false_1 in E. right.
    destruct (String.length nb =? 12)%nat eqn:E2;
      destruct (startsWith nb expectedPrefix) eqn:E3; simpl.
    + right. split; [done|]. split; [by right|]. reflexivity.
    + left. apply Nat.eqb_eq in E2. by repeat split.
    + right. apply Nat.eqb_neq in E2. split; [done|]. split; [by left|].
      reflexivity.
    + right. apply Nat.eqb_neq in E2. split; [done|]. split; [by left|].
      reflexivity.
Qed.

Lemma fieldWarnings_sublist (selectedLocation : string) (itemData : Row) :
  fieldWarnings selectedLocation itemData `sublist_of` fieldWarningOrder.
Proof.
  unfold fieldWarnings, fieldWarningOrder.
  destruct (negb (isEmpty selectedLocation) && _);
    destruct (negb (_ || _));
    destruct (negb (String.eqb (jsString (materyal_statusu_kodu itemData)) "0"));
    destruct (String.eqb (jsString (odunc_durumu itemData)) "1"); simpl;
    repeat first [apply sublist_nil | apply sublist_skip | apply sublist_cons].
Qed.

Lemma fieldWarnings_nil_iff (selectedLocation : string) (itemData : Row) :
  fieldWarnings selectedLocation itemData = [] <->
  (selectedLocation = "" \/ locationOf itemData = selectedLocation)
  /\ (jsString (odunc_verilebilirlik_kodu itemData) = "0"
      \/ jsString (odunc_verilebilirlik_kodu itemData) = "2")
  /\ jsString (materyal_statusu_kodu itemData) = "0"
  /\ jsString (odunc_durumu itemData) <> "1".
Proof.
  unfold fieldWarnings. fold (locationOf itemData).
  rewrite <- (isEmpty_true selectedLocation).
  rewrite <- String.eqb_neq, <- !String.eqb_eq.
  destruct (isEmpty selectedLocation);
    destruct (String.eqb (locationOf itemData) selectedLocation);
    destruct (String.eqb (jsString (odunc_verilebilirlik_kodu itemData)) "0");
    destruct (String.eqb (jsString (odunc_verilebilirlik_kodu itemData)) "2");
    destruct (String.eqb (jsString (materyal_statusu_kodu itemData)) "0");
    destruct (String.eqb (jsString (odunc_durumu itemData)) "1");
    simpl; split; try discriminate; try tauto; intuition discriminate.
Qed.

(** What a scan that reaches the classifier does. *)
Lemma processBarcode_reached (c : Env) (input : string) (now : Z) (st : Session) :
  reachesClassifier c input = true ->
  exists ev,
    processBarcode c input now st
    = (outcomeOf ev,
       {| scannedItems := ev :: scannedItems st;
          processedBarcodes := {[ normalizedOf c input ]} ∪ processedBarcodes st;
          lastScanned := Some ev |})
    /\ timestamp ev = now
    /\ (isValid ev = true <-> warnings ev = [])
    /\ warningShape c (normalizedOf c input) (warnings ev)
    /\ (barcode ev = normalizedOf c input
        \/ barcode ev = stripNonDigits input
           /\ String.length (normalizedOf c input) = 12%nat
           /\ startsWith (normalizedOf c input)
                (expectedPrefixOf (selectedLibrary c)) = false
           /\ warnings ev
              = [structuralWarning (normalizedOf c input)
                   (combinedLibraries c)]).
Proof.
  intros Hreach. rewrite (processBarcode_classify _ _ _ _ Hreach).
  assert (Horig : originalBarcode
                    (normalize (expectedPrefixOf (selectedLibrary c)) (trim input))
                  = stripNonDigits input).
  { unfold normalize. rewrite stripNonDigits_trim. by destruct (_ && _). }
  destruct (classify_cases c (trim input) now st)
    as [[Hin ->]|[(Hnotin & Hlen & Hpre & ->)|(Hnotin & _ & Heq)]].
  - assert (Hs : {[ normalizedOf c input ]} ∪ processedBarcodes st
                 = processedBarcodes st)
      by (by apply subseteq_union_1_L, singleton_subseteq_l).
    rewrite Hs.
    exists {| barcode := normalizedOf c input; isValid := false;
              warnings := [WARNING_DEFINITIONS duplicate];
              data := existingItemData (renderedItems c) (kohaDataMap c)
                        (normalizedOf c input);
              timestamp := now |}.
    split; [reflexivity|].
    split; [reflexivity|]. split; [simpl; split; discriminate|].
    split; [by left|]. by left.
  - exists {| barcode := originalBarcode
                           (normalize (expectedPrefixOf (selectedLibrary c))
                              (trim input));
              isValid := false;
              warnings := [structuralWarning (normalizedOf c input)
                             (combinedLibraries c)];
              data := kohaDataMap c !! normalizedOf c input;
              timestamp := now |}.
    split; [reflexivity|].
    split; [reflexivity|]. split; [simpl; split; discriminate|].
    split; [right; by left|]. right. simpl. by rewrite Horig.
  - simpl in Heq. rewrite Heq.
    exists {| barcode := normalizedOf c input;
              isValid := (length (lookupWarnings (selectedLocation c)
                                    (wasAutoCompleted
                                       (normalize
                                          (expectedPrefixOf (selectedLibrary c))
                                          (trim input)))
                                    (kohaDataMap c !! normalizedOf c input))
                          =? 0)%nat;
              warnings := lookupWarnings (selectedLocation c)
                            (wasAutoCompleted
                               (normalize
                                  (expectedPrefixOf (selectedLibrary c))
                                  (trim input)))
                            (kohaDataMap c !! normalizedOf c input);
              data := kohaDataMap c !! normalizedOf c input;
              timestamp := now |}.
    unfold outcomeOf, record, markProcessed, normalizedOf. simpl.
    split; [by destruct (lookupWarnings _ _ _)|].
    split; [reflexivity|]. split; [by destruct (lookupWarnings _ _ _)|].
    split; [|by left].
    unfold lookupWarnings.
    destruct (kohaDataMap c !! _) as [itemData|].
    + do 4 right. apply fieldWarnings_sublist.
    + destruct (wasAutoCompleted _); [right; right; by left|].
      right; right; right; by left.
Qed.

(** What a scan that does not reach the classifier does. *)
Lemma processBarcode_unreached (c : Env) (input : string) (now : Z) (st : Session) :
  reachesClassifier c input = false ->
  (processBarcode c input now st).2 = st
  /\ ((processBarcode c input now st).1 = OutcomeIgnored
      /\ (isEmpty (trim input) = true \/ isEmpty (selectedLibrary c) = true)
      \/ (processBarcode c input now st).1 = OutcomeIsbn
         /\ isIsbn (trim input) = true).
Proof.
  intros Hreach. unfold reachesClassifier in Hreach. unfold processBarcode.
  destruct (isEmpty (trim input)) eqn:H1; simpl; [split; [done|left; auto]|].
  destruct (isEmpty (selectedLibrary c)) eqn:H2; simpl;
    [split; [done|left; auto]|].
  simpl in Hreach. apply negb_false_iff in Hreach. rewrite Hreach.
  split; [done|right; auto].
Qed.

(** X3. Every call of [processBarcode] does exactly one of three things: it
    ignores the input, reports an ISBN, or prepends one event; only the
    last changes the session.  The event carries the clock reading,
    becomes [lastScanned], is valid exactly when it has no warning, and
    the returned outcome is success for a valid event and the list of
    its warnings otherwise. *)
Theorem processBarcode_one_outcome (c : Env) (input : string) (now : Z)
    (st : Session) :
  (reachesClassifier c input = false
   /\ (processBarcode c input now st).2 = st
   /\ ((processBarcode c input now st).1 = OutcomeIgnored
       /\ (isEmpty (trim input) = true \/ isEmpty (selectedLibrary c) = true)
       \/ (processBarcode c input now st).1 = OutcomeIsbn
          /\ isIsbn (trim input) = true))
  \/ (reachesClassifier c input = true
      /\ exists ev,
           scannedItems (processBarcode c input now st).2
           = ev :: scannedItems st
           /\ lastScanned (processBarcode c input now st).2 = Some ev
           /\ processedBarcodes (processBarcode c input now st).2
              = {[ normalizedOf c input ]} ∪ processedBarcodes st
           /\ timestamp ev = now
           /\ (isValid ev = true <-> warnings ev = [])
           /\ (processBarcode c input now st).1
              = (if isValid ev then OutcomeSuccess
                 else OutcomeError (warnings ev))).
Proof.
  destruct (reachesClassifier c input) eqn:Hreach.
  - right. split; [reflexivity|].
    destruct (processBarcode_reached c input now st Hreach)
      as (ev & -> & Hts & Hvalid & _ & _).
    exists ev. simpl. by repeat split; try apply Hvalid.
  - left. split; [reflexivity|]. by apply processBarcode_unreached.
Qed.

(** X4. The warnings of a logged event are the single warning [duplicate], a
    single structural warning, a single not-found warning, or field
    warnings in the order location, loan eligibility, status, on loan,
    each at most once. *)
Theorem logged_warnings_shape (c : Env) (input : string) (now : Z) (st : Session)
    (ev : ScanEvent) :
  scannedItems (processBarcode c input now st).2 = ev :: scannedItems st ->
  (warnings ev = [WARNING_DEFINITIONS duplicate]
   \/ warnings ev
      = [structuralWarning (normalizedOf c input) (combinedLibraries c)]
   \/ warnings ev = [WARNING_DEFINITIONS autoCompletedNotFound]
   \/ warnings ev = [WARNING_DEFINITIONS deleted]
   \/ warnings ev `sublist_of` fieldWarningOrder)
  /\ (length (warnings ev) <= 4)%nat
  /\ NoDup (warnings ev).
Proof.
  intros Hev.
  assert (Hreach : reachesClassifier c input = true).
  { destruct (reachesClassifier c input) eqn:Hreach; [reflexivity|].
    destruct (processBarcode_unreached c input now st Hreach) as [Hst _].
    rewrite Hst in Hev. exfalso.
    apply (f_equal length) in Hev. simpl in Hev. lia. }
  destruct (processBarcode_reached c input now st Hreach)
    as (ev' & Heq & _ & _ & Hshape & _).
  rewrite Heq in Hev. simpl in Hev. injection Hev as ->.
  split; [exact Hshape|].
  destruct Hshape as [->|[->|[->|[->|Hsub]]]];
    try (split; [simpl; lia | apply NoDup_singleton]).
  split.
  - apply sublist_length in Hsub. exact Hsub.
  - eapply sublist_NoDup; [|exact Hsub].
    unfold fieldWarningOrder. apply (bool_decide_unpack _). vm_compute. exact I.
Qed.

Lemma logged_warnings_shape_witness :
  scannedItems (processBarcode sampleEnv "101200012345" 1 emptySession).2
  = {| barcode := "101200012345"; isValid := true; warnings := [];
       data := Some sampleRow; timestamp := 1 |} :: scannedItems emptySession
  /\ (length ([] : list Warning) <= 4)%nat.
Proof.
  assert (H : scannedItems (processBarcode sampleEnv "101200012345" 1 emptySession).2
              = {| barcode := "101200012345"; isValid := true; warnings := [];
                   data := Some sampleRow; timestamp := 1 |}
                :: scannedItems emptySession) by (vm_compute; reflexivity).
  split; [exact H|].
  exact (proj1 (proj2 (logged_warnings_shape _ _ _ _ _ H))).
Defined.

Lemma digits_reach (c : Env) (input : string) :
  isEmpty (selectedLibrary c) = false ->
  (0 < String.length (stripNonDigits input))%nat ->
  String.length (stripNonDigits input) <> 13%nat ->
  reachesClassifier c input = true.
Proof.
  intros H2 Hpos H13. apply reachesClassifier_spec. repeat split.
  - apply isEmpty_false. intros Ht.
    pose proof (stripNonDigits_trim input) as Hs. rewrite Ht in Hs.
    simpl in Hs. rewrite <- Hs in Hpos. simpl in Hpos. lia.
  - exact H2.
  - unfold isIsbn. rewrite stripNonDigits_trim.
    destruct (String.length (stripNonDigits input) =? 13)%nat eqn:E;
      [|reflexivity].
    apply Nat.eqb_eq in E. contradiction.
Qed.

Lemma normalize_short (expectedPrefix rawBarcode : string) :
  (0 < String.length (stripNonDigits rawBarcode) < 12)%nat ->
  normalize expectedPrefix rawBarcode
  = {| originalBarcode := stripNonDigits rawBarcode;
       normalizedBarcode :=
         expectedPrefix
         ++ padStart (12 - String.length expectedPrefix)
              (stripNonDigits rawBarcode);
       wasAutoCompleted := true |}.
Proof.
  intros [Hlo Hhi]. unfold normalize.
  destruct (13 <=? String.length (stripNonDigits rawBarcode))%nat eqn:E.
  { apply Nat.leb_le in E. lia. }
  assert ((String.length (stripNonDigits rawBarcode) <? 12)%nat = true) as ->
    by (apply Nat.ltb_lt; lia).
  assert ((0 <? String.length (stripNonDigits rawBarcode))%nat = true) as ->
    by (apply Nat.ltb_lt; lia).
  reflexivity.
Qed.

(** ** Auto-completed scans *)

(** X5. An auto-completed identifier starts with the prefix of the selected
    library and is 12 characters long when prefix and digits fit into 12
    characters, longer otherwise.  The scan is therefore never rejected
    structurally: it is logged as a duplicate, with the field warnings of
    its catalog record, or with the single warning
    [autoCompletedNotFound]. *)
Theorem autocompleted_scan_outcomes (c : Env) (input : string) (now : Z)
    (st : Session) :
  isEmpty (selectedLibrary c) = false ->
  (0 < String.length (stripNonDigits input) < 12)%nat ->
  let expectedPrefix := expectedPrefixOf (selectedLibrary c) in
  let n := expectedPrefix
           ++ padStart (12 - String.length expectedPrefix)
                (stripNonDigits input) in
  normalizedOf c input = n
  /\ startsWith n expectedPrefix = true
  /\ String.length n
     = Nat.max 12 (String.length expectedPrefix
                   + String.length (stripNonDigits input))
  /\ exists ev,
       scannedItems (processBarcode c input now st).2 = ev :: scannedItems st
       /\ barcode ev = n
       /\ (n ∈ processedBarcodes st
           /\ warnings ev = [WARNING_DEFINITIONS duplicate]
           \/ (n ∉ processedBarcodes st)
              /\ (exists itemData,
                    kohaDataMap c !! n = Some itemData
                    /\ data ev = Some itemData
                    /\ warnings ev = fieldWarnings (selectedLocation c) itemData)
           \/ (n ∉ processedBarcodes st)
              /\ kohaDataMap c !! n = None
              /\ warnings ev = [WARNING_DEFINITIONS autoCompletedNotFound]).
Proof.
  intros H2 Hlen expectedPrefix n.
  assert (Hreach : reachesClassifier c input = true)
    by (apply digits_reach; [exact H2 | lia | lia]).
  assert (Hnorm : normalize expectedPrefix (trim input)
                  = {| originalBarcode := stripNonDigits input;
                       normalizedBarcode := n; wasAutoCompleted := true |}).
  { rewrite normalize_short by (by rewrite stripNonDigits_trim).
    by rewrite stripNonDigits_trim. }
  assert (Hn : normalizedOf c input = n).
  { unfold normalizedOf. fold expectedPrefix. by rewrite Hnorm. }
  assert (Hpre : startsWith n expectedPrefix = true) by apply startsWith_app.
  split; [exact Hn|]. split; [exact Hpre|]. split.
  { subst n. rewrite length_append, length_padStart. lia. }
  rewrite (processBarcode_classify _ _ _ _ Hreach).
  destruct (classify_cases c (trim input) now st)
    as [[Hin ->]|[(Hnotin & _ & Hrej & _)|(Hnotin & _ & Heq)]].
  - fold expectedPrefix in Hin |- *. rewrite Hnorm in Hin |- *. simpl in *.
    eexists. split; [reflexivity|]. split; [reflexivity|]. left. by split.
  - fold expectedPrefix in Hrej. rewrite Hnorm in Hrej. simpl in Hrej.
    congruence.
  - simpl in Heq. rewrite Heq. clear Heq.
    fold expectedPrefix in Hnotin |- *. rewrite Hnorm in Hnotin |- *.
    simpl in *. eexists. split; [reflexivity|]. split; [reflexivity|].
    right. simpl. destruct (kohaDataMap c !! n) as [itemData|] eqn:E.
    + left. split; [done|]. by exists itemData.
    + right. by repeat split.
Qed.

Lemma autocompleted_scan_outcomes_witness :
  isEmpty (selectedLibrary sampleEnv) = false
  /\ (0 < String.length (stripNonDigits "55") < 12)%nat
  /\ normalizedOf sampleEnv "55" = "101200000055".
Proof.
  assert (H1 : isEmpty (selectedLibrary sampleEnv) = false) by reflexivity.
  assert (H2 : (0 < String.length (stripNonDigits "55") < 12)%nat)
    by (simpl; lia).
  split; [exact H1|]. split; [exact H2|].
  exact (proj1 (autocompleted_scan_outcomes sampleEnv "55" 1 emptySession H1 H2)).
Defined.

(** ** The clean scan *)

(** X6. [processBarcode] returns success exactly when the scan reaches the
    classifier, its identifier is new and passes the structural check,
    and the catalog holds a record for it that lies in the selected
    location (when one is selected), is loanable (code 0 or 2), is in the
    collection (status 0) and is not on loan. *)
Theorem processBarcode_success_iff (c : Env) (input : string) (now : Z)
    (st : Session) :
  (processBarcode c input now st).1 = OutcomeSuccess <->
  reachesClassifier c input = true
  /\ (normalizedOf c input ∉ processedBarcodes st)
  /\ (String.length (normalizedOf c input) <> 12%nat
      \/ startsWith (normalizedOf c input)
           (expectedPrefixOf (selectedLibrary c)) = true)
  /\ exists itemData,
       kohaDataMap c !! normalizedOf c input = Some itemData
       /\ (selectedLocation c = "" \/ locationOf itemData = selectedLocation c)
       /\ (jsString (odunc_verilebilirlik_kodu itemData) = "0"
           \/ jsString (odunc_verilebilirlik_kodu itemData) = "2")
       /\ jsString (materyal_statusu_kodu itemData) = "0"
       /\ jsString (odunc_durumu itemData) <> "1".
Proof.
  destruct (reachesClassifier c input) eqn:Hreach.
  2:{ destruct (processBarcode_unreached c input now st Hreach)
        as [_ [[-> _]|[-> _]]]; split; try discriminate; intros [? _];
        discriminate. }
  rewrite (processBarcode_classify _ _ _ _ Hreach).
  destruct (classify_cases c (trim input) now st)
    as [[Hin ->]|[(Hnotin & Hlen & Hrej & ->)|(Hnotin & Hok & Heq)]].
  - simpl. split; [discriminate|]. intros (_ & Hnotin & _). contradiction.
  - simpl. split; [discriminate|]. intros (_ & _ & [Hl|Hp] & _).
    + contradiction.
    + unfold normalizedOf in Hp. congruence.
  - simpl in Heq. rewrite Heq. clear Heq. simpl.
    fold (normalizedOf c input) in *. unfold lookupWarnings.
    destruct (kohaDataMap c !! normalizedOf c input) as [itemData|] eqn:E.
    + pose proof (fieldWarnings_nil_iff (selectedLocation c) itemData) as Hnil.
      destruct (fieldWarnings (selectedLocation c) itemData) as [|w ws] eqn:Ew;
        simpl.
      * split; [|reflexivity]. intros _. split; [reflexivity|].
        split; [exact Hnotin|]. split; [exact Hok|].
        exists itemData. split; [reflexivity|]. by apply Hnil.
      * split; [discriminate|]. intros (_ & _ & _ & d & [= <-] & Hd).
        apply Hnil in Hd. discriminate.
    + simpl. split; [discriminate|]. intros (_ & _ & _ & d & Hd & _).
      discriminate.
Qed.

(** ** The two variants of the component *)

(** X7. On every input that is not an ISBN the [processBarcode] of [App.jsx]
    leaves the same session as that of [part_000] and returns [true]
    exactly for its error outcomes.  An ISBN, which [part_000] leaves
    unlogged, is logged by [App.jsx] as one event and its first 12 digits
    enter the seen set.  The event is a duplicate under the first 12
    digits when these were seen before; otherwise it carries all 13
    digits and a structural warning when the first 12 digits do not
    start with the prefix of the selected library, and is the result of
    the catalog lookup under the first 12 digits when they do. *)
Theorem legacy_agreement (c : Env) (input : string) (now : Z) (st : Session) :
  (isIsbn (trim input) = false ->
   Legacy.processBarcode c input now st
   = (isError (processBarcode c input now st).1,
      (processBarcode c input now st).2))
  /\ (isIsbn (trim input) = true ->
      isEmpty (selectedLibrary c) = false ->
      let digits := stripNonDigits input in
      let n := slice0 12 digits in
      let expectedPrefix := expectedPrefixOf (selectedLibrary c) in
      (processBarcode c input now st).2 = st
      /\ String.length digits = 13%nat
      /\ String.length n = 12%nat
      /\ normalizedOf c input = n
      /\ exists ev,
           Legacy.processBarcode c input now st
           = (negb (isValid ev),
              {| scannedItems := ev :: scannedItems st;
                 processedBarcodes := {[ n ]} ∪ processedBarcodes st;
                 lastScanned := Some ev |})
           /\ timestamp ev = now
           /\ (n ∈ processedBarcodes st
               /\ barcode ev = n
               /\ warnings ev = [WARNING_DEFINITIONS duplicate]
               \/ (n ∉ processedBarcodes st)
                  /\ startsWith n expectedPrefix = false
                  /\ barcode ev = digits
                  /\ isValid ev = false
                  /\ warnings ev = [structuralWarning n (combinedLibraries c)]
               \/ (n ∉ processedBarcodes st)
                  /\ startsWith n expectedPrefix = true
                  /\ barcode ev = n
                  /\ data ev = kohaDataMap c !! n
                  /\ warnings ev
                     = lookupWarnings (selectedLocation c) false
                         (kohaDataMap c !! n))).
Proof.
  split.
  - intros H3. unfold Legacy.processBarcode, processBarcode. rewrite H3.
    destruct (isEmpty (trim input) || isEmpty (selectedLibrary c));
      [reflexivity|].
    by destruct (classify c (trim input) now st) as [o st'].
  - intros H3 H2 digits n expectedPrefix.
    assert (H1 : isEmpty (trim input) = false).
    { destruct (isEmpty (trim input)) eqn:E; [|reflexivity].
      apply isEmpty_true in E. rewrite E in H3. discriminate. }
    split; [by rewrite processBarcode_isbn|].
    pose proof (isIsbn_length _ H3) as Hlen.
    rewrite stripNonDigits_trim in Hlen. fold digits in Hlen.
    split; [exact Hlen|].
    assert (Hn12 : String.length n = 12%nat)
      by (unfold n; rewrite slice0_length, Hlen; reflexivity).
    split; [exact Hn12|].
    pose proof (normalize_long expectedPrefix (trim input)) as Hnorm.
    rewrite stripNonDigits_trim in Hnorm. fold digits in Hnorm. fold n in Hnorm.
    specialize (Hnorm ltac:(lia)).
    split; [unfold normalizedOf; fold expectedPrefix; by rewrite Hnorm|].
    unfold Legacy.processBarcode. rewrite H1, H2. simpl.
    pose proof (classify_cases c (trim input) now st) as Hcases.
    cbv zeta in Hcases. fold expectedPrefix in Hcases. rewrite Hnorm in Hcases.
    simpl in Hcases.
    destruct Hcases as [[Hin Hc]|[(Hnotin & _ & Hsw & Hc)|(Hnotin & Hok & Hc)]];
      rewrite Hc; clear Hc.
    + exists {| barcode := n; isValid := false;
                warnings := [WARNING_DEFINITIONS duplicate];
                data := existingItemData (renderedItems c) (kohaDataMap c) n;
                timestamp := now |}.
      split; [|split; [reflexivity|left; by repeat split]].
      simpl. unfold record. simpl. f_equal. f_equal.
      symmetry. by apply subseteq_union_1_L, singleton_subseteq_l.
    + exists {| barcode := digits; isValid := false;
                warnings := [structuralWarning n (combinedLibraries c)];
                data := kohaDataMap c !! n; timestamp := now |}.
      split; [reflexivity|]. split; [reflexivity|].
      right; left. by repeat split.
    + assert (Hsw : startsWith n expectedPrefix = true)
        by (destruct Hok as [Hne|Hsw]; [contradiction|exact Hsw]).
      set (ws := lookupWarnings (selectedLocation c) false (kohaDataMap c !! n)).
      exists {| barcode := n; isValid := (length ws =? 0)%nat;
                warnings := ws; data := kohaDataMap c !! n;
                timestamp := now |}.
      split; [|split; [reflexivity|right; right; by repeat split]].
      simpl. by destruct ws.
Qed.

Lemma legacy_agreement_witness :
  isIsbn (trim "9780134190440") = true
  /\ isEmpty (selectedLibrary sampleEnv) = false
  /\ (processBarcode sampleEnv "9780134190440" 4 scannedOnce).2 = scannedOnce
  /\ normalizedOf sampleEnv "9780134190440" = "978013419044".
Proof.
  assert (H1 : isIsbn (trim "9780134190440") = true) by reflexivity.
  assert (H2 : isEmpty (selectedLibrary sampleEnv) = false) by reflexivity.
  split; [exact H1|]. split; [exact H2|].
  destruct (proj2 (legacy_agreement sampleEnv "9780134190440" 4 scannedOnce)
              H1 H2) as (Ha & _ & _ & Hb & _).
  split; [exact Ha | exact Hb].
Defined.

(** ** The worker and the component *)

(** X8. For a scan that reaches the classifier, the result of the worker and
    the event that the component logs have the same identifier, validity,
    warnings and time; they are the same event unless the scan is a
    duplicate, where the worker takes the reference from the catalog and
    the component from the rendered ledger first. *)
Theorem worker_agrees_with_component (c : Env) (input : string) (now : Z)
    (st : Session) :
  reachesClassifier c input = true ->
  exists ev ev',
    scannedItems (processBarcode c input now st).2 = ev :: scannedItems st
    /\ Worker.processBarcodeLogic (payloadOf c input) now (workerOf c st)
       = Some ev'
    /\ barcode ev' = barcode ev /\ isValid ev' = isValid ev
    /\ warnings ev' = warnings ev /\ timestamp ev' = timestamp ev
    /\ (normalizedOf c input ∉ processedBarcodes st -> ev' = ev)
    /\ (normalizedOf c input ∈ processedBarcodes st ->
        data ev' = kohaDataMap c !! normalizedOf c input
        /\ data ev = existingItemData (renderedItems c) (kohaDataMap c)
                       (normalizedOf c input)).
Proof.
  intros Hreach.
  pose proof Hreach as (H1 & H2 & H3)%reachesClassifier_spec.
  rewrite (processBarcode_classify _ _ _ _ Hreach).
  unfold Worker.processBarcodeLogic, classify. simpl. rewrite H1, H2, H3. simpl.
  fold (normalizedOf c input).
  destruct (bool_decide (normalizedOf c input ∈ processedBarcodes st)) eqn:E.
  - apply bool_decide_eq_true_1 in E.
    do 2 eexists. split; [reflexivity|]. split; [reflexivity|]. simpl.
    do 4 (split; [reflexivity|]). split; [intros Hn; contradiction|].
    intros _. by split.
  - apply bool_decide_eq_false_1 in E.
    destruct (_ && _); do 2 eexists; (split; [reflexivity|]);
      (split; [reflexivity|]); simpl; do 4 (split; [reflexivity|]);
      (split; [intros _; reflexivity | intros Hn; contradiction]).
Qed.

Lemma worker_agrees_with_component_witness :
  reachesClassifier sampleEnv "999988887777" = true
  /\ exists ev,
       Worker.processBarcodeLogic (payloadOf sampleEnv "999988887777") 3
         (workerOf sampleEnv scannedOnce) = Some ev.
Proof.
  assert (H : reachesClassifier sampleEnv "999988887777" = true) by reflexivity.
  split; [exact H|].
  destruct (worker_agrees_with_component sampleEnv "999988887777" 3 scannedOnce H)
    as (ev & ev' & _ & Hw & _).
  by exists ev'.
Defined.

(** ** Repeated scans in the worker *)

Lemma originalBarcode_normalize (expectedPrefix rawBarcode : string) :
  originalBarcode (normalize expectedPrefix rawBarcode)
  = stripNonDigits rawBarcode.
Proof. unfold normalize. by destruct (_ && _). Qed.

Lemma worker_result_barcode (p : Worker.Payload) (now : Z) (st : Worker.State) :
  workerReaches p = true ->
  exists result,
    Worker.processBarcodeLogic p now st = Some result
    /\ (barcode result = workerNormalized p
        \/ barcode result = stripNonDigits (Worker.p_barcode p)
           /\ String.length (workerNormalized p) = 12%nat
           /\ startsWith (workerNormalized p)
                (expectedPrefixOf (Worker.p_selectedLibrary p)) = false
           /\ (workerNormalized p ∉ Worker.processedBarcodes st)
           /\ warnings result
              = [structuralWarning (workerNormalized p)
                   (Worker.combinedLibraries st)]).
Proof.
  unfold workerReaches. rewrite !andb_true_iff, !negb_true_iff.
  intros [[H1 H2] H3].
  unfold Worker.processBarcodeLogic. rewrite H1, H2, H3. simpl.
  fold (workerNormalized p).
  destruct (bool_decide (workerNormalized p ∈ Worker.processedBarcodes st)) eqn:E.
  - eexists. split; [reflexivity|]. by left.
  - apply bool_decide_eq_false_1 in E.
    destruct (String.length (workerNormalized p) =? 12)%nat eqn:E2;
      destruct (startsWith (workerNormalized p) _) eqn:E3; simpl;
      eexists; (split; [reflexivity|]); try (by left).
    right. simpl. apply Nat.eqb_eq in E2. repeat split; try done.
    by rewrite originalBarcode_normalize, stripNonDigits_trim.
Qed.

(** X9. In the worker a scan that reaches the classifier is reported as
    duplicate when the same payload is processed again, unless it is an
    input of 13 digits or more that the structural check rejects: the
    seen set then holds the untruncated digits, and the repeat gets the
    same structural warning once more. *)
Theorem worker_rescan (p : Worker.Payload) (now now' : Z) (st : Worker.State) :
  workerReaches p = true ->
  let st1 := (Worker.processSingleBarcode p now st).1 in
  (workerTruncatedRejection p = false ->
   exists result,
     Worker.processBarcodeLogic p now' st1 = Some result
     /\ barcode result = workerNormalized p
     /\ warnings result = [WARNING_DEFINITIONS duplicate])
  /\ (workerTruncatedRejection p = true ->
      workerNormalized p ∉ Worker.processedBarcodes st ->
      exists result,
        Worker.processBarcodeLogic p now' st1 = Some result
        /\ barcode result = stripNonDigits (Worker.p_barcode p)
        /\ warnings result
           = [structuralWarning (workerNormalized p)
                (Worker.combinedLibraries st)]).
Proof.
  intros Hreach st1.
  pose proof Hreach as Hr. unfold workerReaches in Hr.
  rewrite !andb_true_iff, !negb_true_iff in Hr. destruct Hr as [[H1 H2] H3].
  destruct (worker_result_barcode p now st Hreach) as (result & Hres & Hbar).
  assert (Hst1 : Worker.processedBarcodes st1
                 = {[ barcode result ]} ∪ Worker.processedBarcodes st).
  { subst st1. unfold Worker.processSingleBarcode. by rewrite Hres. }
  assert (Hlibs : Worker.combinedLibraries st1 = Worker.combinedLibraries st).
  { subst st1. unfold Worker.processSingleBarcode. by rewrite Hres. }
  split.
  - intros Htrunc.
    assert (Hb : barcode result = workerNormalized p).
    { destruct Hbar as [Hb|(Hb & _ & Hpre & _)]; [exact Hb|].
      rewrite Hb. rewrite <- (stripNonDigits_trim (Worker.p_barcode p)).
      rewrite <- (originalBarcode_normalize
                    (expectedPrefixOf (Worker.p_selectedLibrary p))).
      apply rejection_keeps_identifier; [|exact Hpre].
      rewrite stripNonDigits_trim. unfold workerTruncatedRejection in Htrunc.
      exact Htrunc. }
    assert (Hin : workerNormalized p ∈ Worker.processedBarcodes st1).
    { rewrite Hst1, Hb. apply elem_of_union_l. by apply elem_of_singleton. }
    unfold Worker.processBarcodeLogic. rewrite H1, H2, H3. simpl.
    fold (workerNormalized p). rewrite (bool_decide_eq_true_2 _ Hin).
    eexists. split; [reflexivity|]. by split.
  - intros Htrunc Hnotin.
    unfold workerTruncatedRejection in Htrunc.
    apply andb_true_iff in Htrunc as [H13 Hpre].
    apply Nat.leb_le in H13. apply negb_true_iff in Hpre.
    assert (Hlen : String.length (workerNormalized p) = 12%nat).
    { unfold workerNormalized.
      rewrite normalize_long by (rewrite stripNonDigits_trim; lia).
      simpl. rewrite slice0_length, stripNonDigits_trim. lia. }
    assert (Hb : barcode result = stripNonDigits (Worker.p_barcode p)).
    { destruct Hbar as [Hb|(Hb & _)]; [|exact Hb].
      exfalso. revert Hres. unfold Worker.processBarcodeLogic.
      rewrite H1, H2, H3. simpl. fold (workerNormalized p).
      rewrite (bool_decide_eq_false_2 _ Hnotin), Hlen, Hpre. simpl.
      intros [= <-]. simpl in Hb.
      rewrite originalBarcode_normalize, stripNonDigits_trim in Hb.
      apply (f_equal String.length) in Hb. lia. }
    assert (Hnotin1 : workerNormalized p ∉ Worker.processedBarcodes st1).
    { rewrite Hst1, Hb. intros [Hx|Hx]%elem_of_union; [|contradiction].
      apply elem_of_singleton in Hx. apply (f_equal String.length) in Hx. lia. }
    unfold Worker.processBarcodeLogic. rewrite H1, H2, H3. simpl.
    fold (workerNormalized p).
    rewrite (bool_decide_eq_false_2 _ Hnotin1), Hlen, Hpre, Hlibs. simpl.
    eexists. split; [reflexivity|]. split; [|reflexivity]. simpl.
    by rewrite originalBarcode_normalize, stripNonDigits_trim.
Qed.

Lemma worker_rescan_witness :
  workerReaches itemPayload = true
  /\ workerTruncatedRejection itemPayload = false
  /\ exists result,
       Worker.processBarcodeLogic itemPayload 2
         (Worker.processSingleBarcode itemPayload 1 workerStart).1 = Some result
       /\ warnings result = [WARNING_DEFINITIONS duplicate].
Proof.
  assert (H1 : workerReaches itemPayload = true) by reflexivity.
  assert (H2 : workerTruncatedRejection itemPayload = false) by reflexivity.
  split; [exact H1|]. split; [exact H2|].
  destruct (proj1 (worker_rescan itemPayload 1 2 workerStart H1) H2)
    as (result & Hres & _ & Hw).
  by exists result.
Defined.

(** ** Deleting scans *)

Lemma find_none_filter (ts : Z) (items : list ScanEvent) :
  find (fun item => timestamp item =? ts) items = None ->
  List.filter (fun item => negb (timestamp item =? ts)) items = items.
Proof.
  induction items as [|x items IH]; simpl; [reflexivity|].
  destruct (timestamp x =? ts); [discriminate|]. simpl.
  intros H. by rewrite IH.
Qed.

Lemma find_filtered_out (ts : Z) (items : list ScanEvent) :
  find (fun item => timestamp item =? ts)
    (List.filter (fun item => negb (timestamp item =? ts)) items) = None.
Proof.
  induction items as [|x items IH]; simpl; [reflexivity|].
  destruct (timestamp x =? ts) eqn:E; simpl; [exact IH|]. by rewrite E.
Qed.

(** X10. [handleDeleteItem] removes exactly the events that carry the time
    stamp and never adds to the seen set; a second deletion of the same
    time stamp changes nothing, and neither does the deletion of a time
    stamp that no event carries. *)
Theorem handleDeleteItem_removes (ts : Z) (st : Session) :
  scannedItems (handleDeleteItem ts st)
  = List.filter (fun item => negb (timestamp item =? ts)) (scannedItems st)
  /\ Forall (fun item => timestamp item <> ts)
       (scannedItems (handleDeleteItem ts st))
  /\ processedBarcodes (handleDeleteItem ts st) ⊆ processedBarcodes st
  /\ handleDeleteItem ts (handleDeleteItem ts st) = handleDeleteItem ts st
  /\ (Forall (fun item => timestamp item <> ts) (scannedItems st) ->
      handleDeleteItem ts st = st).
Proof.
  assert (Hitems : scannedItems (handleDeleteItem ts st)
                   = List.filter (fun item => negb (timestamp item =? ts))
                       (scannedItems st)).
  { unfold handleDeleteItem.
    destruct (find _ (scannedItems st)) eqn:E; [reflexivity|].
    by rewrite find_none_filter. }
  split; [exact Hitems|]. split; [|split; [|split]].
  - rewrite Hitems. apply Forall_forall. intros x Hx.
    apply elem_of_filter_bool in Hx as [_ Hx].
    by apply negb_true_iff, Z.eqb_neq in Hx.
  - unfold handleDeleteItem. destruct (find _ (scannedItems st)); [|done].
    simpl. destruct (_ =? 1)%nat; [apply subseteq_difference_l|]; done.
  - unfold handleDeleteItem at 1. rewrite Hitems, find_filtered_out.
    reflexivity.
  - intros Hall. unfold handleDeleteItem.
    destruct (find _ (scannedItems st)) as [e|] eqn:E; [|reflexivity].
    apply find_timestamp in E as [Hin Hts].
    rewrite Forall_forall in Hall. by apply Hall in Hin.
Qed.

(** ** Undoing a scan *)

Lemma admissibleRun_snoc (ops : list Op) (op : Op) (st : Session) :
  admissibleRun (ops ++ [op]) st
  = admissibleRun ops st && admissible (run ops st) op.
Proof.
  revert st. induction ops as [|o ops IH]; intros st; simpl.
  - by rewrite andb_true_r.
  - by rewrite IH, andb_assoc.
Qed.

Lemma count_barcode_zero (b : string) (items : list ScanEvent) :
  length (List.filter (fun item => String.eqb (barcode item) b) items) = 0%nat
  <-> b ∉ (list_to_set (map barcode items) : gset string).
Proof.
  induction items as [|x items IH]; simpl.
  - split; [intros _; apply not_elem_of_empty | reflexivity].
  - destruct (String.eqb (barcode x) b) eqn:E; simpl.
    + apply String.eqb_eq in E. split; [discriminate|]. intros H.
      exfalso. apply H. apply elem_of_union_l. by apply elem_of_singleton.
    + apply String.eqb_neq in E. rewrite IH, not_elem_of_union, elem_of_singleton.
      split; [intros H; split; [congruence | exact H] | tauto].
Qed.

(** X11. After an admissible run, a scan that is logged and then deleted by
    its time stamp leaves the ledger and the seen set as they were before
    the scan. *)
Theorem scan_then_delete_restores (ops : list Op) (c : Env) (input : string)
    (now : Z) :
  admissibleRun (ops ++ [OpScan c input now]) emptySession = true ->
  reachesClassifier c input = true ->
  let st := run ops emptySession in
  let st' := handleDeleteItem now (processBarcode c input now st).2 in
  scannedItems st' = scannedItems st
  /\ processedBarcodes st' = processedBarcodes st.
Proof.
  rewrite admissibleRun_snoc. intros [Hadm Hop]%andb_true_iff Hreach st st'.
  fold st in Hop.
  destruct (run_preserves ops emptySession Hadm) as [Hnd Hseen];
    [split; [apply NoDup_nil_2 | reflexivity]|].
  fold st in Hnd, Hseen. unfold seenMatchesLedger in Hseen.
  simpl in Hop. apply andb_true_iff in Hop as [Hfresh Htrunc].
  apply negb_true_iff in Htrunc.
  destruct (processBarcode_reached c input now st Hreach)
    as (ev & Heq & Hts & _ & _ & Hbar).
  assert (Hev : barcode ev = normalizedOf c input).
  { destruct Hbar as [Hb|(Hb & _ & Hpre & _)]; [exact Hb|].
    rewrite Hb, <- (stripNonDigits_trim input).
    rewrite <- (originalBarcode_normalize (expectedPrefixOf (selectedLibrary c))).
    apply rejection_keeps_identifier; [|exact Hpre].
    rewrite stripNonDigits_trim. exact Htrunc. }
  assert (Hkeep : List.filter (fun item => negb (timestamp item =? now))
                    (scannedItems st) = scannedItems st).
  { apply find_none_filter. clear -Hfresh.
    induction (scannedItems st) as [|x items IH]; [reflexivity|].
    simpl in *. apply andb_true_iff in Hfresh as [Hx Hrest].
    apply negb_true_iff in Hx. rewrite Hx. by apply IH. }
  subst st'. rewrite Heq. unfold handleDeleteItem. simpl.
  rewrite Hts, Z.eqb_refl. simpl. rewrite String.eqb_refl, Hkeep. simpl.
  split; [reflexivity|].
  destruct (length (List.filter
                      (fun item => String.eqb (barcode item) (barcode ev))
                      (scannedItems st))) as [|k] eqn:Hcount; simpl.
  - apply count_barcode_zero in Hcount. rewrite <- Hseen, Hev in Hcount.
    rewrite Hev. apply set_eq. intros x.
    rewrite elem_of_difference, elem_of_union, elem_of_singleton.
    split; [intros [[->|Hx] Hne]; [contradiction | exact Hx]|].
    intros Hx. split; [by right|]. intros ->. contradiction.
  - assert (Hin : normalizedOf c input ∈ processedBarcodes st).
    { rewrite Hseen, <- Hev.
      destruct (decide (barcode ev
                        ∈ (list_to_set (map barcode (scannedItems st))
                           : gset string))) as [Hin|Hnotin]; [exact Hin|].
      apply count_barcode_zero in Hnotin. rewrite Hnotin in Hcount.
      discriminate. }
    by apply subseteq_union_1_L, singleton_subseteq_l.
Qed.

Lemma scan_then_delete_restores_witness :
  admissibleRun
    ([OpScan sampleEnv "101200012345" 1]
     ++ [OpScan sampleEnv "101200012345" 2]) emptySession = true
  /\ reachesClassifier sampleEnv "101200012345" = true
  /\ scannedItems
       (handleDeleteItem 2
          (processBarcode sampleEnv "101200012345" 2
             (run [OpScan sampleEnv "101200012345" 1] emptySession)).2)
     = scannedItems (run [OpScan sampleEnv "101200012345" 1] emptySession).
Proof.
  assert (H1 : admissibleRun
                 ([OpScan sampleEnv "101200012345" 1]
                  ++ [OpScan sampleEnv "101200012345" 2]) emptySession = true)
    by (vm_compute; reflexivity).
  assert (H2 : reachesClassifier sampleEnv "101200012345" = true)
    by reflexivity.
  split; [exact H1|]. split; [exact H2|].
  exact (proj1 (scan_then_delete_restores
                  [OpScan sampleEnv "101200012345" 1] sampleEnv
                  "101200012345" 2 H1 H2)).
Defined.

(** ** What every session satisfies *)

Lemma step_invariant (op : Op) (st : Session) :
  sessionInvariant st -> sessionInvariant (step st op).
Proof.
  intros (Hwf & Hlast & Hseen). destruct op as [c input now|ts|]; simpl.
  - destruct (reachesClassifier c input) eqn:Hreach.
    + destruct (processBarcode_reached c input now st Hreach)
        as (ev & -> & _ & Hvalid & _ & Hbar).
      simpl. split; [|split].
      * by constructor.
      * intros l [= <-]. apply elem_of_cons. by left.
      * intros e [->|He]%elem_of_cons Hnr.
        -- destruct Hbar as [->|(_ & _ & _ & Hw)].
           ++ apply elem_of_union_l. by apply elem_of_singleton.
           ++ exfalso. unfold notRejected in Hnr. rewrite Hw in Hnr.
              apply Forall_cons in Hnr as [[H1 H2] _].
              destruct (structuralWarning_id (normalizedOf c input)
                          (combinedLibraries c)); contradiction.
        -- apply elem_of_union_r. by apply Hseen.
    + destruct (processBarcode_unreached c input now st Hreach) as [-> _].
      by repeat split.
  - unfold handleDeleteItem.
    destruct (find _ (scannedItems st)) as [d|] eqn:Hfind; [|by repeat split].
    apply find_timestamp in Hfind as [Hd Hdts]. simpl. split; [|split].
    + apply Forall_forall. intros e [He _]%elem_of_filter_bool.
      rewrite Forall_forall in Hwf. by apply Hwf.
    + intros l Hl. destruct (lastScanned st) as [l0|] eqn:El; [|discriminate].
      destruct (timestamp l0 =? ts) eqn:Et.
      * by apply head_Some_elem_of.
      * injection Hl as <-. apply elem_of_filter_bool.
        split; [by apply Hlast|]. by rewrite Et.
    + intros e [He Hets]%elem_of_filter_bool Hnr.
      apply negb_true_iff, Z.eqb_neq in Hets.
      destruct (_ =? 1)%nat eqn:Hcount; [|by apply Hseen].
      apply Nat.eqb_eq in Hcount.
      apply elem_of_difference. split; [by apply Hseen|].
      intros Hb%elem_of_singleton.
      assert (e = d); [|congruence].
      apply (filter_single _ _ _ _ Hcount); try assumption.
      * by apply String.eqb_eq.
      * apply String.eqb_refl.
  - split; [constructor|]. split; [discriminate|].
    intros e He. by apply elem_of_nil in He.
Qed.

(** X12. After any sequence of scans, deletions and clearings from the empty
    session, every event of the ledger is valid exactly when it has no
    warning, [lastScanned] is an event of the ledger, and the identifier
    of every event that was not structurally rejected is in the seen set,
    so that scanning it again is reported as a duplicate. *)
Theorem reachable_session_invariant (ops : list Op) :
  let st := run ops emptySession in
  Forall (fun e => isValid e = true <-> warnings e = []) (scannedItems st)
  /\ (forall l, lastScanned st = Some l -> l ∈ scannedItems st)
  /\ (forall e, e ∈ scannedItems st -> notRejected e ->
                barcode e ∈ processedBarcodes st).
Proof.
  assert (H : forall st, sessionInvariant st -> sessionInvariant (run ops st)).
  { induction ops as [|op ops IH]; intros st Hst; [exact Hst|].
    simpl. apply IH. by apply step_invariant. }
  apply H. split; [constructor|]. split; [discriminate|].
  intros e He. by apply elem_of_nil in He.
Qed.

(** ** Restoring a session *)

(** X13. A restored session reports as duplicate every scan whose normalized
    identifier is the identifier of a stored event.  After an admissible
    run, storing the ledger and restoring it gives back the same ledger
    and the same seen set. *)
Theorem loadSession_round_trip (ops : list Op) :
  admissibleRun ops emptySession = true ->
  let st := run ops emptySession in
  scannedItems (loadSession (scannedItems st)) = scannedItems st
  /\ processedBarcodes (loadSession (scannedItems st)) = processedBarcodes st
  /\ (forall items c input now e,
        e ∈ items ->
        reachesClassifier c input = true ->
        normalizedOf c input = barcode e ->
        (processBarcode c input now (loadSession items)).1
        = OutcomeError [WARNING_DEFINITIONS duplicate]).
Proof.
  intros Hadm st. split; [reflexivity|]. split.
  - destruct (run_preserves ops emptySession Hadm) as [_ Hseen];
      [split; [apply NoDup_nil_2 | reflexivity]|].
    symmetry. exact Hseen.
  - intros items c input now e He Hreach Hn.
    rewrite (duplicate_event c input now (loadSession items) Hreach);
      [reflexivity|].
    rewrite Hn. simpl. apply elem_of_list_to_set, list_elem_of_fmap.
    by exists e.
Qed.

Lemma loadSession_round_trip_witness :
  admissibleRun scanRepeatDelete emptySession = true
  /\ processedBarcodes
       (loadSession (scannedItems (run scanRepeatDelete emptySession)))
     = processedBarcodes (run scanRepeatDelete emptySession).
Proof.
  assert (H : admissibleRun scanRepeatDelete emptySession = true)
    by (vm_compute; reflexivity).
  split; [exact H|].
  exact (proj1 (proj2 (loadSession_round_trip scanRepeatDelete H))).
Defined.

(** ** The list of current loans *)

Lemma setHas_elem (x : string) (s : list string) :
  setHas x s = true <-> x ∈ s.
Proof.
  unfold setHas. rewrite existsb_exists. split.
  - intros (y & Hy & ->%String.eqb_eq). by apply list_elem_of_In.
  - intros H. exists x. split; [by apply list_elem_of_In|].
    apply String.eqb_refl.
Qed.

Lemma setAdd_spec (x : string) (s : list string) :
  NoDup s ->
  NoDup (setAdd x s) /\ forall y, y ∈ setAdd x s <-> y ∈ s \/ y = x.
Proof.
  intros Hnd. unfold setAdd. destruct (setHas x s) eqn:E.
  - apply setHas_elem in E. split; [exact Hnd|].
    intros y. split; [by left | intros [H| ->]; assumption].
  - assert (Hx : x ∉ s) by (intros H; apply setHas_elem in H; congruence).
    split.
    + apply NoDup_app. split; [exact Hnd|]. split; [|apply NoDup_singleton].
      intros y Hy ->%list_elem_of_singleton. contradiction.
    + intros y. rewrite elem_of_app, list_elem_of_singleton. tauto.
Qed.

Lemma newSet_spec (l : list string) :
  NoDup (newSet l) /\ forall y, y ∈ newSet l <-> y ∈ l.
Proof.
  unfold newSet.
  assert (H : forall acc, NoDup acc ->
            NoDup (fold_left (fun s x => setAdd x s) l acc)
            /\ forall y, y ∈ fold_left (fun s x => setAdd x s) l acc
                         <-> y ∈ acc \/ y ∈ l).
  { induction l as [|x l IH]; intros acc Hacc; simpl.
    - split; [exact Hacc|]. intros y. rewrite elem_of_nil. tauto.
    - destruct (setAdd_spec x acc Hacc) as [Hnd Hin].
      destruct (IH _ Hnd) as [Hnd' Hin']. split; [exact Hnd'|].
      intros y. rewrite Hin', Hin, elem_of_cons. tauto. }
  destruct (H [] (NoDup_nil_2 (A:=string))) as [Hnd Hin]. split; [exact Hnd|].
  intros y. rewrite Hin, elem_of_nil. tauto.
Qed.

Lemma uploadedBarcodesOf_spec (barcodes : list string) :
  NoDup (uploadedBarcodesOf barcodes)
  /\ forall b, b ∈ uploadedBarcodesOf barcodes
               <-> b <> "" /\ exists raw, raw ∈ barcodes
                                          /\ b = stripNonDigits (trim raw).
Proof.
  unfold uploadedBarcodesOf.
  destruct (newSet_spec
              (List.filter (fun b => negb (isEmpty b))
                 (map (fun b => stripNonDigits (trim b)) barcodes)))
    as [Hnd Hin].
  split; [exact Hnd|]. intros b.
  rewrite Hin, elem_of_filter_bool, list_elem_of_fmap, negb_true_iff,
    isEmpty_false.
  split.
  - intros [(raw & Heq & Hraw) Hne]. split; [exact Hne|]. by exists raw.
  - intros [Hne (raw & Hraw & Heq)]. split; [|exact Hne]. by exists raw.
Qed.

Lemma count_in_NoDup (b : string) (l : list string) :
  NoDup l -> b ∈ l ->
  length (List.filter (fun x => String.eqb x b) l) = 1%nat.
Proof.
  induction l as [|x l IH]; intros Hnd Hin.
  - by apply elem_of_nil in Hin.
  - apply NoDup_cons in Hnd as [Hx Hnd]. simpl.
    destruct (String.eqb x b) eqn:E.
    + apply String.eqb_eq in E. subst x. simpl. f_equal.
      clear IH Hin Hnd. induction l as [|y l IH]; [reflexivity|].
      simpl. destruct (String.eqb y b) eqn:Ey.
      * apply String.eqb_eq in Ey. subst y. exfalso. apply Hx.
        apply elem_of_cons. by left.
      * apply IH. intros H. apply Hx. apply elem_of_cons. by right.
    + apply String.eqb_neq in E. apply IH; [exact Hnd|].
      apply elem_of_cons in Hin as [->|Hin]; [contradiction | exact Hin].
Qed.

Lemma count_by_barcode (b : string) (items : list ScanEvent) :
  length (List.filter (fun item => String.eqb (barcode item) b) items)
  = length (List.filter (fun x => String.eqb x b) (map barcode items)).
Proof.
  induction items as [|e items IH]; [reflexivity|]. simpl.
  destruct (String.eqb (barcode e) b); simpl; by rewrite IH.
Qed.

Lemma barcode_imap (index : gmap string Row) (clock : nat -> Z)
    (l : list string) :
  map barcode
    (imap (fun i b =>
             {| barcode := b; isValid := false;
                warnings := [WARNING_DEFINITIONS onLoan];
                data := index !! b; timestamp := clock i |}) l)
  = l.
Proof.
  revert clock. induction l as [|b l IH]; intros clock; [reflexivity|].
  simpl. f_equal. apply (IH (fun i => clock (S i))).
Qed.

Lemma filter_nothing {A : Type} (P : A -> bool) (l : list A) :
  (forall x, x ∈ l -> P x = false) -> List.filter P l = [].
Proof.
  induction l as [|x l IH]; intros H; [reflexivity|]. simpl.
  rewrite (H x) by (apply elem_of_cons; by left).
  apply IH. intros y Hy. apply H. apply elem_of_cons. by right.
Qed.

Lemma filter_idem {A : Type} (P : A -> bool) (l : list A) :
  List.filter P (List.filter P l) = List.filter P l.
Proof.
  induction l as [|x l IH]; [reflexivity|]. simpl.
  destruct (P x) eqn:E; simpl; [rewrite E; by f_equal | exact IH].
Qed.

(** X14. After the upload of the list of current loans, the uploaded
    identifiers are the distinct non-empty digit strings of the uploaded
    cells; each of them has exactly one event in the ledger, invalid with
    the single warning [onLoan] and the catalog record as reference; the
    events of the other identifiers are kept in their order; every
    uploaded identifier is in the seen set, and a seen set that matched
    the ledger still matches it. *)
Theorem handleOnLoanUpload_effect (index : gmap string Row)
    (barcodes : list string) (clock : nat -> Z) (st : Session) :
  let uploaded := uploadedBarcodesOf barcodes in
  let st' := handleOnLoanUpload index barcodes clock st in
  (forall b, b ∈ uploaded
             <-> b <> "" /\ exists raw, raw ∈ barcodes
                                        /\ b = stripNonDigits (trim raw))
  /\ (forall b, b ∈ uploaded ->
        length (List.filter (fun item => String.eqb (barcode item) b)
                  (scannedItems st')) = 1%nat)
  /\ (forall e, e ∈ scannedItems st' -> barcode e ∈ uploaded ->
        isValid e = false /\ warnings e = [WARNING_DEFINITIONS onLoan]
        /\ data e = index !! barcode e)
  /\ List.filter (fun item => negb (setHas (barcode item) uploaded))
       (scannedItems st')
     = List.filter (fun item => negb (setHas (barcode item) uploaded))
         (scannedItems st)
  /\ processedBarcodes st' = list_to_set uploaded ∪ processedBarcodes st
  /\ (seenMatchesLedger st -> seenMatchesLedger st').
Proof.
  intros uploaded st'.
  destruct (uploadedBarcodesOf_spec barcodes) as [Hnd Hin].
  fold uploaded in Hnd, Hin.
  set (fresh := imap (fun i b =>
                        {| barcode := b; isValid := false;
                           warnings := [WARNING_DEFINITIONS onLoan];
                           data := index !! b; timestamp := clock i |})
                  uploaded).
  set (kept := List.filter
                 (fun item => negb (setHas (barcode item) uploaded))
                 (scannedItems st)).
  assert (Hitems : scannedItems st' = (fresh ++ kept)%list) by reflexivity.
  assert (Hfresh : map barcode fresh = uploaded) by apply barcode_imap.
  assert (Hkept : forall e, e ∈ kept -> barcode e ∉ uploaded).
  { intros e [_ He]%elem_of_filter_bool Hu. apply setHas_elem in Hu.
    rewrite Hu in He. discriminate. }
  split; [exact Hin|]. split; [|split; [|split; [|split]]].
  - intros b Hb. rewrite Hitems, List.filter_app, length_app.
    rewrite (count_by_barcode b fresh), Hfresh, (count_in_NoDup b _ Hnd Hb).
    rewrite (filter_nothing _ kept); [reflexivity|].
    intros e He. apply String.eqb_neq. intros Heq.
    apply (Hkept e He). by rewrite Heq.
  - intros e He Hu. rewrite Hitems in He.
    apply elem_of_app in He as [He|He]; [|by apply Hkept in He].
    apply elem_of_lookup_imap in He as (i & b & -> & _). by repeat split.
  - rewrite Hitems, List.filter_app.
    rewrite (filter_nothing _ fresh).
    + simpl. subst kept. apply filter_idem.
    + intros e He. apply negb_false_iff, setHas_elem.
      rewrite <- Hfresh. apply list_elem_of_fmap. by exists e.
  - reflexivity.
  - unfold seenMatchesLedger. intros Hseen.
    change (processedBarcodes st')
      with (list_to_set uploaded ∪ processedBarcodes st).
    rewrite Hitems, map_app, Hfresh, Hseen. apply set_eq. intros x.
    rewrite list_to_set_app, !elem_of_union, !elem_of_list_to_set,
      !list_elem_of_fmap.
    split.
    + intros [Hx|(e & -> & He)]; [by left|].
      destruct (setHas (barcode e) uploaded) eqn:E.
      * left. by apply setHas_elem.
      * right. exists e. split; [done|]. apply elem_of_filter_bool.
        split; [done|]. by rewrite E.
    + intros [Hx|(e & -> & [He _]%elem_of_filter_bool)]; [by left|].
      right. by exists e.
Qed.

(** ** Bulk processing *)

Lemma processChunks_enough (c : Env) (barcodes : list string) (clock : nat -> Z)
    (fuel index : nat) (st : Session) :
  (index <= length barcodes)%nat ->
  (length barcodes - index < fuel)%nat ->
  let r := processChunks fuel c barcodes clock index st in
  r.2 = fold_left
          (fun s i => (processBarcode c (nth i barcodes "") (clock i) s).2)
          (seq index (length barcodes - index)) st
  /\ last r.1 = Some (length barcodes)
  /\ Forall (fun p => (index <= p <= length barcodes)%nat) r.1.
Proof.
  revert index st. induction fuel as [|fuel IH]; intros index st Hle Hfuel;
    [lia|].
  simpl. unfold processChunk.
  set (end_ := Nat.min (index + chunkSize) (length barcodes)).
  destruct (end_ <? length barcodes)%nat eqn:E.
  - apply Nat.ltb_lt in E.
    assert (Hend : end_ = (index + chunkSize)%nat) by lia.
    assert (Hc : chunkSize = 200%nat) by reflexivity.
    specialize (IH end_
                  (fold_left
                     (fun s i =>
                        (processBarcode c (nth i barcodes "") (clock i) s).2)
                     (seq index (end_ - index)) st)
                  ltac:(lia) ltac:(lia)).
    destruct (processChunks fuel c barcodes clock end_ _) as [progress st''].
    simpl in *. destruct IH as (Hst & Hlast & Hall). split; [|split].
    + rewrite Hst.
      replace (length barcodes - index)%nat
        with ((end_ - index) + (length barcodes - end_))%nat by lia.
      rewrite seq_app, fold_left_app.
      replace (index + (end_ - index))%nat with end_ by lia. reflexivity.
    + destruct progress as [|p progress]; [discriminate|]. exact Hlast.
    + constructor; [lia|]. eapply Forall_impl; [exact Hall|].
      simpl. intros p Hp. lia.
  - apply Nat.ltb_ge in E. simpl.
    assert (Hend : end_ = length barcodes) by lia.
    rewrite Hend. split; [reflexivity|]. split; [reflexivity|].
    constructor; [lia | constructor].
Qed.

Lemma fold_indices_scanAll (c : Env) (clock : nat -> Z) (pre l : list string)
    (st : Session) :
  fold_left
    (fun s i => (processBarcode c (nth i (pre ++ l)%list "") (clock i) s).2)
    (seq (length pre) (length l)) st
  = scanAll (imap (fun i b => (c, b, clock (length pre + i)%nat)) l) st.
Proof.
  revert pre st. induction l as [|b l IH]; intros pre st; [reflexivity|].
  simpl. rewrite nth_middle, Nat.add_0_r.
  specialize (IH (pre ++ [b])%list). rewrite length_app in IH. simpl in IH.
  rewrite <- app_assoc in IH. simpl in IH.
  replace (S (length pre)) with (length pre + 1)%nat by lia.
  rewrite IH. unfold scanAll. f_equal. apply imap_ext.
  intros i x _. simpl. f_equal. f_equal. lia.
Qed.

(** X15. Processing a list in chunks of 200 leaves the session that processing
    its barcodes one after the other leaves; the chain of chunks ends,
    and the last progress value that a chunk sets is the number of
    barcodes. *)
Theorem processBarcodesInChunks_sequential (c : Env) (barcodes : list string)
    (clock : nat -> Z) (st : Session) :
  (processBarcodesInChunks c barcodes clock st).2
  = scanAll (imap (fun i b => (c, b, clock i)) barcodes) st
  /\ last (processBarcodesInChunks c barcodes clock st).1
     = Some (length barcodes)
  /\ Forall (fun p => (p <= length barcodes)%nat)
       (processBarcodesInChunks c barcodes clock st).1.
Proof.
  unfold processBarcodesInChunks.
  destruct (processChunks_enough c barcodes clock (S (length barcodes)) 0 st
              ltac:(lia) ltac:(lia)) as (Hst & Hlast & Hall).
  split; [|split; [exact Hlast|]].
  - rewrite Hst, Nat.sub_0_r.
    apply (fold_indices_scanAll c clock [] barcodes st).
  - eapply Forall_impl; [exact Hall|]. simpl. intros p Hp. lia.
Qed.

Lemma processBarcodesInChunks_scanAll (c : Env) (barcodes : list string)
    (clock : nat -> Z) (st : Session) :
  (processBarcodesInChunks c barcodes clock st).2
  = scanAll (imap (fun i b => (c, b, clock i)) barcodes) st.
Proof.
  unfold processBarcodesInChunks.
  destruct (processChunks_enough c barcodes clock (S (length barcodes)) 0 st
              ltac:(lia) ltac:(lia)) as (Hst & _).
  rewrite Hst, Nat.sub_0_r.
  apply (fold_indices_scanAll c clock [] barcodes st).
Qed.

(** A run of scans only prepends events: one for each scan that reaches
    the classifier. *)
Lemma scanAll_growth (scans : list (Env * string * Z)) (st : Session) :
  exists new,
    scannedItems (scanAll scans st) = (new ++ scannedItems st)%list
    /\ length new
       = length (List.filter (fun s => reachesClassifier s.1.1 s.1.2) scans).
Proof.
  revert st. induction scans as [|[[c input] now] scans IH]; intros st.
  - by exists [].
  - change (scanAll ((c, input, now) :: scans) st)
      with (scanAll scans (processBarcode c input now st).2).
    destruct (IH (processBarcode c input now st).2) as (new & Hnew & Hlen).
    simpl. destruct (reachesClassifier c input) eqn:Hreach.
    + destruct (processBarcode_reached c input now st Hreach)
        as (ev & Heq & _).
      rewrite Heq in Hnew |- *. simpl in Hnew |- *.
      exists (new ++ [ev])%list.
      split; [by rewrite Hnew, <- app_assoc|].
      rewrite length_app. simpl. lia.
    + destruct (processBarcode_unreached c input now st Hreach) as [Hst _].
      rewrite Hst in Hnew |- *. exists new. by split.
Qed.

Lemma splitLines_no_linefeed (text : string) :
  Forall (fun line => forall i, String.get i line <> Some "010"%char)
    (splitLines text).
Proof.
  induction text as [|c rest IH]; simpl.
  - constructor; [|constructor]. by intros [|i].
  - destruct (Ascii.eqb c "010") eqn:E.
    { constructor; [by intros [|i] | exact IH]. }
    apply Ascii.eqb_neq in E.
    destruct rest as [|c' rest'].
    { constructor; [|constructor]. intros [|[|i]]; simpl; congruence. }
    destruct (Ascii.eqb c "013" && Ascii.eqb c' "010") eqn:E2.
    + constructor; [by intros [|i]|].
      simpl in IH. apply andb_true_iff in E2 as [_ E2].
      rewrite E2 in IH. by apply Forall_cons in IH as [_ IH].
    + destruct (splitLines (String c' rest')) as [|line lines].
      * constructor; [|constructor]. intros [|[|i]]; simpl; congruence.
      * apply Forall_cons in IH as [Hline Hlines].
        constructor; [|exact Hlines].
        intros [|i]; simpl; [congruence | apply Hline].
Qed.

(** X16. A bulk upload of a text file under a selected library processes the
    lines of the file that are not blank, none of which contains a line
    feed, and prepends exactly one event for every such line that is not
    an ISBN; the events that were in the ledger stay at its end. *)
Theorem bulk_text_logs_every_line (c : Env) (text : string) (clock : nat -> Z)
    (st : Session) :
  isEmpty (selectedLibrary c) = false ->
  let lines := bulkLinesOfText text in
  let st' := (handleBulkUploadText c text clock st).2 in
  Forall (fun line => isEmpty (trim line) = false
                      /\ forall i, String.get i line <> Some "010"%char) lines
  /\ exists new,
       scannedItems st' = (new ++ scannedItems st)%list
       /\ length new
          = length (List.filter (fun line => negb (isIsbn (trim line))) lines).
Proof.
  intros H2 lines st'.
  assert (Hlines : Forall (fun line => isEmpty (trim line) = false
                            /\ forall i, String.get i line <> Some "010"%char)
                     lines).
  { apply Forall_forall. intros line [Hl Ht]%elem_of_filter_bool. split.
    - by apply negb_true_iff.
    - pose proof (splitLines_no_linefeed text) as Hall.
      rewrite Forall_forall in Hall. by apply Hall. }
  split; [exact Hlines|].
  subst st'. unfold handleBulkUploadText. rewrite processBarcodesInChunks_scanAll.
  fold lines.
  destruct (scanAll_growth (imap (fun i b => (c, b, clock i)) lines) st)
    as (new & Hnew & Hlen).
  exists new. split; [exact Hnew|]. rewrite Hlen.
  clear -Hlines H2. revert clock.
  induction Hlines as [|line lines [Hline _] _ IH]; intros clock;
    [reflexivity|].
  simpl. unfold reachesClassifier at 1. simpl. rewrite Hline, H2. simpl.
  destruct (isIsbn (trim line)); simpl; [|f_equal]; apply (IH (fun i => clock (S i))).
Qed.

Lemma bulk_text_logs_every_line_witness :
  isEmpty (selectedLibrary sampleEnv) = false
  /\ bulkLinesOfText sampleText = ["101200012345"; "9780134190440"; "55"]
  /\ length (scannedItems
               (handleBulkUploadText sampleEnv sampleText (fun i => Z.of_nat i)
                  emptySession).2) = 2%nat.
Proof.
  assert (H : isEmpty (selectedLibrary sampleEnv) = false) by reflexivity.
  split; [exact H|]. split; [reflexivity|].
  destruct (bulk_text_logs_every_line sampleEnv sampleText
              (fun i => Z.of_nat i) emptySession H)
    as (_ & new & Hnew & Hlen).
  rewrite Hnew, length_app, Hlen. reflexivity.
Defined.

(** ** The summary *)

Lemma mapSet_keys {V : Type} (k : string) (v : V) (m : list (string * V)) :
  map fst (mapSet k v m)
  = if setHas k (map fst m) then map fst m else (map fst m ++ [k])%list.
Proof.
  induction m as [|[k' v'] m IH]; [reflexivity|]. simpl. unfold setHas. simpl.
  rewrite (String.eqb_sym k k').
  destruct (String.eqb k' k) eqn:E; simpl.
  - apply String.eqb_eq in E. by subst.
  - rewrite IH. unfold setHas. by destruct (existsb _ _).
Qed.

Lemma mapSet_elem {V : Type} (k : string) (v : V) (m : list (string * V))
    (e : string * V) :
  e ∈ mapSet k v m -> e ∈ m \/ e = (k, v).
Proof.
  induction m as [|[k' v'] m IH]; simpl.
  - intros H%list_elem_of_singleton. by right.
  - destruct (String.eqb k' k).
    + intros [->|H]%elem_of_cons; [by right|]. left. apply elem_of_cons. by right.
    + intros [->|H]%elem_of_cons; [left; apply elem_of_cons; by left|].
      destruct (IH H) as [H'|H']; [|by right]. left. apply elem_of_cons. by right.
Qed.

Lemma newMap_spec {V : Type} (entries : list (string * V)) :
  NoDup (map fst (newMap entries))
  /\ (forall k, k ∈ map fst (newMap entries) <-> k ∈ map fst entries)
  /\ (forall e, e ∈ newMap entries -> e ∈ entries).
Proof.
  unfold newMap.
  assert (H : forall acc : list (string * V),
            NoDup (map fst acc) ->
            let r := fold_left (fun m e => mapSet e.1 e.2 m) entries acc in
            NoDup (map fst r)
            /\ (forall k, k ∈ map fst r
                          <-> k ∈ map fst acc \/ k ∈ map fst entries)
            /\ (forall e, e ∈ r -> e ∈ acc \/ e ∈ entries)).
  { induction entries as [|[k v] entries IH]; intros acc Hacc; simpl.
    - split; [exact Hacc|]. split; [|by left].
      intros k. rewrite elem_of_nil. tauto.
    - assert (Hkeys := mapSet_keys k v acc).
      assert (Hnd : NoDup (map fst (mapSet k v acc))).
      { rewrite Hkeys. destruct (setHas k (map fst acc)) eqn:E; [exact Hacc|].
        apply NoDup_app. split; [exact Hacc|].
        split; [|apply NoDup_singleton].
        intros x Hx ->%list_elem_of_singleton.
        apply setHas_elem in Hx. congruence. }
      destruct (IH _ Hnd) as (H1 & H2 & H3). split; [exact H1|]. split.
      + intros x. rewrite H2, Hkeys, elem_of_cons.
        destruct (setHas k (map fst acc)) eqn:E.
        * apply setHas_elem in E. split; [tauto|].
          intros [H|[->|H]]; tauto.
        * rewrite elem_of_app, list_elem_of_singleton. tauto.
      + intros e He. destruct (H3 e He) as [H|H].
        * destruct (mapSet_elem _ _ _ _ H) as [H'| ->]; [by left|].
          right. apply elem_of_cons. by left.
        * right. apply elem_of_cons. by right. }
  destruct (H [] (NoDup_nil_2 (A:=string))) as (H1 & H2 & H3).
  split; [exact H1|]. split.
  - intros k. rewrite H2. simpl. rewrite elem_of_nil. tauto.
  - intros e He. destruct (H3 e He) as [H'|H']; [|exact H'].
    by apply elem_of_nil in H'.
Qed.

Lemma unique_barcodes (items : list ScanEvent) :
  NoDup (map barcode (uniqueActiveScannedItems items))
  /\ (forall b, b ∈ map barcode (uniqueActiveScannedItems items)
                <-> b ∈ map barcode (activeScannedItems items))
  /\ (forall e, e ∈ uniqueActiveScannedItems items ->
                e ∈ activeScannedItems items).
Proof.
  unfold uniqueActiveScannedItems.
  set (entries := map (fun item => (barcode item, item))
                    (activeScannedItems items)).
  destruct (newMap_spec entries) as (Hnd & Hkeys & Helem).
  assert (Hpair : forall e, e ∈ newMap entries ->
                            e.2 ∈ activeScannedItems items /\ barcode e.2 = e.1).
  { intros e He. apply Helem in He. subst entries.
    apply list_elem_of_fmap in He as (item & -> & Hitem). by split. }
  assert (Hmap : map barcode (map snd (newMap entries))
                 = map fst (newMap entries)).
  { clear -Hpair. induction (newMap entries) as [|e l IH]; [reflexivity|].
    simpl. rewrite (proj2 (Hpair e ltac:(apply elem_of_cons; by left))).
    f_equal. apply IH. intros x Hx. apply Hpair. apply elem_of_cons. by right. }
  rewrite Hmap. split; [exact Hnd|]. split.
  - intros b. rewrite Hkeys. subst entries. by rewrite map_map.
  - intros e He. apply list_elem_of_fmap in He as (p & -> & Hp).
    by apply Hpair.
Qed.

Lemma not_scanned_size (K S : gset string) :
  length (List.filter (fun b => negb (bool_decide (b ∈ S))) (elements K))
  = size (K ∖ S).
Proof.
  set (l := List.filter _ _).
  assert (Hnd : NoDup l).
  { subst l. rewrite <- (map_id (List.filter _ _)). apply NoDup_fmap_filter.
    rewrite map_id. apply NoDup_elements. }
  rewrite <- (size_list_to_set (C:=gset string) l Hnd). f_equal.
  apply set_eq. intros x. subst l.
  rewrite elem_of_list_to_set, elem_of_filter_bool, elem_of_elements,
    elem_of_difference, negb_true_iff, bool_decide_eq_false. tauto.
Qed.

(** X17. The headline numbers of the summary count identifiers: valid and
    warned together are the distinct identifiers of the scanned events
    whose reference is in the collection.  When each of those identifiers
    is the identifier of an in-collection catalog row, valid, warned and
    missing together are the distinct identifiers of the in-collection
    rows, which is the number of those rows when the identifiers of the
    catalog are distinct. *)
Theorem summary_partitions_collection (kohaData : list Row)
    (items : list ScanEvent) (s : Summary) :
  summaryData kohaData items = Some s ->
  (forall e d, e ∈ items -> data e = Some d -> inCollection d = true ->
     exists r, r ∈ kohaData /\ inCollection r = true /\ rowKey r = barcode e) ->
  (valid s + invalid s)%nat
  = size (list_to_set (map barcode (activeScannedItems items)) : gset string)
  /\ (valid s + invalid s + notScannedCount s)%nat
     = size (list_to_set (map rowKey (activeKohaData kohaData)) : gset string)
  /\ (NoDup (map rowKey kohaData) ->
      (valid s + invalid s + notScannedCount s)%nat
      = length (activeKohaData kohaData)).
Proof.
  unfold summaryData. destruct (_ && _); [discriminate|].
  intros [= <-] Hcat. simpl.
  destruct (unique_barcodes items) as (Hnd & Hkeys & Helem).
  set (unique := uniqueActiveScannedItems items) in *.
  set (K := list_to_set (map (fun item => jsString (barkod item))
                           (activeKohaData kohaData)) : gset string).
  set (S := list_to_set (map barcode unique) : gset string).
  assert (Hvi : (length (List.filter isValid unique)
                 + (length unique - length (List.filter isValid unique)))%nat
                = size S).
  { pose proof (filter_length_le isValid unique) as Hle.
    subst S. rewrite (size_list_to_set _ Hnd), length_map. lia. }
  assert (HS : S = list_to_set (map barcode (activeScannedItems items))).
  { apply set_eq. intros x. subst S. rewrite !elem_of_list_to_set. apply Hkeys. }
  assert (Hsub : S ⊆ K).
  { intros x Hx. rewrite HS in Hx.
    apply elem_of_list_to_set, list_elem_of_fmap in Hx as (e & -> & He).
    apply elem_of_filter_bool in He as [He Hd].
    destruct (data e) as [d|] eqn:Ed; [|discriminate].
    destruct (Hcat e d He Ed Hd) as (r & Hr & Hin & Hkey).
    subst K. apply elem_of_list_to_set, list_elem_of_fmap.
    exists r. split; [by symmetry|]. by apply elem_of_filter_bool. }
  assert (Hall : (length (List.filter isValid unique)
                  + (length unique - length (List.filter isValid unique))
                  + length (List.filter
                              (fun b => negb (bool_decide (b ∈ S)))
                              (elements K)))%nat = size K).
  { rewrite Hvi, not_scanned_size, (size_difference _ _ Hsub).
    pose proof (subseteq_size _ _ Hsub). lia. }
  split; [by rewrite Hvi, HS|]. split; [exact Hall|].
  intros Hkeysnd. rewrite Hall. subst K.
  rewrite size_list_to_set, length_map; [reflexivity|].
  unfold activeKohaData. by apply NoDup_fmap_filter.
Qed.

Lemma summary_partitions_collection_witness :
  summaryData [sampleRow] (scannedItems scannedOnce)
  = Some {| totalScanned := 1; valid := 1; invalid := 0;
            notScannedCount := 0; scanSpeed := Speed 0 |}
  /\ (1 + 0 + 0)%nat = length (activeKohaData [sampleRow]).
Proof.
  assert (H1 : summaryData [sampleRow] (scannedItems scannedOnce)
               = Some {| totalScanned := 1; valid := 1; invalid := 0;
                         notScannedCount := 0; scanSpeed := Speed 0 |})
    by (vm_compute; reflexivity).
  assert (H2 : forall e d, e ∈ scannedItems scannedOnce -> data e = Some d ->
                 inCollection d = true ->
                 exists r, r ∈ [sampleRow] /\ inCollection r = true
                           /\ rowKey r = barcode e).
  { intros e d He _ _. exists sampleRow.
    replace (scannedItems scannedOnce)
      with [ {| barcode := "101200012345"; isValid := true; warnings := [];
                data := Some sampleRow; timestamp := 1 |} ] in He
      by (vm_compute; reflexivity).
    apply list_elem_of_singleton in He. subst e.
    split; [apply list_elem_of_singleton; reflexivity|]. split; reflexivity. }
  assert (H3 : NoDup (map rowKey [sampleRow]))
    by (apply NoDup_singleton).
  split; [exact H1|].
  exact (proj2 (proj2 (summary_partitions_collection _ _ _ H1 H2)) H3).
Defined.

(** ** The reports *)

Lemma fieldWarnings_no_duplicate (selectedLocation : string) (itemData : Row) :
  existsb (fun w => bool_decide (warn_id w = duplicate))
    (fieldWarnings selectedLocation itemData) = false.
Proof.
  unfold fieldWarnings.
  destruct (negb (isEmpty selectedLocation) && _);
    destruct (negb (_ || _));
    destruct (negb (String.eqb (jsString (materyal_statusu_kodu itemData)) "0"));
    destruct (String.eqb (jsString (odunc_durumu itemData)) "1"); reflexivity.
Qed.

(** The event of a scan whose identifier is new is not duplicate-warned,
    and it carries the normalized identifier unless the scan is a
    truncated rejection. *)
Lemma fresh_event (c : Env) (input : string) (now : Z) (st : Session) :
  reachesClassifier c input = true ->
  normalizedOf c input ∉ processedBarcodes st ->
  exists ev,
    scannedItems (processBarcode c input now st).2 = ev :: scannedItems st
    /\ duplicateWarned ev = false
    /\ (truncatedRejection c input = false -> barcode ev = normalizedOf c input).
Proof.
  intros Hreach Hnotin. rewrite (processBarcode_classify _ _ _ _ Hreach).
  destruct (classify_cases c (trim input) now st)
    as [[Hin _]|[(_ & Hlen & Hpre & ->)|(_ & _ & Heq)]].
  - contradiction.
  - eexists. split; [reflexivity|]. split.
    + unfold duplicateWarned. simpl.
      destruct (structuralWarning_id
                  (normalizedBarcode
                     (normalize (expectedPrefixOf (selectedLibrary c))
                        (trim input)))
                  (combinedLibraries c)) as [-> | ->]; reflexivity.
    + intros Htrunc. simpl. apply rejection_keeps_identifier; [|exact Hpre].
      rewrite stripNonDigits_trim. exact Htrunc.
  - simpl in Heq. rewrite Heq. eexists. split; [reflexivity|].
    split; [|reflexivity]. unfold duplicateWarned, lookupWarnings. simpl.
    destruct (kohaDataMap c !! _); [apply fieldWarnings_no_duplicate|].
    by destruct (wasAutoCompleted _).
Qed.

Lemma filter_sublist_impl {A : Type} (P Q : A -> bool) (l : list A) :
  (forall x, P x = true -> Q x = true) ->
  List.filter P l `sublist_of` List.filter Q l.
Proof.
  intros H. induction l as [|x l IH]; simpl; [constructor|].
  destruct (P x) eqn:EP.
  - rewrite (H x EP). by apply sublist_skip.
  - destruct (Q x); [by apply sublist_cons | exact IH].
Qed.

Lemma missingItems_elem (kohaData : list Row) (items : list ScanEvent) (r : Row) :
  r ∈ missingItems kohaData items <->
  r ∈ kohaData /\ inCollection r = true
  /\ forall e, e ∈ items -> barcode e = rowKey r -> duplicateWarned e = true.
Proof.
  unfold missingItems. rewrite elem_of_filter_bool, andb_true_iff,
    negb_true_iff, bool_decide_eq_false, elem_of_list_to_set, list_elem_of_fmap.
  fold (rowKey r). split.
  - intros (Hr & Hin & Hno). split; [exact Hr|]. split; [exact Hin|].
    intros e He Hb. destruct (duplicateWarned e) eqn:Ed; [reflexivity|].
    exfalso. apply Hno. exists e. split; [by symmetry|].
    apply elem_of_filter_bool. split; [exact He|]. by rewrite Ed.
  - intros (Hr & Hin & Hall). split; [exact Hr|]. split; [exact Hin|].
    intros (e & Hb & [He Hd]%elem_of_filter_bool).
    rewrite (Hall e He (eq_sym Hb)) in Hd. discriminate.
Qed.

(** X18. The report of missing items lists the in-collection catalog rows
    whose identifier is carried by no event other than duplicate-warned
    ones.  Logging a further event never adds a row to the report, and
    after a scan of a new identifier that is not a truncated rejection
    no row with that identifier is listed. *)
Theorem missing_report_after_scan (kohaData : list Row) (c : Env)
    (input : string) (now : Z) (st : Session) :
  reachesClassifier c input = true ->
  normalizedOf c input ∉ processedBarcodes st ->
  truncatedRejection c input = false ->
  let st' := (processBarcode c input now st).2 in
  (forall r, r ∈ missingItems kohaData (scannedItems st) <->
             r ∈ kohaData /\ inCollection r = true
             /\ forall e, e ∈ scannedItems st -> barcode e = rowKey r ->
                          duplicateWarned e = true)
  /\ missingItems kohaData (scannedItems st')
     `sublist_of` missingItems kohaData (scannedItems st)
  /\ Forall (fun r => rowKey r <> normalizedOf c input)
       (missingItems kohaData (scannedItems st')).
Proof.
  intros Hreach Hnotin Htrunc st'.
  destruct (fresh_event c input now st Hreach Hnotin) as (ev & Hitems & Hdup & Hbar).
  specialize (Hbar Htrunc). subst st'. rewrite Hitems.
  split; [apply missingItems_elem|]. split.
  - unfold missingItems. apply filter_sublist_impl. intros r.
    rewrite !andb_true_iff, !negb_true_iff, !bool_decide_eq_false.
    intros [Hin Hno]. split; [exact Hin|]. intros Hr. apply Hno.
    simpl. rewrite Hdup. simpl. apply elem_of_union_r. exact Hr.
  - apply Forall_forall. intros r Hr Hkey.
    apply missingItems_elem in Hr as (_ & _ & Hall).
    rewrite (Hall ev) in Hdup; [discriminate | apply elem_of_cons; by left|].
    by rewrite Hbar, Hkey.
Qed.

Lemma missing_report_after_scan_witness :
  reachesClassifier sampleEnv "101200012345" = true
  /\ (normalizedOf sampleEnv "101200012345" ∉ processedBarcodes emptySession)
  /\ truncatedRejection sampleEnv "101200012345" = false
  /\ Forall (fun r => rowKey r <> normalizedOf sampleEnv "101200012345")
       (missingItems [sampleRow] (scannedItems scannedOnce)).
Proof.
  assert (H1 : reachesClassifier sampleEnv "101200012345" = true)
    by reflexivity.
  assert (H2 : normalizedOf sampleEnv "101200012345"
               ∉ processedBarcodes emptySession)
    by apply not_elem_of_empty.
  assert (H3 : truncatedRejection sampleEnv "101200012345" = false)
    by reflexivity.
  split; [exact H1|]. split; [exact H2|]. split; [exact H3|].
  exact (proj2 (proj2 (missing_report_after_scan [sampleRow] sampleEnv
                         "101200012345" 1 emptySession H1 H2 H3))).
Defined.

(** Every event that a run logs satisfies what each logged event
    satisfies. *)
Lemma run_Forall (P : ScanEvent -> Prop) (ops : list Op) :
  (forall c input now st ev,
     scannedItems (processBarcode c input now st).2 = ev :: scannedItems st ->
     P ev) ->
  Forall P (scannedItems (run ops emptySession)).
Proof.
  intros HP.
  assert (H : forall st, Forall P (scannedItems st) ->
                         Forall P (scannedItems (run ops st))).
  { induction ops as [|op ops IH]; intros st Hst; [exact Hst|].
    simpl. apply IH. destruct op as [c input now|ts|]; simpl.
    - destruct (reachesClassifier c input) eqn:Hreach.
      + destruct (processBarcode_reached c input now st Hreach)
          as (ev & Heq & _).
        pose proof (HP c input now st ev) as Hev. rewrite Heq in Hev |- *.
        simpl in *. constructor; [by apply Hev | exact Hst].
      + by destruct (processBarcode_unreached c input now st Hreach) as [-> _].
    - unfold handleDeleteItem.
      destruct (find _ (scannedItems st)); [|exact Hst]. simpl.
      apply Forall_forall. intros e [He _]%elem_of_filter_bool.
      rewrite Forall_forall in Hst. by apply Hst.
    - constructor. }
  apply H. constructor.
Qed.

(** X19. After any sequence of scans, deletions and clearings, every entry of
    the clean list is a catalog record that is loanable (code 0 or 2), in
    the collection (status 0) and not on loan. *)
Theorem cleanList_records (ops : list Op) :
  Forall (fun d => exists itemData, d = Some itemData /\ cleanRecord itemData)
    (cleanList (scannedItems (run ops emptySession))).
Proof.
  unfold cleanList. apply Forall_fmap, Forall_forall.
  intros e [He Hvalid]%elem_of_filter_bool. simpl.
  pose proof (run_Forall
                (fun e => isValid e = true ->
                          exists itemData, data e = Some itemData
                                           /\ cleanRecord itemData) ops) as H.
  rewrite Forall_forall in H. apply H; [|exact He | exact Hvalid].
  clear. intros c input now st ev Hev Hvalid.
  assert (Hreach : reachesClassifier c input = true).
  { destruct (reachesClassifier c input) eqn:Hreach; [reflexivity|].
    destruct (processBarcode_unreached c input now st Hreach) as [Hst _].
    rewrite Hst in Hev. apply (f_equal length) in Hev. simpl in Hev. lia. }
  rewrite (processBarcode_classify _ _ _ _ Hreach) in Hev.
  destruct (classify_cases c (trim input) now st)
    as [[_ Heq]|[(_ & _ & _ & Heq)|(_ & _ & Heq)]];
    simpl in Heq; rewrite Heq in Hev; simpl in Hev; injection Hev as <-;
    simpl in *; try discriminate.
  unfold lookupWarnings in *.
  destruct (kohaDataMap c !! _) as [itemData|]; [|discriminate].
  exists itemData. split; [reflexivity|].
  apply Nat.eqb_eq, length_zero_iff_nil in Hvalid.
  apply fieldWarnings_nil_iff in Hvalid. unfold cleanRecord. tauto.
Qed.

(** ** The size of the catalog index *)

Lemma buildIndex_dom (json : list Row) :
  dom (buildIndex json) = list_to_set (map rowKey json).
Proof.
  induction json as [|item json IH] using rev_ind; [apply dom_empty_L|].
  rewrite buildIndex_snoc, dom_insert_L, IH, map_app, list_to_set_app_L.
  simpl. apply set_eq. intros x. set_unfold. tauto.
Qed.

Lemma size_list_to_set_le (l : list string) :
  (size (list_to_set l : gset string) <= length l)%nat
  /\ (size (list_to_set l : gset string) = length l -> NoDup l).
Proof.
  induction l as [|x l [IH1 IH2]]; simpl.
  - split; [|intros _; constructor].
    change (size (∅ : gset string) <= 0)%nat. by rewrite size_empty.
  - destruct (decide (x ∈ (list_to_set l : gset string))) as [Hin|Hnotin].
    + assert (({[x]} ∪ list_to_set l : gset string) = list_to_set l) as ->
        by (by apply subseteq_union_1_L, singleton_subseteq_l).
      split; [lia|]. intros H. lia.
    + rewrite size_union by (by apply disjoint_singleton_l).
      rewrite size_singleton. split; [lia|]. intros H.
      apply NoDup_cons. split; [|apply IH2; lia].
      intros Hx. apply Hnotin. by apply elem_of_list_to_set.
Qed.

(** X20. The catalog index has one entry for each distinct identifier of the
    rows: at most as many entries as rows, and exactly as many when and
    only when the identifiers are distinct.  This is the count that the
    worker reports after a load. *)
Theorem buildIndex_size (json : list Row) (wst : Worker.State) :
  dom (buildIndex json) = list_to_set (map rowKey json)
  /\ (size (buildIndex json) <= length json)%nat
  /\ (size (buildIndex json) = length json <-> NoDup (map rowKey json))
  /\ (missingColumn json = false ->
      (Worker.handleExcelLoad json wst).2
      = [Worker.DATA_READY (size (dom (buildIndex json))) json]).
Proof.
  pose proof (buildIndex_dom json) as Hdom.
  assert (Hsize : size (buildIndex json)
                  = size (list_to_set (map rowKey json) : gset string))
    by (by rewrite <- Hdom, size_dom).
  destruct (size_list_to_set_le (map rowKey json)) as [Hle Hnd].
  rewrite length_map in Hle, Hnd.
  split; [exact Hdom|]. split; [by rewrite Hsize|]. split; [split|].
  - rewrite Hsize. exact Hnd.
  - intros H. by rewrite Hsize, size_list_to_set, length_map.
  - intros H. unfold Worker.handleExcelLoad. rewrite H. simpl.
    by rewrite size_dom.
Qed.

(** ** The context of the worker *)

(** X21. After [RESET_STATE] no scan is reported as duplicate and no catalog
    record is found: a scan that reaches the classifier gets a single
    structural or not-found warning and no reference.  After
    [SET_CONTEXT] every scan whose normalized identifier was transmitted
    is reported as duplicate. *)
Theorem worker_context (p : Worker.Payload) (now : Z) (st : Worker.State)
    (libraryOptions : list (string * string)) (processed : list string) :
  workerReaches p = true ->
  (exists result,
     Worker.processBarcodeLogic p now (workerResetState st) = Some result
     /\ data result = None /\ isValid result = false
     /\ (warnings result
         = [structuralWarning (workerNormalized p) (Worker.combinedLibraries st)]
         \/ warnings result = [WARNING_DEFINITIONS autoCompletedNotFound]
         \/ warnings result = [WARNING_DEFINITIONS deleted]))
  /\ (workerNormalized p ∈ processed ->
      exists result,
        Worker.processBarcodeLogic p now
          (workerSetContext libraryOptions processed st) = Some result
        /\ barcode result = workerNormalized p
        /\ warnings result = [WARNING_DEFINITIONS duplicate]).
Proof.
  unfold workerReaches. rewrite !andb_true_iff, !negb_true_iff.
  intros [[H1 H2] H3]. split.
  - unfold Worker.processBarcodeLogic. rewrite H1, H2, H3. simpl.
    fold (workerNormalized p).
    rewrite bool_decide_eq_false_2 by apply not_elem_of_empty.
    destruct (_ && _); eexists; (split; [reflexivity|]); simpl.
    + rewrite lookup_empty. repeat split. by left.
    + rewrite lookup_empty. simpl.
      destruct (wasAutoCompleted _); repeat split; auto.
  - intros Hin. unfold Worker.processBarcodeLogic. rewrite H1, H2, H3. simpl.
    fold (workerNormalized p).
    rewrite bool_decide_eq_true_2 by (by apply elem_of_list_to_set).
    eexists. split; [reflexivity|]. by split.
Qed.

Lemma worker_context_witness :
  workerReaches itemPayload = true
  /\ exists result,
       Worker.processBarcodeLogic itemPayload 1 (workerResetState workerStart)
       = Some result
       /\ data result = None.
Proof.
  assert (H : workerReaches itemPayload = true) by reflexivity.
  split; [exact H|].
  destruct (proj1 (worker_context itemPayload 1 workerStart [] [] H))
    as (result & Hres & Hdata & _).
  by exists result.
Defined.

(** ** The camera scanner *)

Lemma cameraStep_codes_grow (cam : Scanner * Session) (ev : CameraEvent) :
  scannedCodesThisSession cam.1 ⊆ scannedCodesThisSession (cameraStep cam ev).1.
Proof.
  destruct ev as [c isPaused decodedText now|]; simpl; [|done].
  unfold handleScanResult.
  destruct (isPaused || throttled cam.1); [done|].
  destruct (bool_decide _); [done|].
  destruct (processBarcode c decodedText now cam.2).1; simpl;
    try done; apply union_subseteq_r.
Qed.

Lemma camera_codes_kept (events : list CameraEvent) (cam : Scanner * Session)
    (text : string) :
  text ∈ scannedCodesThisSession cam.1 ->
  text ∈ scannedCodesThisSession (fold_left cameraStep events cam).1.
Proof.
  revert cam. induction events as [|ev events IH]; intros cam Hin; [exact Hin|].
  simpl. apply IH. revert Hin. apply cameraStep_codes_grow.
Qed.

(** X22. While the camera stays open, a decoded text is handed to
    [processBarcode] only when the scanner is neither paused nor cooling
    down and has not taken the text before.  An ISBN changes nothing in
    the scanner, so it is neither remembered nor followed by a cooldown;
    every other text is remembered and starts the cooldown.  A text that
    is remembered is never processed again, whatever happens in between. *)
Theorem camera_processes_text_once (c : Env) (isPaused : bool)
    (decodedText : string) (now : Z) (cam : Scanner * Session) :
  let cam' := handleScanResult c isPaused decodedText now cam in
  ((isPaused = true \/ throttled cam.1 = true
    \/ decodedText ∈ scannedCodesThisSession cam.1) -> cam' = cam)
  /\ (isPaused = false -> throttled cam.1 = false ->
      decodedText ∉ scannedCodesThisSession cam.1 ->
      cam'.2 = (processBarcode c decodedText now cam.2).2
      /\ (isIsbn (trim decodedText) = true ->
          isEmpty (selectedLibrary c) = false ->
          cam' = cam)
      /\ ((processBarcode c decodedText now cam.2).1 <> OutcomeIsbn ->
          throttled cam'.1 = true
          /\ decodedText ∈ scannedCodesThisSession cam'.1
          /\ forall events c2 isPaused2 now2,
               handleScanResult c2 isPaused2 decodedText now2
                 (fold_left cameraStep events cam')
               = fold_left cameraStep events cam')).
Proof.
  intros cam'. subst cam'. unfold handleScanResult. split.
  - intros [-> |[Ht|Hin]]; [reflexivity| |].
    + rewrite Ht, orb_true_r. reflexivity.
    + destruct (isPaused || throttled cam.1); [reflexivity|].
      by rewrite (bool_decide_eq_true_2 _ Hin).
  - intros -> Ht Hnotin. rewrite Ht. simpl.
    rewrite (bool_decide_eq_false_2 _ Hnotin).
    split; [by destruct (processBarcode c decodedText now cam.2).1|]. split.
    + intros H3 H2. rewrite (processBarcode_isbn c decodedText now cam.2 H2 H3).
      simpl. by destruct cam.
    + intros Hne.
      assert (Hin : decodedText
                    ∈ scannedCodesThisSession
                        (match (processBarcode c decodedText now cam.2).1 with
                         | OutcomeIsbn =>
                             (cam.1, (processBarcode c decodedText now cam.2).2)
                         | _ =>
                             ({| throttled := true;
                                 scannedCodesThisSession :=
                                   {[ decodedText ]}
                                   ∪ scannedCodesThisSession cam.1 |},
                              (processBarcode c decodedText now cam.2).2)
                         end).1).
      { destruct (processBarcode c decodedText now cam.2).1; simpl;
          try contradiction; apply elem_of_union_l; by apply elem_of_singleton. }
      split; [by destruct (processBarcode c decodedText now cam.2).1|].
      split; [exact Hin|].
      intros events c2 isPaused2 now2.
      set (cam1 := match (processBarcode c decodedText now cam.2).1 with
                   | OutcomeIsbn => _ | _ => _ end) in *.
      assert (Hlater : decodedText
                       ∈ scannedCodesThisSession
                           (fold_left cameraStep events cam1).1).
      { by apply camera_codes_kept. }
      destruct (isPaused2 || throttled (fold_left cameraStep events cam1).1);
        [reflexivity|].
      by rewrite (bool_decide_eq_true_2 _ Hlater).
Qed.
